(** * URL shortener with click analytics: model and verification

    A shallow embedding of the backend of the URL shortener (the slug
    generator, the date-range normaliser, the validators, the error
    middleware and the route handlers of `routes/links.ts` and
    `routes/redirect.ts`) over an explicit model of the relational store,
    followed by the properties of the click-analytics specification.

    Conventions.
    - A JavaScript [Date] is its time value: milliseconds since the epoch
      as a [Z], or [None] for an invalid date (time value NaN).
    - A thrown JavaScript value is a record of the fields the error
      middleware inspects.
    - The store holds the two tables of the migration; every call made on
      the Prisma client is also appended to a trace, so that the order and
      number of store operations of a handler can be stated.
    - What the process draws from its environment (clock, random bytes,
      generated identifiers, the zod and Date parsers) is gathered in [Env]. *)

From Stdlib Require Import ZArith List String Ascii Bool Lia Arith.
From Stdlib Require Import Sorting.Sorted Sorting.Permutation.
From Stdlib Require Strings.Byte.
Import ListNotations.

Local Open Scope string_scope.
Local Open Scope Z_scope.

(* ===================================================================== *)
(** ** ECMAScript time values and the proleptic Gregorian calendar *)
(* ===================================================================== *)

Module Calendar.

Definition msPerDay : Z := 86400000.
Definition msPerHour : Z := 3600000.
Definition msPerMinute : Z := 60000.
Definition msPerSecond : Z := 1000.

(** [Day(t)] and [TimeWithinDay(t)] of ECMA-262 (floor division). *)
Definition Day (t : Z) : Z := t / msPerDay.
Definition TimeWithinDay (t : Z) : Z := t mod msPerDay.

(** Calendar date of the [doe]-th day of a 400-year era that starts on
    1 March of year 0 of the era: (year of the era, month 1..12, day
    1..31), January and February belonging to the next year. *)
Definition era_date (doe : Z) : Z * Z * Z :=
  let yoe := (doe - doe / 1460 + doe / 36524 - doe / 146096) / 365 in
  let doy := doe - (365 * yoe + yoe / 4 - yoe / 100) in
  let mp := (5 * doy + 2) / 153 in
  let d := doy - (153 * mp + 2) / 5 + 1 in
  let m := if mp <? 10 then mp + 3 else mp - 9 in
  (if m <=? 2 then yoe + 1 else yoe, m, d).

(** Calendar date (year, month 1..12, day 1..31) of a day number counted
    from 1970-01-01. *)
Definition civil_from_days (z : Z) : Z * Z * Z :=
  let z := z + 719468 in
  let era := z / 146097 in
  let '(y, m, d) := era_date (z - era * 146097) in
  (y + era * 400, m, d).

(** Day number of a calendar date; the day of the month is not required
    to lie inside the month (day 0 is the last day of the month before). *)
Definition days_from_civil (y m d : Z) : Z :=
  let y := if m <=? 2 then y - 1 else y in
  let era := y / 400 in
  let yoe := y - era * 400 in
  let mp := if m >? 2 then m - 3 else m + 9 in
  let doy := (153 * mp + 2) / 5 + d - 1 in
  let doe := yoe * 365 + yoe / 4 - yoe / 100 + doy in
  era * 146097 + doe - 719468.

(** Chronological (lexicographic) order of calendar dates. *)
Definition date_ltb (a b : Z * Z * Z) : bool :=
  let '(y1, m1, d1) := a in
  let '(y2, m2, d2) := b in
  (y1 <? y2) || (y1 =? y2) && ((m1 <? m2) || (m1 =? m2) && (d1 <? d2)).

(** One pass over [n] consecutive days of an era from day [doe], [prev]
    being the date of the day before: every date has its fields in
    range, follows [prev] and is mapped back to its day number. *)
Definition era_day_ok (doe : Z) (cur : Z * Z * Z) : bool :=
  let '(y, m, d) := cur in
  (0 <=? y) && (y <=? 400) && (1 <=? m) && (m <=? 12)
  && (1 <=? d) && (d <=? 31)
  && ((if m <=? 2 then 1 <=? y else y <=? 399))
  && (days_from_civil y m d + 719468 =? doe).

Fixpoint era_scan (n : nat) (doe : Z) (prev : Z * Z * Z) : bool :=
  match n with
  | O => true
  | S k =>
      let cur := era_date doe in
      date_ltb prev cur && era_day_ok doe cur && era_scan k (doe + 1) cur
  end.

Definition YearFromTime (t : Z) : Z := fst (fst (civil_from_days (Day t))).
(** Months are numbered from 0 in ECMAScript. *)
Definition MonthFromTime (t : Z) : Z := snd (fst (civil_from_days (Day t))) - 1.
Definition DateFromTime (t : Z) : Z := snd (civil_from_days (Day t)).
Definition HourFromTime (t : Z) : Z := (t / msPerHour) mod 24.
Definition MinFromTime (t : Z) : Z := (t / msPerMinute) mod 60.
Definition SecFromTime (t : Z) : Z := (t / msPerSecond) mod 60.
Definition msFromTime (t : Z) : Z := t mod msPerSecond.

Definition MakeTime (hour min sec ms : Z) : Z :=
  hour * msPerHour + min * msPerMinute + sec * msPerSecond + ms.

(** [MakeDay(year, month, date)]: the day number of the first of the
    month, plus [date - 1]. *)
Definition MakeDay (year month date : Z) : Z :=
  let ym := year + month / 12 in
  let mn := month mod 12 in
  days_from_civil ym (mn + 1) 1 + date - 1.

Definition MakeDate (day time : Z) : Z := day * msPerDay + time.

(** [TimeClip]: time values beyond 8.64e15 ms are not dates. *)
Definition maxTime : Z := 8640000000000000.
Definition TimeClip (t : Z) : option Z :=
  if Z.abs t <=? maxTime then Some t else None.

(** A [Date] object, by its time value. *)
Definition JsDate : Type := option Z.

Definition getUTCDate (d : JsDate) : option Z :=
  match d with Some t => Some (DateFromTime t) | None => None end.

(** [Date.prototype.setUTCDate(date)] *)
Definition setUTCDate (d : JsDate) (date : option Z) : JsDate :=
  match d, date with
  | Some t, Some dt =>
      TimeClip (MakeDate (MakeDay (YearFromTime t) (MonthFromTime t) dt)
                         (TimeWithinDay t))
  | _, _ => None
  end.

(** [Date.prototype.setUTCHours(hour, min, sec, ms)] *)
Definition setUTCHours (d : JsDate) (hour min sec ms : Z) : JsDate :=
  match d with
  | Some t => TimeClip (MakeDate (Day t) (MakeTime hour min sec ms))
  | None => None
  end.

(** [a > b] on dates compares the time values; NaN compares false. *)
Definition date_gt (a b : JsDate) : bool :=
  match a, b with
  | Some x, Some y => y <? x
  | _, _ => false
  end.

(** Decimal rendering with leading zeros. *)
Definition digit (n : Z) : ascii := ascii_of_nat (48 + Z.to_nat (n mod 10)).
Definition pad2 (n : Z) : string :=
  String (digit (n / 10)) (String (digit n) EmptyString).
Definition pad3 (n : Z) : string := String (digit (n / 100)) (pad2 n).
Definition pad4 (n : Z) : string := String (digit (n / 1000)) (pad3 n).
Definition pad6 (n : Z) : string :=
  String (digit (n / 100000)) (String (digit (n / 10000)) (pad4 n)).

(** The text [YYYY-MM-DD] of a date with a four-digit year. *)
Definition ymd_text (y m d : Z) : string :=
  (pad4 y ++ "-" ++ pad2 m ++ "-" ++ pad2 d)%string.

(** The two halves of [Date.prototype.toISOString], around the letter T:
    [YYYY-MM-DD] (or the expanded year [+YYYYYY], [-YYYYYY] outside
    0..9999) and [HH:mm:ss.sss]. *)
Definition iso_date_part (t : Z) : string :=
  let y := YearFromTime t in
  ((if ((0 <=? y) && (y <=? 9999))%Z then pad4 y
    else (if (y <? 0)%Z then "-" else "+") ++ pad6 (Z.abs y))
   ++ "-" ++ pad2 (MonthFromTime t + 1) ++ "-" ++ pad2 (DateFromTime t))%string.

Definition iso_time_part (t : Z) : string :=
  (pad2 (HourFromTime t) ++ ":" ++ pad2 (MinFromTime t) ++ ":"
   ++ pad2 (SecFromTime t) ++ "." ++ pad3 (msFromTime t))%string.

Definition toISOString (t : Z) : string :=
  (iso_date_part t ++ "T" ++ iso_time_part t ++ "Z")%string.

End Calendar.

(* ===================================================================== *)
(** ** SQLite: the date function and the ordering of its results *)
(* ===================================================================== *)

Module Sqlite.
Import Calendar.

(** [date(X, 'unixepoch')]: the calendar date, in UTC, of the instant [X]
    seconds after the epoch, as text [YYYY-MM-DD]; NULL ([None]) when the
    instant lies outside the years -4713..9999 that SQLite handles. *)
Definition unixepoch_min : Z := -210866760000.
Definition unixepoch_max : Z := 253402300799.

Definition date_unixepoch (secs : Z) : option string :=
  if (unixepoch_min <=? secs) && (secs <=? unixepoch_max) then
    let '(y, m, d) := civil_from_days (secs / 86400) in
    Some ((if (y <? 0)%Z then "-" else EmptyString) ++ pad4 (Z.abs y)
          ++ "-" ++ pad2 m ++ "-" ++ pad2 d)%string
  else None.

(** Ascending order of a nullable text column under the BINARY
    collation: NULL first, then byte-wise comparison. *)
Definition text_compare (a b : option string) : comparison :=
  match a, b with
  | None, None => Eq
  | None, Some _ => Lt
  | Some _, None => Gt
  | Some x, Some y => String.compare x y
  end.

(** [SELECT k, COUNT( * ) ... GROUP BY k ORDER BY k] as a sorted
    aggregation: each row's key is counted into an association list that
    is kept in ascending key order. *)
Fixpoint bump (k : option string) (acc : list (option string * nat))
  : list (option string * nat) :=
  match acc with
  | [] => [(k, 1%nat)]
  | (k', n) :: rest =>
      match text_compare k k' with
      | Eq => (k', S n) :: rest
      | Lt => (k, 1%nat) :: (k', n) :: rest
      | Gt => (k', n) :: bump k rest
      end
  end.

Definition group_count (keys : list (option string))
  : list (option string * nat) :=
  fold_left (fun acc k => bump k acc) keys [].

(** Equality of keys is decidable. *)
Definition key_dec (a b : option string) : {a = b} + {a <> b}.
Proof. decide equality. apply string_dec. Defined.

(** Ascending order of the groups of an aggregation. *)
Definition key_lt (a b : option string * nat) : Prop :=
  text_compare (fst a) (fst b) = Lt.

(** The count filed under a key, 0 when the key has no group. *)
Fixpoint filed (k : option string) (acc : list (option string * nat)) : nat :=
  match acc with
  | [] => 0%nat
  | (k', n) :: rest => if key_dec k' k then n else filed k rest
  end.

End Sqlite.

(* ===================================================================== *)
(** ** Data model, environment and the monad of handler code *)
(* ===================================================================== *)

(** Rows of the two tables of the migration. *)
Record Link := mkLink {
  link_id : string;
  link_slug : string;
  link_targetUrl : string;
  link_createdAt : Z
}.

Record Click := mkClick {
  click_id : string;
  click_linkId : string;
  click_tsUtc : Z;            (* column ts_utc: epoch milliseconds *)
  click_userAgent : string
}.

(** One entry of a validation error's [details]. *)
Record FieldIssue := mkIssue { issue_field : string; issue_message : string }.

(** A thrown value, by the properties that handlers and the error
    middleware read: [status], [code], [message], [details] and, for the
    errors of the Prisma client, [meta.target]. *)
Record Thrown := mkThrown {
  thrown_status : option nat;
  thrown_code : option string;
  thrown_message : option string;
  thrown_details : option (list FieldIssue);
  thrown_target : option (list string)
}.

(** [new Error(message)], and the RangeError of [toISOString]. *)
Definition js_Error (message : string) : Thrown :=
  mkThrown None None (Some message) None None.

(** One row of the daily series. *)
Record DailyRow := mkDailyRow { day : option string; count : nat }.

Inductive Body : Type :=
| JsonCreated (id slug targetUrl shortUrl : string) (createdAt : Z)
| JsonTotal (total : nat)
| JsonDaily (rows : list DailyRow)
| JsonError (code message : string) (details : option (list FieldIssue))
| PlainText (text : string)
| RedirectTo (location : string).

Record Response := mkResponse { res_status : nat; res_body : Body }.

(** What a request draws from outside the program. *)
Record Env := mkEnv {
  now : Z;                                  (* the clock, epoch milliseconds *)
  random_byte : nat -> Byte.byte;           (* the n-th byte of crypto.randomBytes *)
  cuid : nat -> string;                     (* the n-th identifier of cuid() *)
  zod_iso_datetime : string -> bool;        (* z.iso.datetime() accepts the string *)
  date_parse : string -> option Z;          (* new Date(string); None is NaN *)
  target_url_issues : string -> list string (* messages of the targetUrl schema *)
}.

(** Calls made on the Prisma client. *)
Inductive PrismaCall : Type :=
| LinkFindUniqueById (id : string)
| LinkFindUniqueBySlug (slug : string)
| LinkCreate (slug targetUrl : string)
| ClickCreate (linkId userAgent : string)
| ClickCount (linkId : string) (gte lte : Z)
| QueryRawDaily (linkId : string) (from to : Z).

Record World := mkWorld {
  links : list Link;
  clicks : list Click;
  calls : list PrismaCall;   (* trace of store operations, oldest first *)
  rng_pos : nat;             (* random bytes consumed so far *)
  cuid_pos : nat             (* identifiers drawn so far *)
}.

(** State and exceptions. *)
Definition M (A : Type) : Type := World -> (Thrown + A) * World.

Definition ret {A : Type} (a : A) : M A := fun w => (inr a, w).

Definition bind {A B : Type} (m : M A) (k : A -> M B) : M B :=
  fun w => match m w with
           | (inl e, w') => (inl e, w')
           | (inr a, w') => k a w'
           end.

Definition throw {A : Type} (e : Thrown) : M A := fun w => (inl e, w).

(** [try { m } catch (e) { h e }] *)
Definition try_catch {A : Type} (m : M A) (h : Thrown -> M A) : M A :=
  fun w => match m w with
           | (inl e, w') => h e w'
           | (inr a, w') => (inr a, w')
           end.

(** A pure computation that may throw. *)
Definition lift {A : Type} (r : Thrown + A) : M A := fun w => (r, w).

Declare Scope js_scope.
Delimit Scope js_scope with js.
Notation "x <- c ;; k" := (bind c (fun x => k))
  (at level 61, c at next level, right associativity) : js_scope.
Notation "c ;;; k" := (bind c (fun _ => k))
  (at level 61, right associativity) : js_scope.
Local Open Scope js_scope.

(** JavaScript truthiness of an optional string, and [a || b], [a ?? b]. *)
Definition truthy (s : option string) : bool :=
  match s with
  | Some s => negb (s =? EmptyString)%string
  | None => false
  end.

Definition js_or (a : option string) (b : string) : string :=
  match a with
  | Some s => if (s =? EmptyString)%string then b else s
  | None => b
  end.

Definition js_nullish (a : option string) (b : string) : string :=
  match a with Some s => s | None => b end.

(* ===================================================================== *)
(** ** The store behind the Prisma client *)
(* ===================================================================== *)

Module Prisma.

(** The world after one more call has been traced. *)
Definition record_call (c : PrismaCall) (w : World) : World :=
  mkWorld (links w) (clicks w) (calls w ++ [c]) (rng_pos w) (cuid_pos w).

Definition log (c : PrismaCall) : M unit :=
  fun w => (inr tt, record_call c w).

(** P2002, unique constraint failed on [target]; P2003, foreign key. *)
Definition P2002 (target : list string) : Thrown :=
  mkThrown None (Some "P2002") (Some "Unique constraint failed") None
           (Some target).
Definition P2003 : Thrown :=
  mkThrown None (Some "P2003") (Some "Foreign key constraint failed") None
           None.

Definition slug_taken (slug : string) (w : World) : bool :=
  existsb (fun l => (link_slug l =? slug)%string) (links w).
Definition link_id_used (id : string) (w : World) : bool :=
  existsb (fun l => (link_id l =? id)%string) (links w).
Definition click_id_used (id : string) (w : World) : bool :=
  existsb (fun c => (click_id c =? id)%string) (clicks w).

(** [prisma.link.findUnique({ where: { id } })] *)
Definition link_findUnique_id (id : string) : M (option Link) :=
  log (LinkFindUniqueById id) ;;;
  fun w => (inr (find (fun l => (link_id l =? id)%string) (links w)), w).

(** [prisma.link.findUnique({ where: { slug } })] *)
Definition link_findUnique_slug (slug : string) : M (option Link) :=
  log (LinkFindUniqueBySlug slug) ;;;
  fun w => (inr (find (fun l => (link_slug l =? slug)%string) (links w)), w).

(** [prisma.link.create({ data: { slug, targetUrl } })]: the client draws
    the id from cuid() and the row takes the clock as createdAt; the
    insertion is refused by the unique index on slug, or by the primary
    key. *)
Definition link_create (env : Env) (slug targetUrl : string) : M Link :=
  log (LinkCreate slug targetUrl) ;;;
  fun w =>
    let id := cuid env (cuid_pos w) in
    let w1 := mkWorld (links w) (clicks w) (calls w) (rng_pos w)
                      (S (cuid_pos w)) in
    if slug_taken slug w then (inl (P2002 ["slug"]), w1)
    else if link_id_used id w then (inl (P2002 ["id"]), w1)
    else
      let l := mkLink id slug targetUrl (now env) in
      (inr l, mkWorld (links w ++ [l]) (clicks w) (calls w) (rng_pos w)
                      (S (cuid_pos w))).

(** [prisma.click.create({ data: { linkId, userAgent } })]: id from
    cuid(), ts_utc from the clock; refused by the foreign key on linkId
    or by the primary key. *)
Definition click_create (env : Env) (linkId userAgent : string) : M Click :=
  log (ClickCreate linkId userAgent) ;;;
  fun w =>
    let id := cuid env (cuid_pos w) in
    let w1 := mkWorld (links w) (clicks w) (calls w) (rng_pos w)
                      (S (cuid_pos w)) in
    if negb (link_id_used linkId w) then (inl P2003, w1)
    else if click_id_used id w then (inl (P2002 ["id"]), w1)
    else
      let c := mkClick id linkId (now env) userAgent in
      (inr c, mkWorld (links w) (clicks w ++ [c]) (calls w) (rng_pos w)
                      (S (cuid_pos w))).

(** The rows selected by [linkId = id AND ts_utc >= from AND ts_utc <= to]
    (BETWEEN is the same inclusive test). *)
Definition in_window (id : string) (from to : Z) (c : Click) : bool :=
  (click_linkId c =? id)%string
  && (from <=? click_tsUtc c) && (click_tsUtc c <=? to).

(** [prisma.click.count({ where: { linkId, tsUtc: { gte, lte } } })] *)
Definition click_count (linkId : string) (gte lte : Z) : M nat :=
  log (ClickCount linkId gte lte) ;;;
  fun w => (inr (List.length (filter (in_window linkId gte lte) (clicks w))), w).

(** The key of the raw query: [date(ts_utc/1000, 'unixepoch')], where the
    division of two integers truncates. *)
Definition day_key (c : Click) : option string :=
  Sqlite.date_unixepoch (Z.quot (click_tsUtc c) 1000).

(** The raw query of the daily handler:
    SELECT date(ts_utc/1000,'unixepoch') AS day, COUNT( * ) AS count
    FROM Click WHERE linkId = id AND ts_utc BETWEEN from AND to
    GROUP BY day ORDER BY day. *)
Definition queryRaw_daily (id : string) (from to : Z)
  : M (list (option string * nat)) :=
  log (QueryRawDaily id from to) ;;;
  fun w =>
    (inr (Sqlite.group_count
            (map day_key (filter (in_window id from to) (clicks w)))), w).

End Prisma.

(* ===================================================================== *)
(** ** lib/slug: the slug generator *)
(* ===================================================================== *)

Module Slug.

(** Base62 character set: 0-9, A-Z, a-z. *)
Definition BASE62_CHARS : string :=
  "0123456789ABCDEFGHIJKLMNOPQRSTUVWXYZabcdefghijklmnopqrstuvwxyz".

(** [crypto.randomBytes(size)]: the next [size] bytes of the source. *)
Definition randomBytes (env : Env) (size : nat) : M (list Byte.byte) :=
  fun w =>
    (inr (map (fun i => random_byte env (rng_pos w + i)%nat) (seq 0 size)),
     mkWorld (links w) (clicks w) (calls w) (rng_pos w + size)%nat
             (cuid_pos w)).

(** [s[i]] appended to a string: an index outside [s] yields
    [undefined], which [+=] renders as text. *)
Definition char_at (s : string) (i : N) : string :=
  match String.get (N.to_nat i) s with
  | Some c => String c EmptyString
  | None => "undefined"
  end.

(** One turn of the loop:
    [result += BASE62_CHARS[bytes[i] % BASE62_CHARS.length]]. *)
Definition randomSlug_step (bytes : list Byte.byte) (result : string)
           (i : nat) : string :=
  (result ++
   match nth_error bytes i with
   | Some b =>
       char_at BASE62_CHARS
               (Byte.to_N b mod N.of_nat (String.length BASE62_CHARS))%N
   | None => "undefined"
   end)%string.

(** [randomSlug(len)]; the loop runs for i = 0 .. len - 1. *)
Definition randomSlug (env : Env) (len : nat) : M string :=
  bytes <- randomBytes env len ;;
  ret (fold_left (randomSlug_step bytes) (seq 0 len) EmptyString).

(** The default length of [randomSlug()]. *)
Definition default_len : nat := 7.

(** The alphabet index [byte % 62] of a byte and the symbol at it. *)
Definition byte_index (b : Byte.byte) : nat :=
  N.to_nat (Byte.to_N b mod N.of_nat (String.length BASE62_CHARS)).

Definition base62_of_byte (b : Byte.byte) : ascii :=
  match String.get (byte_index b) BASE62_CHARS with
  | Some c => c
  | None => "0"%char
  end.

(** Digits, uppercase and lowercase letters. *)
Definition base62_symbol (c : ascii) : bool :=
  let n := nat_of_ascii c in
  ((48 <=? n) && (n <=? 57) || (65 <=? n) && (n <=? 90)
   || (97 <=? n) && (n <=? 122))%nat.

End Slug.

(* ===================================================================== *)
(** ** lib/dates: the date-range normaliser *)
(* ===================================================================== *)

Module Dates.
Import Calendar.

Record DateRange := mkRange {
  range_from : option string;
  range_to : option string
}.

Definition range_order_error : Thrown :=
  js_Error "From date cannot be after to date".
Definition invalid_time_value : Thrown := js_Error "Invalid time value".

Definition defaultTo (env : Env) : JsDate :=
  setUTCHours (Some (now env)) 23 59 59 999.

Definition defaultFrom (env : Env) : JsDate :=
  let d := Some (now env) in
  let d := setUTCDate d (option_map (fun date => date - 30) (getUTCDate d)) in
  setUTCHours d 0 0 0 0.

(** [range.from ? new Date(range.from) : defaultFrom], and likewise to. *)
Definition fromDate (env : Env) (range : DateRange) : JsDate :=
  match range_from range with
  | Some s => if truthy (Some s) then date_parse env s else defaultFrom env
  | None => defaultFrom env
  end.

Definition toDate (env : Env) (range : DateRange) : JsDate :=
  match range_to range with
  | Some s => if truthy (Some s) then date_parse env s else defaultTo env
  | None => defaultTo env
  end.

(** [normalizeRange(range)]. The two ISO strings it returns are read
    back by the callers with [new Date]; as [new Date(d.toISOString())]
    is [d], the pair is modelled by the two time values. An invalid date
    makes [toISOString] throw. *)
Definition normalizeRange (env : Env) (range : DateRange) : Thrown + (Z * Z) :=
  let f := fromDate env range in
  let t := toDate env range in
  if date_gt f t then inl range_order_error
  else
    match f, t with
    | Some fromISO, Some toISO => inr (fromISO, toISO)
    | _, _ => inl invalid_time_value
    end.

End Dates.

(* ===================================================================== *)
(** ** lib/validators *)
(* ===================================================================== *)

Module Validators.

Record CreateBody := mkCreateBody {
  body_targetUrl : string;
  body_slug : option string
}.

Record Query := mkQuery { query_from : option string; query_to : option string }.

(** The character class [A-Za-z0-9_-]. *)
Definition slug_char (c : ascii) : bool :=
  let n := nat_of_ascii c in
  ((65 <=? n) && (n <=? 90) || (97 <=? n) && (n <=? 122)
   || (48 <=? n) && (n <=? 57) || (n =? 95) || (n =? 45))%nat.

(** The regular expression of the slug schema, with 1 to 64 characters. *)
Definition slug_regex (s : string) : bool :=
  ((1 <=? String.length s) && (String.length s <=? 64))%nat
  && forallb slug_char (list_ascii_of_string s).

Definition validation_error (message : string) (details : list FieldIssue)
  : Thrown :=
  mkThrown (Some 400%nat) (Some "VALIDATION_ERROR") (Some message)
           (Some details) None.

Definition slug_issues (slug : option string) : list FieldIssue :=
  match slug with
  | Some s =>
      if slug_regex s then []
      else [mkIssue "slug"
              "Slug must be 1-64 characters of letters, numbers, underscore, or dash"]
  | None => []
  end.

(** [parseCreateLink(body)] *)
Definition parseCreateLink (env : Env) (body : CreateBody)
  : Thrown + (string * option string) :=
  let details :=
    (map (mkIssue "targetUrl") (target_url_issues env (body_targetUrl body))
     ++ slug_issues (body_slug body))%list in
  match details with
  | [] => inr (body_targetUrl body, body_slug body)
  | _ => inl (validation_error "Invalid request data" details)
  end.

Definition datetime_issues (env : Env) (field message : string)
           (v : option string) : list FieldIssue :=
  match v with
  | Some s => if zod_iso_datetime env s then [] else [mkIssue field message]
  | None => []
  end.

(** [parseDateRange(query)] *)
Definition parseDateRange (env : Env) (query : Query)
  : Thrown + Dates.DateRange :=
  let details :=
    (datetime_issues env "from" "From date must be a valid ISO datetime string"
                     (query_from query)
     ++ datetime_issues env "to" "To date must be a valid ISO datetime string"
                        (query_to query))%list in
  match details with
  | [] => inr (Dates.mkRange (query_from query) (query_to query))
  | _ => inl (validation_error "Invalid date range parameters" details)
  end.

End Validators.

(* ===================================================================== *)
(** ** middleware/error and the shape of a route handler *)
(* ===================================================================== *)

Module Middleware.

(** [errorHandler]: status, code and message of the thrown value, with
    the defaults 500, INTERNAL and "Unexpected error" for a missing or
    falsy property. *)
Definition errorHandler (err : Thrown) : Response :=
  let status :=
    match thrown_status err with
    | Some n => if (n =? 0)%nat then 500%nat else n
    | None => 500%nat
    end in
  let code := js_or (thrown_code err) "INTERNAL" in
  let message := js_or (thrown_message err) "Unexpected error" in
  mkResponse status (JsonError code message (thrown_details err)).

(** A route handler: [try { body } catch (error) { next(error) }], with
    the error middleware behind [next]. The body yields the response it
    sent, or [None] when it ended without sending one. *)
Definition route (body : M (option Response)) : World -> option Response * World :=
  fun w => match body w with
           | (inl e, w') => (Some (errorHandler e), w')
           | (inr r, w') => (r, w')
           end.

(** [return res.status(n).json(body)], [.send(text)], [.redirect(n, url)];
    [res.json(body)] answers with status 200. *)
Definition respond (status : nat) (body : Body) : M (option Response) :=
  ret (Some (mkResponse status body)).
Definition json (body : Body) : M (option Response) := respond 200%nat body.

End Middleware.

(* ===================================================================== *)
(** ** routes/links *)
(* ===================================================================== *)

Module Links.
Import Middleware.

Record CreateRequest := mkCreateRequest {
  req_body : Validators.CreateBody;
  req_x_forwarded_proto : option string;   (* req.get('X-Forwarded-Proto') *)
  req_secure : bool;
  req_host : option string                 (* req.get('Host') *)
}.

Record AnalyticsRequest := mkAnalyticsRequest {
  param_id : string;
  req_query : Validators.Query
}.

Definition not_found : Thrown :=
  mkThrown (Some 404%nat) (Some "NOT_FOUND") (Some "Link not found") None None.

(** [ensureLinkExists(id)] *)
Definition ensureLinkExists (id : string) : M string :=
  link <- Prisma.link_findUnique_id id ;;
  match link with
  | None => throw not_found
  | Some l => ret (link_id l)
  end.

Definition maxRetries : nat := 3.

Definition slug_taken_response : Response :=
  mkResponse 409%nat (JsonError "SLUG_TAKEN" "Slug already exists" None).

Definition retries_exhausted_response : Response :=
  mkResponse 500%nat
    (JsonError "INTERNAL"
       "Unable to generate unique slug after multiple attempts" None).

Definition created_response (req : CreateRequest) (link : Link)
           (slug : string) : Response :=
  let protocol :=
    js_or (req_x_forwarded_proto req)
          (if req_secure req then "https" else "http") in
  let host := js_or (req_host req) "localhost:3000" in
  let shortUrl := (protocol ++ "://" ++ host ++ "/r/" ++ slug)%string in
  mkResponse 201%nat
    (JsonCreated (link_id link) (link_slug link) (link_targetUrl link)
                 shortUrl (link_createdAt link)).

(** [dbError.code === 'P2002' && dbError.meta?.target?.includes('slug')] *)
Definition is_slug_conflict (dbError : Thrown) : bool :=
  match thrown_code dbError, thrown_target dbError with
  | Some code, Some target =>
      (code =? "P2002")%string
      && existsb (fun f => (f =? "slug")%string) target
  | _, _ => false
  end.

(** The loop [while (retries <= maxRetries) { try ... catch ... }] of the
    create handler, from the state ([retries], [slug]). [fuel] bounds the
    number of turns of the model; a loop left without a response yields
    [None]. *)
Fixpoint create_loop (env : Env) (fuel : nat) (req : CreateRequest)
         (targetUrl : string) (wasSlugProvided : bool)
         (retries : nat) (slug : string) : M (option Response) :=
  match fuel with
  | O => ret None
  | S fuel' =>
      if (retries <=? maxRetries)%nat then
        try_catch
          (link <- Prisma.link_create env slug targetUrl ;;
           ret (Some (created_response req link slug)))
          (fun dbError =>
             if is_slug_conflict dbError then
               if wasSlugProvided then ret (Some slug_taken_response)
               else if (retries <? maxRetries)%nat then
                 slug' <- Slug.randomSlug env Slug.default_len ;;
                 create_loop env fuel' req targetUrl wasSlugProvided
                             (S retries) slug'
               else ret (Some retries_exhausted_response)
             else throw dbError)
      else ret None
  end.

(** POST /api/v1/links *)
Definition create_handler (env : Env) (req : CreateRequest)
  : World -> option Response * World :=
  route (
    parsed <- lift (Validators.parseCreateLink env (req_body req)) ;;
    let targetUrl := fst parsed in
    let userSlug := snd parsed in
    slug <- (if truthy userSlug then ret (js_nullish userSlug EmptyString)
             else Slug.randomSlug env Slug.default_len) ;;
    let wasSlugProvided := truthy userSlug in
    create_loop env (S (S maxRetries)) req targetUrl wasSlugProvided 0%nat slug).

(** GET /api/v1/links/:id/analytics/summary *)
Definition summary_handler (env : Env) (req : AnalyticsRequest)
  : World -> option Response * World :=
  route (
    let id := param_id req in
    ensureLinkExists id ;;;
    dateRange <- lift (Validators.parseDateRange env (req_query req)) ;;
    range <- lift (Dates.normalizeRange env dateRange) ;;
    total <- Prisma.click_count id (fst range) (snd range) ;;
    json (JsonTotal total)).

(** [row => ({ day: row.day, count: Number(row.count) })] *)
Definition to_row (row : option string * nat) : DailyRow :=
  mkDailyRow (fst row) (snd row).

(** GET /api/v1/links/:id/analytics/daily *)
Definition daily_handler (env : Env) (req : AnalyticsRequest)
  : World -> option Response * World :=
  route (
    let id := param_id req in
    ensureLinkExists id ;;;
    dateRange <- lift (Validators.parseDateRange env (req_query req)) ;;
    range <- lift (Dates.normalizeRange env dateRange) ;;
    dailyData <- Prisma.queryRaw_daily id (fst range) (snd range) ;;
    let dailyStats := map to_row dailyData in
    json (JsonDaily dailyStats)).

End Links.

(* ===================================================================== *)
(** ** routes/redirect *)
(* ===================================================================== *)

Module Redirect.
Import Middleware.

Record RedirectRequest := mkRedirectRequest {
  param_slug : string;
  header_user_agent : option string     (* req.headers['user-agent'] *)
}.

(** GET /r/:slug *)
Definition redirect_handler (env : Env) (req : RedirectRequest)
  : World -> option Response * World :=
  route (
    link <- Prisma.link_findUnique_slug (param_slug req) ;;
    match link with
    | None => respond 404%nat (PlainText "Not found")
    | Some l =>
        Prisma.click_create env (link_id l)
                            (js_nullish (header_user_agent req) EmptyString) ;;;
        respond 302%nat (RedirectTo (link_targetUrl l))
    end).

End Redirect.

(* ===================================================================== *)
(** ** Notions of the specification *)
(* ===================================================================== *)

Module Spec.
Import Calendar.

(** End of the UTC day of an instant (23:59:59.999), and its start
    (00:00:00.000). *)
Definition end_of_utc_day (t : Z) : Z := MakeDate (Day t) (msPerDay - 1).
Definition start_of_utc_day (t : Z) : Z := MakeDate (Day t) 0.

(** The instant [n] days before [t]. *)
Definition days_before (n t : Z) : Z := t - n * msPerDay.

(** The UTC calendar date of a timestamp: the date portion of its UTC
    rendering. *)
Definition utc_calendar_date (t : Z) : string := iso_date_part t.

(** A clock reading whose default window (30 days back, to the end of
    the day) consists of time values that are dates. *)
Definition clock_in_range (env : Env) : Prop :=
  Z.abs (now env) <= maxTime - 31 * msPerDay.

(** The last millisecond of the year 9999: timestamps recorded from a
    clock between the epoch and this instant have a four-digit year. *)
Definition max_recorded : Z := 253402300799999.

Definition recorded (t : Z) : Prop := 0 <= t <= max_recorded.

(** Every click of the store was recorded in that period. *)
Definition clicks_recorded (w : World) : Prop :=
  forall c, In c (clicks w) -> recorded (click_tsUtc c).

(** A Link with this id, or with this slug, exists. *)
Definition link_exists (id : string) (w : World) : Prop :=
  exists l, In l (links w) /\ link_id l = id.
Definition slug_exists (slug : string) (w : World) : Prop :=
  exists l, In l (links w) /\ link_slug l = slug.

(** A ClickEvent of link [id] whose timestamp lies in [from, to],
    both ends included. *)
Definition within (id : string) (from to : Z) (c : Click) : Prop :=
  click_linkId c = id /\ from <= click_tsUtc c <= to.

Definition within_dec (id : string) (from to : Z) (c : Click) :
  {within id from to c} + {~ within id from to c}.
Proof.
  unfold within.
  destruct (string_dec (click_linkId c) id) as [E|N].
  - destruct (Z_le_dec from (click_tsUtc c)) as [L1|N1].
    + destruct (Z_le_dec (click_tsUtc c) to) as [L2|N2].
      * left. auto.
      * right. intros [_ [_ H]]. contradiction.
    + right. intros [_ [H _]]. contradiction.
  - right. intros [H _]. contradiction.
Defined.

(** The ClickEvents of link [id] within [from, to], and those of them
    whose UTC calendar date is [d]. *)
Definition clicks_within (id : string) (from to : Z) (w : World) : list Click :=
  filter (fun c => if within_dec id from to c then true else false) (clicks w).

Definition clicks_on_day (d : string) (id : string) (from to : Z) (w : World)
  : list Click :=
  filter (fun c => (utc_calendar_date (click_tsUtc c) =? d)%string)
         (clicks_within id from to w).

(** The ClickEvents of link [id] within [from, to] were recorded between
    1970 and 9999. *)
Definition window_recorded (id : string) (from to : Z) (w : World) : Prop :=
  forall c, In c (clicks_within id from to w) -> recorded (click_tsUtc c).

(** Row [a] comes before row [b] in a daily series: its day is smaller as
    text (the order of ORDER BY), and is an earlier UTC day than [b]'s
    for the clicks of the window that they are the calendar dates of. *)
Definition day_precedes (id : string) (from to : Z) (w : World)
           (a b : DailyRow) : Prop :=
  Sqlite.text_compare (day a) (day b) = Lt
  /\ forall c1 c2,
      In c1 (clicks_within id from to w) ->
      In c2 (clicks_within id from to w) ->
      day a = Some (utc_calendar_date (click_tsUtc c1)) ->
      day b = Some (utc_calendar_date (click_tsUtc c2)) ->
      Day (click_tsUtc c1) < Day (click_tsUtc c2).

(** The failure kinds of the error taxonomy, and the kind that the
    [code] of an error envelope stands for. *)
Inductive ErrorKind : Type :=
| ValidationError | Conflict | NotFound | InvalidRange | Exhausted.

Definition kind_of_code (code : string) : option ErrorKind :=
  if (code =? "VALIDATION_ERROR")%string then Some ValidationError
  else if (code =? "SLUG_TAKEN")%string then Some Conflict
  else if (code =? "NOT_FOUND")%string then Some NotFound
  else if (code =? "INVALID_RANGE")%string then Some InvalidRange
  else if (code =? "INTERNAL")%string then Some Exhausted
  else None.

Definition response_kind (r : Response) : option ErrorKind :=
  match res_body r with
  | JsonError code _ _ => kind_of_code code
  | _ => None
  end.

(** The slug returned by the [k]-th call (from 0) of [randomSlug()] made
    from world [w]: calls consume [default_len] bytes each. *)
Definition generated (env : Env) (w : World) (k : nat) : string :=
  let bytes :=
    map (fun i => random_byte env (k * Slug.default_len + rng_pos w + i)%nat)
        (seq 0 Slug.default_len) in
  fold_left (Slug.randomSlug_step bytes) (seq 0 Slug.default_len) EmptyString.

(** The insertions attempted with the first [n] generated slugs. *)
Definition attempts (env : Env) (w : World) (targetUrl : string) (n : nat)
  : list PrismaCall :=
  map (fun j => LinkCreate (generated env w j) targetUrl) (seq 0 n).

(** The world in which the create handler makes attempt [k] (from 0)
    with a generated slug: [k] insertions were refused, [k + 1] slugs
    were generated. *)
Definition before_attempt (env : Env) (w : World) (targetUrl : string)
           (k : nat) : World :=
  mkWorld (links w) (clicks w) (calls w ++ attempts env w targetUrl k)
          (S k * Slug.default_len + rng_pos w)%nat (cuid_pos w + k)%nat.

(** The store with one more ClickEvent. *)
Definition with_click (c : Click) (w : World) : World :=
  mkWorld (links w) (clicks w ++ [c]) (calls w) (rng_pos w) (cuid_pos w).

(** Sum of the counts of a daily series. *)
Definition total_of (rows : list DailyRow) : nat :=
  fold_right (fun r acc => (count r + acc)%nat) 0%nat rows.

End Spec.

(* ===================================================================== *)
(** ** A concrete environment and store *)
(* ===================================================================== *)

Module Scenario.

Definition iso_table (s : string) : option Z :=
  if (s =? "2025-01-01T00:00:00.000Z")%string then Some 1735689600000
  else if (s =? "2025-01-03T23:59:59.999Z")%string then Some 1735948799999
  else None.

(** Clock at 2025-01-01T10:00:00.000Z; the random source yields the
    bytes 0, 1, 2, ...; identifiers are numbered by letters. *)
Definition env : Env :=
  mkEnv 1735725600000
        (fun n => match Byte.of_nat (n mod 256) with
                  | Some b => b
                  | None => Byte.x00
                  end)
        (fun n => String "c" (String (ascii_of_nat (97 + n)) EmptyString))
        (fun s => match iso_table s with Some _ => true | None => false end)
        iso_table
        (fun _ => []).

Definition link1 : Link :=
  mkLink "L1" "analytics-test" "https://example.com/analytics" 1735600000000.

Definition click_at (id : string) (t : Z) : Click := mkClick id "L1" t "test".

(** The store of the daily-aggregation test: 3, 5 and 2 clicks on three
    consecutive days of January 2025. *)
Definition store : World :=
  mkWorld [link1]
    [click_at "k01" 1735725600000; click_at "k02" 1735743600000;
     click_at "k03" 1735761600000; click_at "k04" 1735808400000;
     click_at "k05" 1735819200000; click_at "k06" 1735830000000;
     click_at "k07" 1735840800000; click_at "k08" 1735851600000;
     click_at "k09" 1735902000000; click_at "k10" 1735920000000]
    [] 0%nat 0%nat.

(** The same link before any visit. *)
Definition quiet : World := mkWorld [link1] [] [] 0%nat 0%nat.

Definition query : Validators.Query :=
  Validators.mkQuery (Some "2025-01-01T00:00:00.000Z")
                     (Some "2025-01-03T23:59:59.999Z").


(** A store in which the first slugs of the random source are taken. *)
Definition taken (n : nat) : World :=
  mkWorld (map (fun k => mkLink (String "t" (String (ascii_of_nat (48 + k)) EmptyString))
                                (Spec.generated env store k)
                                "https://example.com/old" 0)
               (seq 0 n))
          [] [] 0%nat 0%nat.

Definition create_request (slug : option string) : Links.CreateRequest :=
  Links.mkCreateRequest (Validators.mkCreateBody "https://example.com/x" slug)
                        None false (Some "sho.rt").

End Scenario.

(* ===================================================================== *)
(** ** The constraints of the schema *)
(* ===================================================================== *)

Module Schema.

(** The unique index on [Link.slug] and the two primary keys. *)
Definition slugs_unique (w : World) : Prop := NoDup (map link_slug (links w)).
Definition link_ids_unique (w : World) : Prop := NoDup (map link_id (links w)).
Definition click_ids_unique (w : World) : Prop :=
  NoDup (map click_id (clicks w)).

(** The foreign key of [Click.linkId]: every click belongs to a link of
    the table. *)
Definition clicks_reference_links (w : World) : Prop :=
  forall c, In c (clicks w) ->
    exists l, In l (links w) /\ link_id l = click_linkId c.

Definition consistent (w : World) : Prop :=
  slugs_unique w /\ link_ids_unique w /\ click_ids_unique w
  /\ clicks_reference_links w.

(** Every stored slug matches the pattern of the slug schema. *)
Definition slugs_well_formed (w : World) : Prop :=
  forall l, In l (links w) -> Validators.slug_regex (link_slug l) = true.

End Schema.

(* ===================================================================== *)
(** ** routes/links: the listing *)
(* ===================================================================== *)

Module Listing.
Import Middleware.

(** [ORDER BY createdAt DESC] as an insertion into a list that is kept
    in descending order of [createdAt]. *)
Fixpoint insert_desc (l : Link) (acc : list Link) : list Link :=
  match acc with
  | [] => [l]
  | x :: rest =>
      if link_createdAt x <? link_createdAt l then l :: x :: rest
      else x :: insert_desc l rest
  end.

(** [prisma.link.findMany({ select: { id, slug, targetUrl, createdAt },
    orderBy: { createdAt: 'desc' } })]: the selection keeps every column
    of the table. The order of rows created at the same instant is left
    open by the query; the insertion below fixes one. The read is not
    among the operations that the trace [calls] tells apart. *)
Definition link_findMany_desc : M (list Link) :=
  fun w => (inr (fold_right insert_desc [] (links w)), w).

(** The body [{ links }] of the listing, sent with status 200, or the
    envelope of the error middleware. *)
Inductive ListAnswer : Type :=
| JsonLinks (status : nat) (rows : list Link)
| Failed (response : Response).

(** GET /api/v1/links *)
Definition list_handler : World -> option ListAnswer * World :=
  fun w => match link_findMany_desc w with
           | (inl e, w') => (Some (Failed (errorHandler e)), w')
           | (inr rows, w') => (Some (JsonLinks 200%nat rows), w')
           end.

(** Newest first. *)
Definition newer_or_same (a b : Link) : Prop :=
  link_createdAt b <= link_createdAt a.

End Listing.

(* ===================================================================== *)
(** ** seed: the times of the sample clicks *)
(* ===================================================================== *)

Module Seed.
Import Calendar.

(** [const DAILY_CLICK_COUNTS = [20, 15, 25, 12, 18, 22, 8]] and the
    patterns of the two other sample links. *)
Definition DAILY_CLICK_COUNTS : list Z := [20; 15; 25; 12; 18; 22; 8].
Definition google_pattern : list Z := [8; 12; 15; 7; 11; 9; 13].
Definition stack_overflow_pattern : list Z := [3; 5; 7; 4; 6; 8; 2].

(** The number of entries of [USER_AGENTS]. *)
Definition USER_AGENTS_length : Z := 8.

(** [const today = new Date(); today.setUTCHours(23, 59, 59, 999)] *)
Definition today (env : Env) : JsDate :=
  setUTCHours (Some (now env)) 23 59 59 999.

(** [targetDate]: a copy of [today] moved to the day of the month
    [today.getUTCDate() - dayOffset], then to 00:00:00.000. *)
Definition targetDate (env : Env) (dayOffset : Z) : JsDate :=
  let d := today env in
  let d := setUTCDate d (option_map (fun date => date - dayOffset)
                                    (getUTCDate (today env))) in
  setUTCHours d 0 0 0 0.

(** The hour, minute, second and millisecond of click [clickIndex] of a
    day with [dayClickCount] clicks, for a slug of [slugLength]
    characters. The loop calls this with
    [0 <= clickIndex < dayClickCount], where [Math.floor] of the
    quotient is the integer quotient and [%] the remainder. *)
Definition click_hour (dayClickCount clickIndex : Z) : Z :=
  (clickIndex * 24) / dayClickCount.
Definition click_minute (slugLength clickIndex : Z) : Z :=
  Z.rem (clickIndex * 37 + slugLength * 11) 60.
Definition click_second (slugLength clickIndex : Z) : Z :=
  Z.rem (clickIndex * 17 + slugLength * 7) 60.

(** [clickTime]: a copy of [targetDate] with the time of day set. *)
Definition clickTime (env : Env) (slugLength dayOffset dayClickCount
                                  clickIndex : Z) : JsDate :=
  setUTCHours (targetDate env dayOffset)
              (click_hour dayClickCount clickIndex)
              (click_minute slugLength clickIndex)
              (click_second slugLength clickIndex)
              (Z.rem clickIndex 1000).

(** The index into [USER_AGENTS] of the agent of a click. *)
Definition userAgent_index (slugLength clickIndex : Z) : Z :=
  Z.rem (clickIndex + slugLength * 3) USER_AGENTS_length.

(** The times of the clicks of one day,
    [for (clickIndex = 0; clickIndex < dayClickCount; clickIndex++)], and
    of one link, [for (dayOffset = 0; dayOffset < 7; dayOffset++)] with
    [dayClickCount = clickPattern[dayOffset]]; a missing entry of the
    pattern is [undefined], for which the inner loop does not run. *)
Definition day_click_times (env : Env) (slugLength dayOffset dayClickCount : Z)
  : list JsDate :=
  map (fun i => clickTime env slugLength dayOffset dayClickCount (Z.of_nat i))
      (seq 0 (Z.to_nat dayClickCount)).

Definition link_click_times (env : Env) (slugLength : Z)
           (clickPattern : list Z) : list JsDate :=
  flat_map (fun dayOffset =>
              day_click_times env slugLength (Z.of_nat dayOffset)
                              (nth dayOffset clickPattern 0))
           (seq 0 7).

(** The clicks of a list of times that fall on UTC day [d]. *)
Definition on_day (d : Z) (times : list JsDate) : list JsDate :=
  filter (fun x => match x with Some t => Day t =? d | None => false end)
         times.

End Seed.

(* ===================================================================== *)
(** ** The shapes of the answers *)
(* ===================================================================== *)

Module Answers.

(** The statuses that go with the codes of an error envelope. *)
Definition error_codes : list (nat * string) :=
  [(400%nat, "VALIDATION_ERROR"); (404%nat, "NOT_FOUND");
   (409%nat, "SLUG_TAKEN"); (500%nat, "INTERNAL"); (500%nat, "P2002")].

(** An answer is well-shaped when its status goes with its body: 201
    with a created link, 200 with a total or a series, 302 with a
    redirect, 404 with the text "Not found", and for an error envelope
    one of the pairs of [error_codes], a message that is not empty, and
    [details] exactly for a validation error. *)
Definition well_shaped (r : Response) : Prop :=
  match res_body r with
  | JsonCreated _ _ _ _ _ => res_status r = 201%nat
  | JsonTotal _ => res_status r = 200%nat
  | JsonDaily _ => res_status r = 200%nat
  | RedirectTo _ => res_status r = 302%nat
  | PlainText text => res_status r = 404%nat /\ text = "Not found"
  | JsonError code message details =>
      In (res_status r, code) error_codes
      /\ message <> EmptyString
      /\ (details <> None <-> code = "VALIDATION_ERROR")
  end.

End Answers.

(* ===================================================================== *)
(** ** Reading a daily series *)
(* ===================================================================== *)

Module Series.

(** The count that a daily series shows for a day: the count of the
    first row with this day, 0 when the series has no such row. *)
Fixpoint counted (d : option string) (rows : list DailyRow) : nat :=
  match rows with
  | [] => 0%nat
  | r :: rest => if Sqlite.key_dec (day r) d then count r else counted d rest
  end.

End Series.

(* ===================================================================== *)
(** * Properties *)
(* ===================================================================== *)

(** ** The calendar *)

Section CalendarFacts.
Import Calendar.

Lemma era_scan_spec (n : nat) :
  forall doe prev,
    era_scan n doe prev = true ->
    forall j, doe <= j < doe + Z.of_nat n ->
      era_day_ok j (era_date j) = true
      /\ date_ltb (if j =? doe then prev else era_date (j - 1)) (era_date j)
         = true.
Proof.
  induction n as [|n IH]; intros doe prev Hscan j Hj.
  - simpl in Hj. lia.
  - cbn [era_scan] in Hscan.
    apply andb_true_iff in Hscan as [Hhead Hrest].
    apply andb_true_iff in Hhead as [Hlt Hok].
    destruct (Z.eqb_spec j doe) as [->|Hne].
    + split; assumption.
    + assert (Hj' : doe + 1 <= j < doe + 1 + Z.of_nat n) by lia.
      destruct (IH _ _ Hrest j Hj') as [Hokj Hltj].
      split; [exact Hokj|].
      destruct (Z.eqb_spec j (doe + 1)) as [->|Hne'].
      * replace (doe + 1 - 1) with doe by lia. exact Hltj.
      * exact Hltj.
Qed.

Lemma era_scan_full : era_scan (Z.to_nat 146097) 0 (0, 3, 0) = true.
Proof. vm_compute. reflexivity. Qed.

Lemma era_date_ok (doe : Z) :
  0 <= doe < 146097 -> era_day_ok doe (era_date doe) = true.
Proof.
  intros H.
  apply (era_scan_spec _ _ _ era_scan_full doe).
  rewrite Z2Nat.id; lia.
Qed.

Lemma era_date_step (doe : Z) :
  0 <= doe < 146096 -> date_ltb (era_date doe) (era_date (doe + 1)) = true.
Proof.
  intros H.
  destruct (era_scan_spec _ _ _ era_scan_full (doe + 1)) as [_ Hlt].
  { rewrite Z2Nat.id; lia. }
  destruct (Z.eqb_spec (doe + 1) 0) as [E|_]; [lia|].
  replace (doe + 1 - 1) with doe in Hlt by lia. exact Hlt.
Qed.

Lemma days_from_civil_era (y m d e : Z) :
  days_from_civil (y + e * 400) m d = days_from_civil y m d + e * 146097.
Proof.
  unfold days_from_civil.
  set (y' := if m <=? 2 then y - 1 else y).
  replace (if m <=? 2 then y + e * 400 - 1 else y + e * 400)
    with (y' + e * 400) by (subst y'; destruct (m <=? 2); lia).
  rewrite Z.div_add by lia.
  replace (y' + e * 400 - (y' / 400 + e) * 400) with (y' - y' / 400 * 400)
    by lia.
  lia.
Qed.

Lemma days_from_civil_shift (y m d k : Z) :
  days_from_civil y m (d + k) = days_from_civil y m d + k.
Proof. unfold days_from_civil. lia. Qed.

Lemma era_split (z : Z) :
  let era := (z + 719468) / 146097 in
  0 <= z + 719468 - era * 146097 < 146097.
Proof.
  intros era. subst era.
  pose proof (Z.div_mod (z + 719468) 146097 ltac:(lia)) as Hdm.
  pose proof (Z.mod_pos_bound (z + 719468) 146097 ltac:(lia)) as Hb.
  lia.
Qed.

(** The calendar on known days: the epoch, leap days of 2000 and 2024,
    the missing leap day of 1900, the last day of the year 9999. *)
Example civil_known_days :
  civil_from_days 0 = (1970, 1, 1)
  /\ civil_from_days 11016 = (2000, 2, 29)
  /\ civil_from_days 19782 = (2024, 2, 29)
  /\ civil_from_days (-25509) = (1900, 2, 28)
  /\ civil_from_days (-25508) = (1900, 3, 1)
  /\ civil_from_days 2932896 = (9999, 12, 31)
  /\ days_from_civil 2025 1 1 = 20089.
Proof. repeat split. Qed.

(** The date of a day number is mapped back to the day number. *)
Lemma civil_roundtrip (z : Z) :
  forall y m d, civil_from_days z = (y, m, d) -> days_from_civil y m d = z.
Proof.
  intros y m d. unfold civil_from_days.
  pose proof (era_split z) as Hb. cbv zeta in Hb.
  set (era := (z + 719468) / 146097) in *.
  set (doe := z + 719468 - era * 146097) in *.
  pose proof (era_date_ok doe Hb) as Hok.
  destruct (era_date doe) as [[y0 m0] d0].
  intros E. injection E as <- <- <-.
  unfold era_day_ok in Hok.
  repeat (apply andb_true_iff in Hok as [Hok ?]).
  rewrite days_from_civil_era.
  apply Z.eqb_eq in H. unfold doe in H. clearbody era.
  generalize dependent (days_from_civil y0 m0 d0). intros. lia.
Qed.

Lemma civil_fields (z : Z) :
  forall y m d, civil_from_days z = (y, m, d) ->
    1 <= m <= 12 /\ 1 <= d <= 31.
Proof.
  intros y m d. unfold civil_from_days.
  pose proof (era_split z) as Hb. cbv zeta in Hb.
  set (era := (z + 719468) / 146097) in *.
  set (doe := z + 719468 - era * 146097) in *.
  pose proof (era_date_ok doe Hb) as Hok.
  destruct (era_date doe) as [[y0 m0] d0].
  intros E. injection E as <- <- <-.
  unfold era_day_ok in Hok.
  repeat (apply andb_true_iff in Hok as [Hok ?]).
  clear H H0.
  repeat match goal with
         | H : (_ <=? _) = true |- _ => apply Z.leb_le in H
         end.
  lia.
Qed.

Lemma date_ltb_trans (a b c : Z * Z * Z) :
  date_ltb a b = true -> date_ltb b c = true -> date_ltb a c = true.
Proof.
  destruct a as [[y1 m1] d1], b as [[y2 m2] d2], c as [[y3 m3] d3].
  unfold date_ltb.
  rewrite !orb_true_iff, !andb_true_iff, !orb_true_iff, !andb_true_iff,
    !Z.ltb_lt, !Z.eqb_eq.
  lia.
Qed.

Lemma date_ltb_irrefl (a : Z * Z * Z) : date_ltb a a = false.
Proof.
  destruct a as [[y m] d]. unfold date_ltb.
  rewrite !Z.ltb_irrefl, !Z.eqb_refl. reflexivity.
Qed.

Lemma date_ltb_year_shift (c y1 m1 d1 y2 m2 d2 : Z) :
  date_ltb (y1 + c, m1, d1) (y2 + c, m2, d2)
  = date_ltb (y1, m1, d1) (y2, m2, d2).
Proof.
  unfold date_ltb.
  replace (y1 + c <? y2 + c) with (y1 <? y2)
    by (destruct (Z.ltb_spec y1 y2), (Z.ltb_spec (y1 + c) (y2 + c)); lia).
  replace (y1 + c =? y2 + c) with (y1 =? y2)
    by (destruct (Z.eqb_spec y1 y2), (Z.eqb_spec (y1 + c) (y2 + c)); lia).
  reflexivity.
Qed.

Lemma div_era_unique (a q r : Z) :
  0 <= r < 146097 -> a = q * 146097 + r -> a / 146097 = q.
Proof.
  intros Hr ->. symmetry. apply (Z.div_unique _ 146097 q r); lia.
Qed.

(** The date of the next day is later. *)
Lemma civil_succ_lt (z : Z) :
  date_ltb (civil_from_days z) (civil_from_days (z + 1)) = true.
Proof.
  unfold civil_from_days.
  pose proof (era_split z) as Hb. cbv zeta in Hb.
  set (era := (z + 719468) / 146097) in *.
  set (doe := z + 719468 - era * 146097) in *.
  destruct (Z.eq_dec doe 146096) as [Hlast|Hin].
  - assert (E : (z + 1 + 719468) / 146097 = era + 1).
    { apply div_era_unique with (r := 0); [lia|]. unfold doe in Hlast.
      clearbody era. lia. }
    rewrite E.
    replace (z + 1 + 719468 - (era + 1) * 146097) with 0
      by (unfold doe in Hlast; clearbody era; lia).
    rewrite Hlast.
    change (era_date 146096) with (400, 2, 29).
    change (era_date 0) with (0, 3, 1).
    cbv beta iota.
    replace (0 + (era + 1) * 400) with (400 + era * 400) by lia.
    rewrite date_ltb_year_shift. reflexivity.
  - assert (E : (z + 1 + 719468) / 146097 = era).
    { apply div_era_unique with (r := doe + 1); [lia|]. unfold doe.
      clearbody era. lia. }
    rewrite E.
    replace (z + 1 + 719468 - era * 146097) with (doe + 1)
      by (unfold doe; clearbody era; lia).
    pose proof (era_date_step doe ltac:(lia)) as Hstep.
    destruct (era_date doe) as [[y1 m1] d1].
    destruct (era_date (doe + 1)) as [[y2 m2] d2].
    cbv beta iota.
    rewrite date_ltb_year_shift. exact Hstep.
Qed.

(** Later days have later dates. *)
Lemma civil_monotone (z1 z2 : Z) :
  z1 < z2 -> date_ltb (civil_from_days z1) (civil_from_days z2) = true.
Proof.
  intros H.
  replace z2 with (z1 + 1 + (z2 - z1 - 1)) by lia.
  assert (Hk : 0 <= z2 - z1 - 1) by lia.
  generalize dependent (z2 - z1 - 1). intros k Hk. clear H.
  revert k Hk. apply natlike_ind.
  - rewrite Z.add_0_r. apply civil_succ_lt.
  - intros k Hk IH.
    apply date_ltb_trans with (1 := IH).
    replace (z1 + 1 + Z.succ k) with (z1 + 1 + k + 1) by lia.
    apply civil_succ_lt.
Qed.

Lemma civil_injective (z1 z2 : Z) :
  civil_from_days z1 = civil_from_days z2 -> z1 = z2.
Proof.
  intros E.
  destruct (civil_from_days z1) as [[y m] d] eqn:E1.
  symmetry in E.
  rewrite <- (civil_roundtrip z1 _ _ _ E1), <- (civil_roundtrip z2 _ _ _ E).
  reflexivity.
Qed.

(** Moving the day of the month moves the day number: the step of
    [setUTCDate] on a date whose fields come from a time value. *)
Lemma MakeDay_of_fields (t k : Z) :
  MakeDay (YearFromTime t) (MonthFromTime t) (DateFromTime t + k) = Day t + k.
Proof.
  unfold MakeDay, YearFromTime, MonthFromTime, DateFromTime.
  destruct (civil_from_days (Day t)) as [[y m] d] eqn:E. cbn [fst snd].
  destruct (civil_fields _ _ _ _ E) as [Hm _].
  rewrite (Z.div_small (m - 1) 12) by lia.
  rewrite (Z.mod_small (m - 1) 12) by lia.
  replace (y + 0) with y by lia.
  replace (m - 1 + 1) with m by lia.
  pose proof (days_from_civil_shift y m 1 (d - 1)) as Hs.
  replace (1 + (d - 1)) with d in Hs by lia.
  rewrite (civil_roundtrip _ _ _ _ E) in Hs. lia.
Qed.

Lemma Day_MakeDate (day time : Z) :
  0 <= time < msPerDay -> Day (MakeDate day time) = day.
Proof.
  intros H. unfold Day, MakeDate.
  symmetry. apply (Z.div_unique _ msPerDay day time); unfold msPerDay in *; lia.
Qed.

Lemma TimeWithinDay_MakeDate (day time : Z) :
  0 <= time < msPerDay -> TimeWithinDay (MakeDate day time) = time.
Proof.
  intros H. unfold TimeWithinDay, MakeDate.
  symmetry. apply (Z.mod_unique _ msPerDay day time); unfold msPerDay in *; lia.
Qed.

Lemma time_decompose (t : Z) : t = MakeDate (Day t) (TimeWithinDay t).
Proof.
  unfold MakeDate, Day, TimeWithinDay.
  pose proof (Z.div_mod t msPerDay ltac:(unfold msPerDay; lia)). lia.
Qed.

Lemma TimeWithinDay_bound (t : Z) : 0 <= TimeWithinDay t < msPerDay.
Proof. apply Z.mod_pos_bound. reflexivity. Qed.

End CalendarFacts.


(** ** The date-range normaliser *)

Section DatesFacts.
Import Calendar Dates Spec.

Lemma HourFromTime_MakeDate (day time : Z) :
  HourFromTime (MakeDate day time) = HourFromTime time.
Proof.
  unfold HourFromTime, MakeDate, msPerDay, msPerHour.
  replace (day * 86400000 + time) with (time + (day * 24) * 3600000) by lia.
  rewrite Z.div_add by lia.
  apply Z_mod_plus_full.
Qed.

Lemma MinFromTime_MakeDate (day time : Z) :
  MinFromTime (MakeDate day time) = MinFromTime time.
Proof.
  unfold MinFromTime, MakeDate, msPerDay, msPerMinute.
  replace (day * 86400000 + time) with (time + (day * 1440) * 60000) by lia.
  rewrite Z.div_add by lia.
  replace (day * 1440) with (day * 24 * 60) by lia.
  apply Z_mod_plus_full.
Qed.

Lemma SecFromTime_MakeDate (day time : Z) :
  SecFromTime (MakeDate day time) = SecFromTime time.
Proof.
  unfold SecFromTime, MakeDate, msPerDay, msPerSecond.
  replace (day * 86400000 + time) with (time + (day * 86400) * 1000) by lia.
  rewrite Z.div_add by lia.
  replace (day * 86400) with (day * 1440 * 60) by lia.
  apply Z_mod_plus_full.
Qed.

Lemma msFromTime_MakeDate (day time : Z) :
  msFromTime (MakeDate day time) = msFromTime time.
Proof.
  unfold msFromTime, MakeDate, msPerDay, msPerSecond.
  replace (day * 86400000 + time) with (time + (day * 86400) * 1000) by lia.
  apply Z_mod_plus_full.
Qed.

(** The clock time of [MakeDate day time] is that of [time]. *)
Lemma iso_time_part_MakeDate (day time : Z) :
  iso_time_part (MakeDate day time) = iso_time_part time.
Proof.
  unfold iso_time_part.
  rewrite HourFromTime_MakeDate, MinFromTime_MakeDate,
    SecFromTime_MakeDate, msFromTime_MakeDate.
  reflexivity.
Qed.

(** The calendar date depends on the day number only. *)
Lemma iso_date_part_Day (t u : Z) :
  Day t = Day u -> iso_date_part t = iso_date_part u.
Proof.
  intros E. unfold iso_date_part, YearFromTime, MonthFromTime, DateFromTime.
  rewrite E. reflexivity.
Qed.

Lemma Day_bounds (t : Z) : t - msPerDay < Day t * msPerDay <= t.
Proof.
  unfold Day.
  pose proof (Z.div_mod t msPerDay ltac:(unfold msPerDay; lia)) as Hdm.
  pose proof (Z.mod_pos_bound t msPerDay ltac:(unfold msPerDay; lia)) as Hb.
  lia.
Qed.

Lemma TimeClip_in_range (t : Z) :
  Z.abs t <= maxTime -> TimeClip t = Some t.
Proof.
  intros H. unfold TimeClip.
  destruct (Z.leb_spec (Z.abs t) maxTime); [reflexivity | lia].
Qed.

Lemma defaultTo_value (env : Env) :
  clock_in_range env -> defaultTo env = Some (end_of_utc_day (now env)).
Proof.
  unfold clock_in_range, defaultTo, setUTCHours, end_of_utc_day. intros H.
  change (MakeTime 23 59 59 999) with (msPerDay - 1).
  apply TimeClip_in_range.
  pose proof (Day_bounds (now env)) as Hd.
  unfold MakeDate, maxTime, msPerDay in *. lia.
Qed.

Lemma Day_days_before (n t : Z) : Day (days_before n t) = Day t - n.
Proof.
  unfold days_before, Day.
  replace (t - n * msPerDay) with (t + (- n) * msPerDay) by lia.
  rewrite Z.div_add by (unfold msPerDay; lia). lia.
Qed.

Lemma defaultFrom_value (env : Env) :
  clock_in_range env ->
  defaultFrom env = Some (start_of_utc_day (days_before 30 (now env))).
Proof.
  unfold clock_in_range, defaultFrom, start_of_utc_day. intros H.
  cbn [getUTCDate option_map setUTCDate].
  replace (DateFromTime (now env) - 30) with (DateFromTime (now env) + (-30))
    by lia.
  rewrite MakeDay_of_fields.
  pose proof (Day_bounds (now env)) as Hd.
  pose proof (TimeWithinDay_bound (now env)) as Hw.
  pose proof (time_decompose (now env)) as Hdec.
  rewrite TimeClip_in_range
    by (unfold MakeDate, maxTime, msPerDay in *; lia).
  cbn [setUTCHours].
  rewrite Day_MakeDate by exact Hw.
  rewrite Day_days_before.
  change (MakeTime 0 0 0 0) with 0.
  apply TimeClip_in_range.
  unfold MakeDate, maxTime, msPerDay in *. lia.
Qed.

Lemma default_order (t : Z) :
  start_of_utc_day (days_before 30 t) <= end_of_utc_day t.
Proof.
  unfold start_of_utc_day, end_of_utc_day. rewrite Day_days_before.
  unfold MakeDate, msPerDay. lia.
Qed.

(** C7. With both boundaries omitted and the clock in range,
    [normalizeRange] returns [to] = the end of the current UTC day
    (23:59:59.999 of the clock's calendar date) and [from] = the start
    (00:00:00.000) of the UTC day 30 days before now, and [from <= to]. *)
Theorem normalizeRange_defaults (env : Env) :
  clock_in_range env ->
  exists from to,
    normalizeRange env (mkRange None None) = inr (from, to)
    /\ to = end_of_utc_day (now env)
    /\ iso_date_part to = iso_date_part (now env)
    /\ iso_time_part to = "23:59:59.999"%string
    /\ from = start_of_utc_day (days_before 30 (now env))
    /\ Day from = Day (now env) - 30
    /\ iso_time_part from = "00:00:00.000"%string
    /\ from <= to.
Proof.
  intros H.
  exists (start_of_utc_day (days_before 30 (now env))), (end_of_utc_day (now env)).
  split.
  - unfold normalizeRange, fromDate, toDate. cbn [range_from range_to].
    rewrite defaultFrom_value, defaultTo_value by exact H.
    cbn [date_gt].
    pose proof (default_order (now env)) as Ho.
    destruct (Z.ltb_spec (end_of_utc_day (now env))
                         (start_of_utc_day (days_before 30 (now env))));
      [lia | reflexivity].
  - split; [reflexivity|].
    split.
    { apply iso_date_part_Day. unfold end_of_utc_day.
      apply Day_MakeDate. unfold msPerDay. lia. }
    split.
    { unfold end_of_utc_day. rewrite iso_time_part_MakeDate. reflexivity. }
    split; [reflexivity|].
    split.
    { unfold start_of_utc_day. rewrite Day_MakeDate by (unfold msPerDay; lia).
      apply Day_days_before. }
    split.
    { unfold start_of_utc_day. rewrite iso_time_part_MakeDate. reflexivity. }
    apply default_order.
Qed.

End DatesFacts.


(** ** Lookups in the store *)

Section StoreFacts.
Import Spec Prisma.

Lemma find_id_none (id : string) (w : World) :
  ~ link_exists id w ->
  find (fun l => (link_id l =? id)%string) (links w) = None.
Proof.
  intros Hno.
  destruct (find _ (links w)) as [l|] eqn:E; [|reflexivity].
  apply find_some in E as [Hin Heq].
  exfalso. apply Hno. exists l. split; [exact Hin|].
  apply String.eqb_eq. exact Heq.
Qed.

Lemma find_id_some (id : string) (w : World) :
  link_exists id w ->
  exists l, find (fun l => (link_id l =? id)%string) (links w) = Some l
            /\ In l (links w) /\ link_id l = id.
Proof.
  intros [l0 [Hin Heq]].
  destruct (find (fun l => (link_id l =? id)%string) (links w)) as [l|] eqn:E.
  - exists l. apply find_some in E as [Hin' Heq'].
    apply String.eqb_eq in Heq'. auto.
  - exfalso. apply (find_none _ _ E) in Hin.
    rewrite Heq, String.eqb_refl in Hin. discriminate.
Qed.

Lemma find_slug_none (slug : string) (w : World) :
  ~ slug_exists slug w ->
  find (fun l => (link_slug l =? slug)%string) (links w) = None.
Proof.
  intros Hno.
  destruct (find _ (links w)) as [l|] eqn:E; [|reflexivity].
  apply find_some in E as [Hin Heq].
  exfalso. apply Hno. exists l. split; [exact Hin|].
  apply String.eqb_eq. exact Heq.
Qed.

Lemma find_slug_some (slug : string) (w : World) :
  slug_exists slug w ->
  exists l, find (fun l => (link_slug l =? slug)%string) (links w) = Some l
            /\ In l (links w) /\ link_slug l = slug.
Proof.
  intros [l0 [Hin Heq]].
  destruct (find (fun l => (link_slug l =? slug)%string) (links w)) as [l|] eqn:E.
  - exists l. apply find_some in E as [Hin' Heq'].
    apply String.eqb_eq in Heq'. auto.
  - exfalso. apply (find_none _ _ E) in Hin.
    rewrite Heq, String.eqb_refl in Hin. discriminate.
Qed.

Lemma slug_taken_iff (slug : string) (w : World) :
  slug_taken slug w = true <-> slug_exists slug w.
Proof.
  unfold slug_taken, slug_exists. rewrite existsb_exists.
  split; intros [l [Hin H]]; exists l; split; auto;
    apply String.eqb_eq; exact H.
Qed.

Lemma link_id_used_in (l : Link) (w : World) :
  In l (links w) -> link_id_used (link_id l) w = true.
Proof.
  intros Hin. unfold link_id_used. apply existsb_exists.
  exists l. split; [exact Hin | apply String.eqb_refl].
Qed.

(** The inclusive window of the queries is the range of the
    specification. *)
Lemma in_window_within (id : string) (from to : Z) (c : Click) :
  in_window id from to c = true <-> within id from to c.
Proof.
  unfold in_window, within.
  rewrite !andb_true_iff, String.eqb_eq, !Z.leb_le. tauto.
Qed.

Lemma filter_in_window (id : string) (from to : Z) (w : World) :
  filter (in_window id from to) (clicks w) = clicks_within id from to w.
Proof.
  unfold clicks_within. apply filter_ext. intros c.
  destruct (within_dec id from to c) as [H|H].
  - apply in_window_within. exact H.
  - destruct (in_window id from to c) eqn:E; [|reflexivity].
    apply in_window_within in E. contradiction.
Qed.

End StoreFacts.

(** ** The analytics handlers, step by step *)

(** Unfolds the monadic plumbing of handler code, leaving the store
    queries and the pure library functions in place. *)
Ltac run_handler :=
  cbv beta iota zeta delta
    [Links.summary_handler Links.daily_handler Links.create_handler
     Redirect.redirect_handler Links.ensureLinkExists
     Middleware.route Middleware.json Middleware.respond
     bind ret throw lift try_catch
     Prisma.log Prisma.link_findUnique_id Prisma.link_findUnique_slug
     Prisma.click_count Prisma.queryRaw_daily Prisma.record_call
     Prisma.link_create Prisma.click_create];
  cbn [links clicks calls rng_pos cuid_pos fst snd].

Section AnalyticsRuns.
Import Spec Prisma Middleware Links.

Variable env : Env.
Variable req : AnalyticsRequest.
Variable w : World.

Local Abbreviation id := (param_id req).
Local Abbreviation w1 := (record_call (LinkFindUniqueById (param_id req)) w).

(** An unknown id ends both handlers at the existence check. *)
Lemma summary_unknown :
  ~ link_exists id w ->
  summary_handler env req w = (Some (errorHandler not_found), w1).
Proof.
  intros Hno. run_handler.
  rewrite (find_id_none id w Hno). reflexivity.
Qed.

Lemma daily_unknown :
  ~ link_exists id w ->
  daily_handler env req w = (Some (errorHandler not_found), w1).
Proof.
  intros Hno. run_handler.
  rewrite (find_id_none id w Hno). reflexivity.
Qed.

(** For a known id the handlers run the validation, the normaliser and
    one query. *)
Lemma summary_known :
  link_exists id w ->
  summary_handler env req w =
  match Validators.parseDateRange env (req_query req) with
  | inl e => (Some (errorHandler e), w1)
  | inr dateRange =>
      match Dates.normalizeRange env dateRange with
      | inl e => (Some (errorHandler e), w1)
      | inr (from, to) =>
          (Some (mkResponse 200%nat
                   (JsonTotal (List.length (clicks_within id from to w)))),
           record_call (ClickCount id from to) w1)
      end
  end.
Proof.
  intros Hex. destruct (find_id_some id w Hex) as [l [Hfind _]].
  run_handler. rewrite Hfind.
  destruct (Validators.parseDateRange env (req_query req)) as [e|dateRange];
    [reflexivity|].
  destruct (Dates.normalizeRange env dateRange) as [e|[from to]];
    [reflexivity|].
  rewrite filter_in_window. reflexivity.
Qed.

Lemma daily_known :
  link_exists id w ->
  daily_handler env req w =
  match Validators.parseDateRange env (req_query req) with
  | inl e => (Some (errorHandler e), w1)
  | inr dateRange =>
      match Dates.normalizeRange env dateRange with
      | inl e => (Some (errorHandler e), w1)
      | inr (from, to) =>
          (Some (mkResponse 200%nat
                   (JsonDaily
                      (map to_row
                           (Sqlite.group_count
                              (map day_key (clicks_within id from to w)))))),
           record_call (QueryRawDaily id from to) w1)
      end
  end.
Proof.
  intros Hex. destruct (find_id_some id w Hex) as [l [Hfind _]].
  run_handler. rewrite Hfind.
  destruct (Validators.parseDateRange env (req_query req)) as [e|dateRange];
    [reflexivity|].
  destruct (Dates.normalizeRange env dateRange) as [e|[from to]];
    [reflexivity|].
  rewrite filter_in_window. reflexivity.
Qed.

End AnalyticsRuns.


(** ** Unknown links and links without clicks *)

Section NotFound.
Import Spec Prisma Middleware Links.

Lemma clicks_within_nil (id : string) (from to : Z) (w : World) :
  (forall c, In c (clicks w) -> ~ within id from to c) ->
  clicks_within id from to w = [].
Proof.
  intros Hnone. unfold clicks_within.
  induction (clicks w) as [|c cs IH]; [reflexivity|].
  cbn [filter]. destruct (within_dec id from to c) as [H|H].
  - exfalso. apply (Hnone c); [left; reflexivity | exact H].
  - apply IH. intros c' Hin. apply Hnone. right. exact Hin.
Qed.

(** C2. For an id that no Link has, summary and daily answer 404
    NOT_FOUND "Link not found" after the existence check alone: the only
    store call is the lookup, whatever the query is, and no aggregation
    query is issued. For an existing link and a range [from, to] in
    which it has no click, summary answers 200 with total 0 and daily
    answers 200 with the empty sequence; the two situations therefore
    never produce the same response. *)
Theorem analytics_unknown_link_vs_no_clicks
        (env : Env) (req : AnalyticsRequest) (w : World) :
  (~ link_exists (param_id req) w ->
     let answer :=
       (Some (mkResponse 404%nat (JsonError "NOT_FOUND" "Link not found" None)),
        record_call (LinkFindUniqueById (param_id req)) w) in
     summary_handler env req w = answer
     /\ daily_handler env req w = answer
     /\ option_map response_kind (fst answer) = Some (Some NotFound))
  /\ (link_exists (param_id req) w ->
      forall dateRange from to,
        Validators.parseDateRange env (req_query req) = inr dateRange ->
        Dates.normalizeRange env dateRange = inr (from, to) ->
        (forall c, In c (clicks w) -> ~ within (param_id req) from to c) ->
        fst (summary_handler env req w)
        = Some (mkResponse 200%nat (JsonTotal 0))
        /\ fst (daily_handler env req w)
           = Some (mkResponse 200%nat (JsonDaily []))).
Proof.
  split.
  - intros Hno. cbv zeta.
    rewrite (summary_unknown env req w Hno), (daily_unknown env req w Hno).
    repeat split.
  - intros Hex dateRange from to Hparse Hnorm Hzero.
    rewrite (summary_known env req w Hex), (daily_known env req w Hex).
    rewrite Hparse, Hnorm.
    rewrite (clicks_within_nil _ _ _ _ Hzero). split; reflexivity.
Qed.

End NotFound.

(** ** Range order *)

Section RangeOrder.
Import Calendar Spec Prisma Middleware Links Dates.


(** A range that [normalizeRange] returns is ordered. *)
Lemma normalizeRange_ordered (env : Env) (range : DateRange) (from to : Z) :
  normalizeRange env range = inr (from, to) -> from <= to.
Proof.
  unfold normalizeRange.
  destruct (fromDate env range) as [f|], (toDate env range) as [t|];
    cbn [date_gt]; try discriminate.
  destruct (Z.ltb_spec t f) as [|Hle]; [discriminate|].
  intros E. injection E as <- <-. exact Hle.
Qed.

End RangeOrder.

(** ** Summary counts *)

Section SummaryFacts.
Import Spec Prisma Middleware Links.

Lemma link_exists_with_click (id : string) (c : Click) (w : World) :
  link_exists id w -> link_exists id (with_click c w).
Proof. intros H. exact H. Qed.

Lemma clicks_within_with_click (id : string) (from to : Z) (c : Click)
      (w : World) :
  within id from to c ->
  clicks_within id from to (with_click c w)
  = (clicks_within id from to w ++ [c])%list.
Proof.
  intros H. unfold clicks_within, with_click. cbn [clicks].
  rewrite filter_app. cbn [filter].
  destruct (within_dec id from to c); [reflexivity | contradiction].
Qed.

(** C6. For an existing link and a normalised range [from, to], the
    total of summary is the number of the link's ClickEvents with
    [from <= timestamp <= to]; a ClickEvent of the link at exactly
    [from], and one at exactly [to], is within the range, and recording
    it raises the total by one. *)
Theorem summary_range_inclusive
        (env : Env) (req : AnalyticsRequest) (w : World)
        (dateRange : Dates.DateRange) (from to : Z) :
  link_exists (param_id req) w ->
  Validators.parseDateRange env (req_query req) = inr dateRange ->
  Dates.normalizeRange env dateRange = inr (from, to) ->
  fst (summary_handler env req w)
  = Some (mkResponse 200%nat
            (JsonTotal (List.length (clicks_within (param_id req) from to w))))
  /\ forall c,
       click_linkId c = param_id req ->
       click_tsUtc c = from \/ click_tsUtc c = to ->
       within (param_id req) from to c
       /\ fst (summary_handler env req (with_click c w))
          = Some (mkResponse 200%nat
                    (JsonTotal
                       (S (List.length (clicks_within (param_id req) from to w))))).
Proof.
  intros Hex Hparse Hnorm.
  pose proof (normalizeRange_ordered _ _ _ _ Hnorm) as Hord.
  split.
  - rewrite (summary_known env req w Hex), Hparse, Hnorm. reflexivity.
  - intros c Hid Hts.
    assert (Hin : within (param_id req) from to c).
    { unfold within. destruct Hts as [-> | ->]; split; auto; lia. }
    split; [exact Hin|].
    rewrite (summary_known env req (with_click c w)
                           (link_exists_with_click _ c w Hex)).
    rewrite Hparse, Hnorm.
    rewrite (clicks_within_with_click _ _ _ _ w Hin).
    rewrite length_app. cbn [List.length fst].
    rewrite Nat.add_1_r. reflexivity.
Qed.

End SummaryFacts.


(** ** Text order, grouping and counting *)

Section TextOrder.
Import Sqlite.

Lemma ascii_compare_refl (c : ascii) : Ascii.compare c c = Eq.
Proof. unfold Ascii.compare. apply N.compare_refl. Qed.

Lemma string_compare_refl (s : string) : String.compare s s = Eq.
Proof.
  induction s as [|c s IH]; [reflexivity|].
  cbn [String.compare]. rewrite ascii_compare_refl. exact IH.
Qed.

Lemma ascii_compare_lt_trans (a b c : ascii) :
  Ascii.compare a b = Lt -> Ascii.compare b c = Lt -> Ascii.compare a c = Lt.
Proof.
  unfold Ascii.compare. rewrite !N.compare_lt_iff. apply N.lt_trans.
Qed.

Lemma string_compare_lt_trans (s1 : string) :
  forall s2 s3,
    String.compare s1 s2 = Lt -> String.compare s2 s3 = Lt ->
    String.compare s1 s3 = Lt.
Proof.
  induction s1 as [|c1 s1 IH]; intros [|c2 s2] [|c3 s3]; cbn [String.compare];
    try discriminate; try reflexivity.
  destruct (Ascii.compare c1 c2) eqn:E12; try discriminate;
    destruct (Ascii.compare c2 c3) eqn:E23; try discriminate; intros H12 H23.
  - apply Ascii.compare_eq_iff in E12, E23. subst.
    rewrite ascii_compare_refl. eapply IH; eassumption.
  - apply Ascii.compare_eq_iff in E12. subst. rewrite E23. reflexivity.
  - apply Ascii.compare_eq_iff in E23. subst. rewrite E12. reflexivity.
  - rewrite (ascii_compare_lt_trans _ _ _ E12 E23). reflexivity.
Qed.

Lemma text_compare_eq (a b : option string) :
  text_compare a b = Eq <-> a = b.
Proof.
  destruct a as [x|], b as [y|]; cbn [text_compare];
    split; intros H; try discriminate; try reflexivity.
  - f_equal. apply String.compare_eq_iff. exact H.
  - injection H as ->. apply string_compare_refl.
Qed.

Lemma text_compare_antisym (a b : option string) :
  text_compare a b = CompOpp (text_compare b a).
Proof.
  destruct a as [x|], b as [y|]; cbn [text_compare]; try reflexivity.
  apply String.compare_antisym.
Qed.

Lemma text_compare_lt_trans (a b c : option string) :
  text_compare a b = Lt -> text_compare b c = Lt -> text_compare a c = Lt.
Proof.
  destruct a as [x|], b as [y|], c as [z|]; cbn [text_compare];
    try discriminate; try reflexivity.
  apply string_compare_lt_trans.
Qed.

Lemma text_compare_lt_neq (a b : option string) :
  text_compare a b = Lt -> a <> b.
Proof.
  intros H E. apply text_compare_eq in E. congruence.
Qed.

End TextOrder.

Section GroupCount.
Import Sqlite.

Lemma filed_above (k : option string) (acc : list (option string * nat)) :
  Forall (fun e => text_compare k (fst e) = Lt) acc -> filed k acc = 0%nat.
Proof.
  induction 1 as [|[k' n] rest Hlt _ IH]; [reflexivity|].
  cbn [filed]. cbn [fst] in Hlt.
  destruct (key_dec k' k) as [->|_]; [|exact IH].
  exfalso. apply (text_compare_lt_neq _ _ Hlt). reflexivity.
Qed.

Lemma bump_head (k : option string) (acc : list (option string * nat))
      (lo : option string * nat) :
  key_lt lo (k, 1%nat) ->
  Forall (key_lt lo) acc -> Forall (key_lt lo) (bump k acc).
Proof.
  intros Hk. induction 1 as [|[k' n] rest Hlo Hrest IH].
  - constructor; [exact Hk | constructor].
  - cbn [bump]. destruct (text_compare k k') eqn:E.
    + constructor; [exact Hlo | exact Hrest].
    + constructor; [exact Hk|]. constructor; assumption.
    + constructor; [exact Hlo | exact IH].
Qed.

Lemma bump_sorted (k : option string) (acc : list (option string * nat)) :
  StronglySorted key_lt acc -> StronglySorted key_lt (bump k acc).
Proof.
  induction 1 as [|[k' n] rest Hsorted IH Hall].
  - repeat constructor.
  - cbn [bump]. destruct (text_compare k k') eqn:E.
    + constructor; [exact Hsorted|].
      eapply Forall_impl; [|exact Hall]. intros e He. exact He.
    + constructor; [constructor; assumption|].
      constructor; [exact E|].
      eapply Forall_impl; [|exact Hall].
      intros e He. unfold key_lt in *. cbn [fst] in *.
      eapply text_compare_lt_trans; eassumption.
    + constructor; [exact IH|].
      apply bump_head; [|exact Hall].
      unfold key_lt. cbn [fst].
      rewrite text_compare_antisym, E. reflexivity.
Qed.

Lemma bump_filed (k k0 : option string) (acc : list (option string * nat)) :
  StronglySorted key_lt acc ->
  filed k0 (bump k acc)
  = (filed k0 acc + if key_dec k k0 then 1 else 0)%nat.
Proof.
  induction 1 as [|[k' n] rest Hsorted IH Hall].
  - cbn [bump filed]. destruct (key_dec k k0); reflexivity.
  - cbn [bump]. destruct (text_compare k k') eqn:E.
    + apply text_compare_eq in E. subst k'. cbn [filed].
      destruct (key_dec k k0); lia.
    + cbn [filed]. destruct (key_dec k k0) as [->|Hne]; [|lia].
      destruct (key_dec k' k0) as [->|_].
      * exfalso. apply (text_compare_lt_neq _ _ E). reflexivity.
      * rewrite filed_above; [reflexivity|].
        eapply Forall_impl; [|exact Hall].
        intros e He. unfold key_lt in He. cbn [fst] in He.
        eapply text_compare_lt_trans; eassumption.
    + cbn [filed]. destruct (key_dec k' k0) as [->|_]; [|exact IH].
      destruct (key_dec k k0) as [->|_]; [|lia].
      assert (text_compare k0 k0 = Eq) by (apply text_compare_eq; reflexivity).
      congruence.
Qed.

Lemma bump_positive (k : option string) (acc : list (option string * nat)) :
  Forall (fun e => (1 <= snd e)%nat) acc ->
  Forall (fun e => (1 <= snd e)%nat) (bump k acc).
Proof.
  induction 1 as [|[k' n] rest Hn Hrest IH].
  - repeat constructor.
  - cbn [bump]. cbn [snd] in Hn. destruct (text_compare k k').
    + constructor; [cbn [snd]; lia | exact Hrest].
    + constructor; [cbn [snd]; lia|]. constructor; assumption.
    + constructor; [exact Hn | exact IH].
Qed.

Lemma bump_sum (k : option string) (acc : list (option string * nat)) :
  list_sum (map snd (bump k acc)) = S (list_sum (map snd acc)).
Proof.
  induction acc as [|[k' n] rest IH]; [reflexivity|].
  unfold list_sum in *.
  cbn [bump]. destruct (text_compare k k'); cbn [map snd fold_right].
  - reflexivity.
  - reflexivity.
  - rewrite IH. lia.
Qed.

(** What holds of the groups after any number of rows. *)
Lemma group_count_from (keys : list (option string)) :
  forall acc,
    StronglySorted key_lt acc ->
    Forall (fun e => (1 <= snd e)%nat) acc ->
    let out := fold_left (fun acc k => bump k acc) keys acc in
    StronglySorted key_lt out
    /\ Forall (fun e => (1 <= snd e)%nat) out
    /\ (forall k, filed k out = (filed k acc + count_occ key_dec keys k)%nat)
    /\ list_sum (map snd out)
       = (list_sum (map snd acc) + List.length keys)%nat.
Proof.
  induction keys as [|k keys IH]; intros acc Hs Hp; cbn [fold_left].
  - repeat split; auto; cbn [List.length count_occ]; lia.
  - destruct (IH (bump k acc) (bump_sorted k acc Hs) (bump_positive k acc Hp))
      as (Hs' & Hp' & Hf & Hsum).
    repeat split; auto.
    + intros k0. rewrite Hf, (bump_filed k k0 acc Hs). cbn [count_occ].
      destruct (key_dec k k0); lia.
    + rewrite Hsum, bump_sum. cbn [List.length]. lia.
Qed.

(** In sorted groups with positive counts, a group is what is filed
    under its key. *)
Lemma filed_in (acc : list (option string * nat)) :
  StronglySorted key_lt acc ->
  forall k n, In (k, n) acc -> filed k acc = n.
Proof.
  induction 1 as [|[k' n'] rest Hsorted IH Hall]; intros k n Hin.
  - contradiction.
  - cbn [filed]. destruct Hin as [E|Hin].
    + injection E as -> ->. destruct (key_dec k k); congruence.
    + destruct (key_dec k' k) as [->|_]; [|exact (IH _ _ Hin)].
      exfalso. rewrite Forall_forall in Hall.
      apply (text_compare_lt_neq _ _ (Hall _ Hin)). reflexivity.
Qed.

Lemma in_filed (acc : list (option string * nat)) (k : option string) :
  (1 <= filed k acc)%nat -> In (k, filed k acc) acc.
Proof.
  induction acc as [|[k' n'] rest IH]; cbn [filed]; [lia|].
  destruct (key_dec k' k) as [->|_]; intros H.
  - left. reflexivity.
  - right. exact (IH H).
Qed.

(** The groups of [group_count]: ascending without repetition, one per
    key that occurs, with the number of its occurrences; the counts add
    up to the number of rows. *)
Lemma group_count_spec (keys : list (option string)) :
  StronglySorted key_lt (group_count keys)
  /\ (forall k n, In (k, n) (group_count keys)
                  <-> n = count_occ key_dec keys k /\ (1 <= n)%nat)
  /\ list_sum (map snd (group_count keys)) = List.length keys.
Proof.
  destruct (group_count_from keys [] (SSorted_nil _) (Forall_nil _))
    as (Hs & Hp & Hf & Hsum).
  fold (group_count keys) in Hs, Hp, Hf, Hsum.
  assert (Hf' : forall k, filed k (group_count keys) = count_occ key_dec keys k).
  { intros k. rewrite Hf. reflexivity. }
  split; [exact Hs|]. split; [|exact Hsum].
  intros k n. split.
  - intros Hin. split.
    + rewrite <- Hf'. symmetry. exact (filed_in _ Hs _ _ Hin).
    + rewrite Forall_forall in Hp. exact (Hp _ Hin).
  - intros [-> Hpos]. rewrite <- Hf' in *. apply in_filed. exact Hpos.
Qed.

Lemma key_lt_irrefl (e : option string * nat) : ~ key_lt e e.
Proof.
  unfold key_lt. intros H. apply (text_compare_lt_neq _ _ H). reflexivity.
Qed.

Lemma key_lt_trans (a b c : option string * nat) :
  key_lt a b -> key_lt b c -> key_lt a c.
Proof. unfold key_lt. apply text_compare_lt_trans. Qed.

(** Two strictly ascending lists of groups with the same members are the
    same list. *)
Lemma sorted_groups_equal (l1 : list (option string * nat)) :
  forall l2,
    StronglySorted key_lt l1 -> StronglySorted key_lt l2 ->
    (forall e, In e l1 <-> In e l2) -> l1 = l2.
Proof.
  induction l1 as [|x l1 IH]; intros [|y l2] H1 H2 Hsame.
  - reflexivity.
  - exfalso. apply (proj2 (Hsame y)). left. reflexivity.
  - exfalso. apply (proj1 (Hsame x)). left. reflexivity.
  - apply StronglySorted_inv in H1 as [H1 Hx].
    apply StronglySorted_inv in H2 as [H2 Hy].
    rewrite Forall_forall in Hx, Hy.
    assert (Exy : x = y).
    { destruct (proj1 (Hsame x) (or_introl eq_refl)) as [E|Hin]; [auto|].
      destruct (proj2 (Hsame y) (or_introl eq_refl)) as [E|Hin']; [auto|].
      exfalso. apply (key_lt_irrefl x).
      apply key_lt_trans with y; [apply Hx; exact Hin' | apply Hy; exact Hin]. }
    subst y. f_equal. apply IH; [exact H1 | exact H2 |].
    intros e. split; intros Hin.
    + destruct (proj1 (Hsame e) (or_intror Hin)) as [E|Hin']; [|exact Hin'].
      subst e. exfalso. apply (key_lt_irrefl x). apply Hx. exact Hin.
    + destruct (proj2 (Hsame e) (or_intror Hin)) as [E|Hin']; [|exact Hin'].
      subst e. exfalso. apply (key_lt_irrefl x). apply Hy. exact Hin.
Qed.

(** [group_count] is the result of the aggregation: the only strictly
    ascending list that holds, for each key that occurs, the key with the
    number of its occurrences. *)
Lemma group_count_unique (keys : list (option string))
      (out : list (option string * nat)) :
  StronglySorted key_lt out ->
  (forall k n, In (k, n) out <-> n = count_occ key_dec keys k /\ (1 <= n)%nat) ->
  out = group_count keys.
Proof.
  intros Hs Hout.
  destruct (group_count_spec keys) as (Hs' & Hgroups & _).
  apply sorted_groups_equal; [exact Hs | exact Hs' |].
  intros [k n]. rewrite Hout, Hgroups. reflexivity.
Qed.

End GroupCount.


(** ** Calendar dates as text *)

Section DateText.
Import Calendar Sqlite Spec.

Lemma digit_code (n : Z) :
  N_of_ascii (digit n) = N.of_nat (48 + Z.to_nat (n mod 10)).
Proof.
  unfold digit, ascii_of_nat. apply N_ascii_embedding.
  pose proof (Z.mod_pos_bound n 10 ltac:(lia)). lia.
Qed.

Lemma digit_compare (a b : Z) :
  Ascii.compare (digit a) (digit b) = Z.compare (a mod 10) (b mod 10).
Proof.
  unfold Ascii.compare. rewrite !digit_code.
  pose proof (Z.mod_pos_bound a 10 ltac:(lia)) as Ha.
  pose proof (Z.mod_pos_bound b 10 ltac:(lia)) as Hb.
  destruct (Z.compare_spec (a mod 10) (b mod 10)) as [E|L|G].
  - rewrite E. apply N.compare_refl.
  - apply N.compare_lt_iff. lia.
  - apply N.compare_gt_iff. lia.
Qed.

Lemma string_compare_cons (c1 c2 : ascii) (s1 s2 : string) :
  String.compare (String c1 s1) (String c2 s2)
  = match Ascii.compare c1 c2 with
    | Eq => String.compare s1 s2
    | Lt => Lt
    | Gt => Gt
    end.
Proof. reflexivity. Qed.

Lemma digits2 (n : Z) :
  0 <= n <= 99 ->
  n = 10 * ((n / 10) mod 10) + n mod 10
  /\ 0 <= (n / 10) mod 10 < 10 /\ 0 <= n mod 10 < 10.
Proof.
  intros H.
  pose proof (Z.div_mod n 10 ltac:(lia)) as E.
  pose proof (Z.mod_pos_bound n 10 ltac:(lia)) as B.
  assert (Hq : 0 <= n / 10 < 10) by lia.
  rewrite (Z.mod_small (n / 10) 10 Hq). lia.
Qed.

Lemma digits4 (n : Z) :
  0 <= n <= 9999 ->
  n = 1000 * ((n / 1000) mod 10) + 100 * ((n / 100) mod 10)
      + 10 * ((n / 10) mod 10) + n mod 10
  /\ 0 <= (n / 1000) mod 10 < 10 /\ 0 <= (n / 100) mod 10 < 10
  /\ 0 <= (n / 10) mod 10 < 10 /\ 0 <= n mod 10 < 10.
Proof.
  intros H.
  replace (n / 1000) with (n / 10 / 10 / 10)
    by (rewrite !Z.div_div by lia; reflexivity).
  replace (n / 100) with (n / 10 / 10)
    by (rewrite !Z.div_div by lia; reflexivity).
  pose proof (Z.div_mod n 10 ltac:(lia)) as E0.
  pose proof (Z.mod_pos_bound n 10 ltac:(lia)) as B0.
  pose proof (Z.div_mod (n / 10) 10 ltac:(lia)) as E1.
  pose proof (Z.mod_pos_bound (n / 10) 10 ltac:(lia)) as B1.
  pose proof (Z.div_mod (n / 10 / 10) 10 ltac:(lia)) as E2.
  pose proof (Z.mod_pos_bound (n / 10 / 10) 10 ltac:(lia)) as B2.
  assert (Hq : 0 <= n / 10 / 10 / 10 < 10) by lia.
  rewrite (Z.mod_small (n / 10 / 10 / 10) 10 Hq). lia.
Qed.

Ltac split_compare :=
  match goal with
  | |- context [Z.compare ?a ?b] =>
      destruct (Z.compare_spec a b); cbv iota
  end.

(** Byte-wise order of the texts is the chronological order of the
    dates. *)
Lemma ymd_text_order (y1 m1 d1 y2 m2 d2 : Z) :
  0 <= y1 <= 9999 -> 0 <= y2 <= 9999 ->
  0 <= m1 <= 99 -> 0 <= m2 <= 99 -> 0 <= d1 <= 99 -> 0 <= d2 <= 99 ->
  String.compare (ymd_text y1 m1 d1) (ymd_text y2 m2 d2) = Lt
  <-> date_ltb (y1, m1, d1) (y2, m2, d2) = true.
Proof.
  intros Hy1 Hy2 Hm1 Hm2 Hd1 Hd2.
  unfold date_ltb.
  rewrite !orb_true_iff, !andb_true_iff, !orb_true_iff, !andb_true_iff,
    !Z.ltb_lt, !Z.eqb_eq.
  unfold ymd_text, pad4, pad3, pad2. cbn [append].
  rewrite !string_compare_cons, !digit_compare.
  change (Ascii.compare "-" "-") with Eq. cbv iota.
  change (String.compare EmptyString EmptyString) with Eq.
  destruct (digits4 y1 Hy1) as (Ey1 & ? & ? & ? & ?).
  destruct (digits4 y2 Hy2) as (Ey2 & ? & ? & ? & ?).
  destruct (digits2 m1 Hm1) as (Em1 & ? & ?).
  destruct (digits2 m2 Hm2) as (Em2 & ? & ?).
  destruct (digits2 d1 Hd1) as (Ed1 & ? & ?).
  destruct (digits2 d2 Hd2) as (Ed2 & ? & ?).
  repeat match goal with
         | |- context [(?a mod 10)] =>
             let v := fresh "v" in
             set (v := a mod 10) in *; clearbody v
         end.
  repeat split_compare;
    (split; [intros ?; try discriminate | intros ?; try reflexivity]); lia.
Qed.

Lemma recorded_day (t : Z) : recorded t -> 0 <= Day t <= 2932896.
Proof.
  unfold recorded, max_recorded, Day, msPerDay. intros [H0 H1]. split.
  - apply Z.div_pos; lia.
  - assert (t / 86400000 < 2932897) by (apply Z.div_lt_upper_bound; lia).
    lia.
Qed.

Lemma date_ltb_year (y1 m1 d1 y2 m2 d2 : Z) :
  date_ltb (y1, m1, d1) (y2, m2, d2) = true -> y1 <= y2.
Proof.
  unfold date_ltb.
  rewrite !orb_true_iff, !andb_true_iff, !orb_true_iff, !andb_true_iff,
    !Z.ltb_lt, !Z.eqb_eq.
  lia.
Qed.

(** Dates of the recorded period have years 1970 to 9999. *)
Lemma recorded_date (t : Z) :
  recorded t ->
  forall y m d, civil_from_days (Day t) = (y, m, d) ->
    1970 <= y <= 9999 /\ 1 <= m <= 12 /\ 1 <= d <= 31.
Proof.
  intros Hrec y m d E.
  pose proof (recorded_day t Hrec) as Hday.
  split; [|exact (civil_fields _ _ _ _ E)].
  assert (Hlo : Day t = 0 \/ 0 < Day t) by lia.
  assert (Hhi : Day t = 2932896 \/ Day t < 2932896) by lia.
  split.
  - destruct Hlo as [E0|Hlt].
    + rewrite E0 in E. vm_compute in E. injection E as <- _ _. lia.
    + pose proof (civil_monotone 0 (Day t) Hlt) as Hm. rewrite E in Hm.
      change (civil_from_days 0) with (1970, 1, 1) in Hm.
      apply date_ltb_year in Hm. exact Hm.
  - destruct Hhi as [E0|Hlt].
    + rewrite E0 in E. vm_compute in E. injection E as <- _ _. lia.
    + pose proof (civil_monotone (Day t) 2932896 Hlt) as Hm. rewrite E in Hm.
      change (civil_from_days 2932896) with (9999, 12, 31) in Hm.
      apply date_ltb_year in Hm. exact Hm.
Qed.

(** The UTC calendar date of a recorded timestamp is the text of its
    calendar date. *)
Lemma utc_calendar_date_text (t : Z) :
  recorded t ->
  forall y m d, civil_from_days (Day t) = (y, m, d) ->
    utc_calendar_date t = ymd_text y m d.
Proof.
  intros Hrec y m d E.
  destruct (recorded_date t Hrec y m d E) as (Hy & _ & _).
  unfold utc_calendar_date, iso_date_part, YearFromTime, MonthFromTime,
    DateFromTime, ymd_text.
  rewrite E. cbn [fst snd].
  replace (m - 1 + 1) with m by lia.
  destruct (Z.leb_spec 0 y); [|lia].
  destruct (Z.leb_spec y 9999); [|lia].
  reflexivity.
Qed.

(** For a recorded timestamp, the key of the raw query,
    [date(ts_utc/1000, 'unixepoch')], is its UTC calendar date. *)
Lemma day_key_recorded (c : Click) :
  recorded (click_tsUtc c) ->
  Prisma.day_key c = Some (utc_calendar_date (click_tsUtc c)).
Proof.
  intros Hrec. unfold Prisma.day_key, date_unixepoch.
  set (t := click_tsUtc c) in *.
  assert (Hq : Z.quot t 1000 = t / 1000).
  { apply Z.quot_div_nonneg; unfold recorded in Hrec; lia. }
  rewrite Hq.
  assert (Hs : 0 <= t / 1000 <= unixepoch_max).
  { unfold recorded, max_recorded in Hrec. unfold unixepoch_max. split.
    - apply Z.div_pos; lia.
    - assert (t / 1000 < 253402300800)
        by (apply Z.div_lt_upper_bound; lia).
      lia. }
  destruct (Z.leb_spec unixepoch_min (t / 1000));
    [|unfold unixepoch_min in *; lia].
  destruct (Z.leb_spec (t / 1000) unixepoch_max); [|lia].
  cbn [andb].
  rewrite Z.div_div by lia.
  change (1000 * 86400) with msPerDay. fold (Day t).
  destruct (civil_from_days (Day t)) as [[y m] d] eqn:E.
  destruct (recorded_date t Hrec y m d E) as (Hy & _ & _).
  rewrite (utc_calendar_date_text t Hrec y m d E).
  destruct (Z.ltb_spec y 0); [lia|].
  rewrite Z.abs_eq by lia. reflexivity.
Qed.

(** Among recorded timestamps, the text order of the calendar dates is
    the order of the days. *)
Lemma utc_calendar_date_order (t1 t2 : Z) :
  recorded t1 -> recorded t2 ->
  (String.compare (utc_calendar_date t1) (utc_calendar_date t2) = Lt
   <-> Day t1 < Day t2).
Proof.
  intros H1 H2.
  destruct (civil_from_days (Day t1)) as [[y1 m1] d1] eqn:E1.
  destruct (civil_from_days (Day t2)) as [[y2 m2] d2] eqn:E2.
  rewrite (utc_calendar_date_text t1 H1 _ _ _ E1),
    (utc_calendar_date_text t2 H2 _ _ _ E2).
  destruct (recorded_date t1 H1 _ _ _ E1) as (? & ? & ?).
  destruct (recorded_date t2 H2 _ _ _ E2) as (? & ? & ?).
  rewrite ymd_text_order by lia.
  rewrite <- E1, <- E2. split.
  - intros Hlt.
    destruct (Z.lt_trichotomy (Day t1) (Day t2)) as [L|[E|G]]; [exact L| |].
    + rewrite E, date_ltb_irrefl in Hlt. discriminate.
    + pose proof (civil_monotone _ _ G) as Hgt.
      pose proof (date_ltb_trans _ _ _ Hlt Hgt) as Hbad.
      rewrite date_ltb_irrefl in Hbad. discriminate.
  - apply civil_monotone.
Qed.

(** Equal calendar dates of recorded timestamps are equal days. *)
Lemma utc_calendar_date_same_day (t1 t2 : Z) :
  recorded t1 -> recorded t2 ->
  (utc_calendar_date t1 = utc_calendar_date t2 <-> Day t1 = Day t2).
Proof.
  intros H1 H2. split.
  - intros E.
    destruct (Z.lt_trichotomy (Day t1) (Day t2)) as [L|[E'|G]]; [|exact E'|].
    + apply (utc_calendar_date_order t1 t2 H1 H2) in L.
      rewrite E, string_compare_refl in L. discriminate.
    + apply (utc_calendar_date_order t2 t1 H2 H1) in G.
      rewrite E, string_compare_refl in G. discriminate.
  - intros E. unfold utc_calendar_date. apply iso_date_part_Day. exact E.
Qed.

End DateText.


(** ** The daily series *)

Section DailySeries.
Import Calendar Sqlite Spec Prisma Middleware Links.

Lemma link_exists_dec (id : string) (w : World) :
  link_exists id w \/ ~ link_exists id w.
Proof.
  destruct (find (fun l => (link_id l =? id)%string) (links w)) as [l|] eqn:E.
  - left. apply find_some in E as [Hin Heq]. exists l.
    split; [exact Hin | apply String.eqb_eq; exact Heq].
  - right. intros [l [Hin Heq]]. apply (find_none _ _ E) in Hin.
    rewrite Heq, String.eqb_refl in Hin. discriminate.
Qed.

Lemma total_of_rows (groups : list (option string * nat)) :
  total_of (map to_row groups) = list_sum (map snd groups).
Proof.
  induction groups as [|g groups IH]; [reflexivity|].
  cbn [map total_of fold_right list_sum]. unfold total_of in IH.
  rewrite IH. reflexivity.
Qed.

Lemma sorted_rows (groups : list (option string * nat)) :
  StronglySorted key_lt groups ->
  StronglySorted (fun a b => text_compare (day a) (day b) = Lt)
                 (map to_row groups).
Proof.
  induction 1 as [|g groups Hs IH Hall]; cbn [map]; constructor.
  - exact IH.
  - apply Forall_map. eapply Forall_impl; [|exact Hall].
    intros e He. exact He.
Qed.

Lemma count_occ_map_filter {A : Type} (f : A -> option string)
      (k : option string) (l : list A) :
  count_occ key_dec (map f l) k
  = List.length (filter (fun x => if key_dec (f x) k then true else false) l).
Proof.
  induction l as [|x l IH]; [reflexivity|].
  cbn [map count_occ filter].
  destruct (key_dec (f x) k); cbn [List.length]; rewrite IH; reflexivity.
Qed.

Lemma clicks_within_in (id : string) (from to : Z) (w : World) (c : Click) :
  In c (clicks_within id from to w) <-> In c (clicks w) /\ within id from to c.
Proof.
  unfold clicks_within. rewrite filter_In.
  destruct (within_dec id from to c); intuition discriminate.
Qed.

Lemma clicks_recorded_window (id : string) (from to : Z) (w : World) :
  clicks_recorded w -> window_recorded id from to w.
Proof.
  intros Hrec c Hin. apply Hrec. apply clicks_within_in in Hin. tauto.
Qed.

(** A window inside the recorded period needs no assumption on the
    store. *)
Lemma window_in_period (id : string) (from to : Z) (w : World) :
  0 <= from -> to <= max_recorded -> window_recorded id from to w.
Proof.
  intros Hfrom Hto c Hin. apply clicks_within_in in Hin as [_ [_ Hts]].
  unfold recorded. lia.
Qed.

(** When the clicks of the window are recorded clicks, the keys of the
    raw query are their UTC calendar dates. *)
Lemma daily_keys (id : string) (from to : Z) (w : World) :
  window_recorded id from to w ->
  map day_key (clicks_within id from to w)
  = map (fun c => Some (utc_calendar_date (click_tsUtc c)))
        (clicks_within id from to w).
Proof.
  intros Hrec. apply map_ext_in. intros c Hin.
  apply day_key_recorded. apply Hrec. exact Hin.
Qed.

Lemma count_on_day (d : string) (id : string) (from to : Z) (w : World) :
  count_occ key_dec
    (map (fun c => Some (utc_calendar_date (click_tsUtc c)))
         (clicks_within id from to w)) (Some d)
  = List.length (clicks_on_day d id from to w).
Proof.
  rewrite count_occ_map_filter. unfold clicks_on_day. f_equal.
  apply filter_ext. intros c.
  destruct (key_dec (Some (utc_calendar_date (click_tsUtc c))) (Some d))
    as [E|N].
  - injection E as ->. symmetry. apply String.eqb_refl.
  - symmetry. apply String.eqb_neq. intros E. apply N. f_equal. exact E.
Qed.

Lemma sorted_rows_by_day (id : string) (from to : Z) (w : World)
      (rows : list DailyRow) :
  window_recorded id from to w ->
  StronglySorted (fun a b => text_compare (day a) (day b) = Lt) rows ->
  StronglySorted (day_precedes id from to w) rows.
Proof.
  intros Hrec. induction 1 as [|r rows Hs IH Hall]; constructor.
  - exact IH.
  - eapply Forall_impl; [|exact Hall]. intros b Hlt. split; [exact Hlt|].
    intros c1 c2 H1 H2 Ea Eb. rewrite Ea, Eb in Hlt. cbn [text_compare] in Hlt.
    apply (utc_calendar_date_order _ _ (Hrec _ H1) (Hrec _ H2)). exact Hlt.
Qed.

(** C1. For an existing link and a normalised range [from, to] whose
    clicks of the link were recorded between 1970 and 9999, daily answers
    200 with rows such that: each row's day is the UTC calendar date of a
    click of the link within [from, to], and its count is the number of
    the link's clicks within [from, to] that have this UTC calendar
    date, hence at least 1 (no row for a day without click); the UTC
    calendar date of every click within the range has a row; and the rows
    are strictly ascending by day, as text and as days. *)
Theorem daily_series_by_utc_day
        (env : Env) (req : AnalyticsRequest) (w : World)
        (dateRange : Dates.DateRange) (from to : Z) :
  link_exists (param_id req) w ->
  Validators.parseDateRange env (req_query req) = inr dateRange ->
  Dates.normalizeRange env dateRange = inr (from, to) ->
  window_recorded (param_id req) from to w ->
  exists rows,
    fst (daily_handler env req w)
    = Some (mkResponse 200%nat (JsonDaily rows))
    /\ (forall r, In r rows ->
          exists d,
            day r = Some d
            /\ (exists c, In c (clicks_within (param_id req) from to w)
                          /\ utc_calendar_date (click_tsUtc c) = d)
            /\ count r
               = List.length (clicks_on_day d (param_id req) from to w)
            /\ (1 <= count r)%nat)
    /\ (forall c, In c (clicks_within (param_id req) from to w) ->
          exists r, In r rows
                    /\ day r = Some (utc_calendar_date (click_tsUtc c)))
    /\ StronglySorted (day_precedes (param_id req) from to w) rows.
Proof.
  intros Hex Hparse Hnorm Hrec.
  set (id := param_id req) in *.
  set (keys := map day_key (clicks_within id from to w)).
  destruct (group_count_spec keys) as (Hsorted & Hgroups & _).
  exists (map to_row (group_count keys)).
  split.
  { rewrite (daily_known env req w Hex), Hparse, Hnorm. reflexivity. }
  assert (Hkeys : keys = map (fun c => Some (utc_calendar_date (click_tsUtc c)))
                             (clicks_within id from to w))
    by (apply daily_keys; exact Hrec).
  split.
  { intros r Hin. apply in_map_iff in Hin as [[k n] [<- Hin]].
    apply Hgroups in Hin as [Hn Hpos]. cbn [to_row fst snd day count].
    assert (Hk : In k keys).
    { apply (count_occ_In key_dec). lia. }
    rewrite Hkeys in Hk. apply in_map_iff in Hk as [c [<- Hc]].
    exists (utc_calendar_date (click_tsUtc c)).
    split; [reflexivity|].
    split; [exists c; auto|].
    split; [|exact Hpos].
    rewrite Hn, Hkeys. apply count_on_day. }
  split.
  { intros c Hc.
    set (k := Some (utc_calendar_date (click_tsUtc c))).
    assert (Hk : In k keys).
    { rewrite Hkeys. apply in_map_iff. exists c. auto. }
    exists (to_row (k, count_occ key_dec keys k)). split; [|reflexivity].
    apply in_map. apply Hgroups. split; [reflexivity|].
    apply (count_occ_In key_dec) in Hk. lia. }
  apply sorted_rows_by_day; [exact Hrec|].
  apply sorted_rows. exact Hsorted.
Qed.

(** C9. On every store, for every request: either both handlers answer
    200 and the counts of the daily rows add up to the total of summary,
    or both fail with the same error. *)
Theorem daily_counts_add_up_to_summary
        (env : Env) (req : AnalyticsRequest) (w : World) :
  (exists rows n,
      fst (daily_handler env req w)
      = Some (mkResponse 200%nat (JsonDaily rows))
      /\ fst (summary_handler env req w)
         = Some (mkResponse 200%nat (JsonTotal n))
      /\ total_of rows = n)
  \/ (exists e,
         fst (daily_handler env req w) = Some (errorHandler e)
         /\ fst (summary_handler env req w) = Some (errorHandler e)).
Proof.
  destruct (link_exists_dec (param_id req) w) as [Hex|Hno].
  - rewrite (daily_known env req w Hex), (summary_known env req w Hex).
    destruct (Validators.parseDateRange env (req_query req)) as [e|dateRange].
    { right. exists e. split; reflexivity. }
    destruct (Dates.normalizeRange env dateRange) as [e|[from to]].
    { right. exists e. split; reflexivity. }
    left. eexists. eexists. split; [reflexivity|]. split; [reflexivity|].
    rewrite total_of_rows.
    destruct (group_count_spec
                (map day_key (clicks_within (param_id req) from to w)))
      as (_ & _ & Hsum).
    rewrite Hsum. apply length_map.
  - right. exists not_found.
    rewrite (daily_unknown env req w Hno), (summary_unknown env req w Hno).
    split; reflexivity.
Qed.

End DailySeries.


(** ** The slug generator *)

Section SlugFacts.
Import Slug.

Lemma alphabet_size : String.length BASE62_CHARS = 62%nat.
Proof. reflexivity. Qed.

Lemma alphabet_symbols :
  forallb base62_symbol (list_ascii_of_string BASE62_CHARS) = true
  /\ NoDup (list_ascii_of_string BASE62_CHARS).
Proof.
  split; [reflexivity|].
  apply (NoDup_count_occ' ascii_dec).
  intros c Hin. cbn in Hin.
  repeat (destruct Hin as [<-|Hin]; [reflexivity|]). contradiction.
Qed.

Lemma get_list_ascii (s : string) :
  forall i, String.get i s = nth_error (list_ascii_of_string s) i.
Proof.
  induction s as [|c s IH]; intros [|i]; cbn; auto.
Qed.

Lemma get_in_bounds (s : string) (i : nat) :
  (i < String.length s)%nat -> exists c, String.get i s = Some c.
Proof.
  revert i. induction s as [|c s IH]; intros i Hi; cbn in Hi; [lia|].
  destruct i as [|i]; cbn [String.get].
  - exists c. reflexivity.
  - apply IH. lia.
Qed.

(** The alphabet index of a byte, [byte % 62]. *)
Lemma byte_index_bound (b : Byte.byte) :
  (N.to_nat (Byte.to_N b mod N.of_nat (String.length BASE62_CHARS))
   < String.length BASE62_CHARS)%nat.
Proof.
  rewrite alphabet_size.
  pose proof (N.mod_lt (Byte.to_N b) (N.of_nat 62) ltac:(lia)). lia.
Qed.

Lemma base62_of_byte_get (b : Byte.byte) :
  String.get (byte_index b) BASE62_CHARS = Some (base62_of_byte b).
Proof.
  unfold base62_of_byte.
  destruct (get_in_bounds BASE62_CHARS (byte_index b) (byte_index_bound b))
    as [c ->].
  reflexivity.
Qed.

Lemma step_appends (bytes : list Byte.byte) (result : string) (i : nat)
      (b : Byte.byte) :
  nth_error bytes i = Some b ->
  randomSlug_step bytes result i
  = result ++ String (base62_of_byte b) EmptyString.
Proof.
  intros E. unfold randomSlug_step, char_at. rewrite E.
  fold (byte_index b). rewrite base62_of_byte_get. reflexivity.
Qed.

Lemma append_assoc (a b c : string) : (a ++ b) ++ c = a ++ (b ++ c).
Proof. induction a as [|x a IH]; cbn; [reflexivity | rewrite IH; reflexivity]. Qed.

(** The loop over [i = start .. start + n - 1] appends one alphabet
    symbol per byte. *)
Lemma loop_appends (bytes : list Byte.byte) (n : nat) :
  forall start result,
    (start + n <= List.length bytes)%nat ->
    fold_left (randomSlug_step bytes) (seq start n) result
    = result ++ string_of_list_ascii
                  (map base62_of_byte (firstn n (skipn start bytes))).
Proof.
  induction n as [|n IH]; intros start result Hlen.
  - cbn. clear. induction result as [|c r IHr]; cbn; congruence.
  - cbn [seq fold_left].
    destruct (nth_error bytes start) as [b|] eqn:E.
    2:{ apply nth_error_None in E. lia. }
    rewrite (step_appends _ _ _ _ E), IH by lia.
    rewrite append_assoc. f_equal.
    assert (Hs : skipn start bytes = b :: skipn (S start) bytes).
    { clear - E. revert start E.
      induction bytes as [|x bytes IHb]; intros [|start] E; cbn in *;
        try discriminate.
      - injection E as ->. reflexivity.
      - apply IHb. exact E. }
    rewrite Hs. reflexivity.
Qed.

Lemma length_string_of_list (l : list ascii) :
  String.length (string_of_list_ascii l) = List.length l.
Proof. induction l as [|c l IH]; cbn; congruence. Qed.


Lemma base62_of_byte_symbol (b : Byte.byte) :
  base62_symbol (base62_of_byte b) = true
  /\ In (base62_of_byte b) (list_ascii_of_string BASE62_CHARS).
Proof.
  pose proof (base62_of_byte_get b) as Hget.
  rewrite get_list_ascii in Hget. apply nth_error_In in Hget.
  split; [|exact Hget].
  destruct alphabet_symbols as [Hall _].
  rewrite forallb_forall in Hall. apply Hall. exact Hget.
Qed.


End SlugFacts.


(** ** Creating links *)

Local Open Scope list_scope.

Section CreateFacts.
Import Spec Prisma Middleware Links.

Variable env : Env.

Lemma link_create_conflict (slug targetUrl : string) (w : World) :
  slug_taken slug w = true ->
  link_create env slug targetUrl w
  = (inl (P2002 ["slug"]),
     mkWorld (links w) (clicks w) (calls w ++ [LinkCreate slug targetUrl])
             (rng_pos w) (S (cuid_pos w))).
Proof.
  intros H. unfold link_create, bind, log, record_call, slug_taken in *.
  cbn [links clicks calls rng_pos cuid_pos]. rewrite H. reflexivity.
Qed.

Lemma link_create_inserted (slug targetUrl : string) (w : World) :
  slug_taken slug w = false ->
  link_id_used (cuid env (cuid_pos w)) w = false ->
  let l := mkLink (cuid env (cuid_pos w)) slug targetUrl (now env) in
  link_create env slug targetUrl w
  = (inr l,
     mkWorld (links w ++ [l]) (clicks w)
             (calls w ++ [LinkCreate slug targetUrl])
             (rng_pos w) (S (cuid_pos w))).
Proof.
  intros H1 H2.
  unfold link_create, bind, log, record_call, slug_taken, link_id_used in *.
  cbn [links clicks calls rng_pos cuid_pos]. rewrite H1, H2. reflexivity.
Qed.

Lemma link_create_calls (slug targetUrl : string) (w : World) :
  let out := link_create env slug targetUrl w in
  calls (snd out) = calls w ++ [LinkCreate slug targetUrl]
  /\ rng_pos (snd out) = rng_pos w
  /\ clicks (snd out) = clicks w.
Proof.
  unfold link_create, bind, log, record_call.
  cbn [links clicks calls rng_pos cuid_pos].
  destruct (slug_taken slug _); [repeat split|].
  destruct (link_id_used _ _); repeat split.
Qed.

Lemma is_slug_conflict_P2002_slug : is_slug_conflict (P2002 ["slug"]) = true.
Proof. reflexivity. Qed.

Lemma randomSlug_generated (w w' : World) (k : nat) :
  rng_pos w' = (k * Slug.default_len + rng_pos w)%nat ->
  Slug.randomSlug env Slug.default_len w'
  = (inr (generated env w k),
     mkWorld (links w') (clicks w') (calls w')
             (rng_pos w' + Slug.default_len) (cuid_pos w')).
Proof.
  intros E. unfold Slug.randomSlug, bind, Slug.randomBytes, ret, generated.
  rewrite E. reflexivity.
Qed.

Variable req : CreateRequest.
Variable targetUrl : string.

(** One turn of the loop that ends in a refused generated slug, with
    retries left. *)
Lemma loop_retry (fuel retries : nat) (slug : string) (w0 w : World) (k : nat) :
  slug_taken slug w = true ->
  (retries < maxRetries)%nat ->
  rng_pos w = (S k * Slug.default_len + rng_pos w0)%nat ->
  create_loop env (S fuel) req targetUrl false retries slug w
  = create_loop env fuel req targetUrl false (S retries)
      (generated env w0 (S k))
      (mkWorld (links w) (clicks w) (calls w ++ [LinkCreate slug targetUrl])
               (rng_pos w + Slug.default_len) (S (cuid_pos w))).
Proof.
  intros Htaken Hretries Hrng. cbn [create_loop].
  destruct (Nat.leb_spec retries maxRetries); [|lia].
  unfold try_catch at 1. unfold bind at 1.
  rewrite (link_create_conflict _ _ _ Htaken).
  rewrite is_slug_conflict_P2002_slug.
  destruct (Nat.ltb_spec retries maxRetries); [|lia].
  unfold bind at 1.
  rewrite (randomSlug_generated w0 _ (S k)) by exact Hrng.
  reflexivity.
Qed.

(** The turn that ends the retries. *)
Lemma loop_exhausted (fuel : nat) (slug : string) (w : World) :
  slug_taken slug w = true ->
  create_loop env (S fuel) req targetUrl false maxRetries slug w
  = (inr (Some retries_exhausted_response),
     mkWorld (links w) (clicks w) (calls w ++ [LinkCreate slug targetUrl])
             (rng_pos w) (S (cuid_pos w))).
Proof.
  intros Htaken. cbn [create_loop].
  change (maxRetries <=? maxRetries)%nat with true. cbv iota.
  unfold try_catch at 1. unfold bind at 1.
  rewrite (link_create_conflict _ _ _ Htaken).
  rewrite is_slug_conflict_P2002_slug. reflexivity.
Qed.

(** A turn whose insertion succeeds. *)
Lemma loop_created (fuel retries : nat) (provided : bool) (slug : string)
      (w : World) :
  (retries <= maxRetries)%nat ->
  slug_taken slug w = false ->
  link_id_used (cuid env (cuid_pos w)) w = false ->
  let l := mkLink (cuid env (cuid_pos w)) slug targetUrl (now env) in
  create_loop env (S fuel) req targetUrl provided retries slug w
  = (inr (Some (created_response req l slug)),
     mkWorld (links w ++ [l]) (clicks w)
             (calls w ++ [LinkCreate slug targetUrl])
             (rng_pos w) (S (cuid_pos w))).
Proof.
  intros Hretries Hfree Hid. cbn [create_loop].
  destruct (Nat.leb_spec retries maxRetries); [|lia].
  unfold try_catch at 1. unfold bind at 1.
  rewrite (link_create_inserted _ _ _ Hfree Hid). reflexivity.
Qed.

(** A turn with a supplied slug that is taken. *)
Lemma loop_supplied_taken (fuel : nat) (slug : string) (w : World) :
  slug_taken slug w = true ->
  create_loop env (S fuel) req targetUrl true 0 slug w
  = (inr (Some slug_taken_response),
     mkWorld (links w) (clicks w) (calls w ++ [LinkCreate slug targetUrl])
             (rng_pos w) (S (cuid_pos w))).
Proof.
  intros Htaken. cbn [create_loop].
  change (0 <=? maxRetries)%nat with true. cbv iota.
  unfold try_catch at 1. unfold bind at 1.
  rewrite (link_create_conflict _ _ _ Htaken).
  rewrite is_slug_conflict_P2002_slug. reflexivity.
Qed.

Variable w : World.

Lemma attempts_succ (n : nat) :
  attempts env w targetUrl (S n)
  = (attempts env w targetUrl n
     ++ [LinkCreate (generated env w n) targetUrl])%list.
Proof. unfold attempts. rewrite seq_S, map_app. reflexivity. Qed.

Lemma before_attempt_succ (k : nat) :
  mkWorld (links (before_attempt env w targetUrl k))
          (clicks (before_attempt env w targetUrl k))
          (calls (before_attempt env w targetUrl k)
           ++ [LinkCreate (generated env w k) targetUrl])
          (rng_pos (before_attempt env w targetUrl k) + Slug.default_len)
          (S (cuid_pos (before_attempt env w targetUrl k)))
  = before_attempt env w targetUrl (S k).
Proof.
  unfold before_attempt. cbn [links clicks calls rng_pos cuid_pos].
  rewrite attempts_succ, app_assoc. f_equal; unfold Slug.default_len; lia.
Qed.

(** After [k] refused slugs the loop is at its [k]-th retry, in the
    world [before_attempt k], with the [k]-th generated slug. *)
Lemma loop_after_conflicts (k : nat) :
  forall fuel,
    (k <= maxRetries)%nat ->
    (forall j, (j < k)%nat -> slug_taken (generated env w j) w = true) ->
    create_loop env (k + fuel) req targetUrl false 0 (generated env w 0)
                (before_attempt env w targetUrl 0)
    = create_loop env fuel req targetUrl false k (generated env w k)
                  (before_attempt env w targetUrl k).
Proof.
  induction k as [|k IH]; intros fuel Hk Htaken; [reflexivity|].
  replace (S k + fuel)%nat with (k + S fuel)%nat by lia.
  rewrite IH by (try lia; intros j Hj; apply Htaken; lia).
  rewrite (loop_retry fuel k _ w _ k).
  - rewrite before_attempt_succ. reflexivity.
  - apply Htaken. lia.
  - lia.
  - reflexivity.
Qed.

Lemma create_handler_generated :
  Validators.parseCreateLink env (req_body req) = inr (targetUrl, None) ->
  create_handler env req w
  = route (create_loop env (S (S maxRetries)) req targetUrl false 0
                       (generated env w 0))
          (before_attempt env w targetUrl 0).
Proof.
  intros Hparse. unfold create_handler, route.
  unfold bind at 1. unfold lift. rewrite Hparse.
  cbn [fst snd truthy]. unfold bind at 1.
  rewrite (randomSlug_generated w w 0) by reflexivity.
  assert (E : mkWorld (links w) (clicks w) (calls w)
                      (rng_pos w + Slug.default_len) (cuid_pos w)
              = before_attempt env w targetUrl 0).
  { unfold before_attempt, attempts. cbn [seq map]. rewrite app_nil_r.
    f_equal; unfold Slug.default_len; lia. }
  rewrite E. reflexivity.
Qed.

Lemma slug_taken_false (slug : string) (w0 : World) :
  ~ slug_exists slug w0 -> slug_taken slug w0 = false.
Proof.
  intros H. destruct (slug_taken slug w0) eqn:E; [|reflexivity].
  apply slug_taken_iff in E. contradiction.
Qed.

(** C3. For a create-link call without a slug (the validated body has
    none): slugs are generated one per attempt and inserted; while the
    insertion is refused because the slug exists, the next slug is
    generated and tried, for at most 3 retries. If the first k generated
    slugs (k <= 3) exist and the next one does not, the call answers 201
    with the link stored under that slug, after k + 1 insertions
    attempted in order of generation (k = 2: the third slug is used). If
    the first four generated slugs all exist, the call answers 500
    INTERNAL "Unable to generate unique slug after multiple attempts",
    after exactly four attempts, and stores nothing. *)
Theorem create_without_slug_retries :
  Validators.parseCreateLink env (req_body req) = inr (targetUrl, None) ->
  (forall k,
      (k <= maxRetries)%nat ->
      (forall j, (j < k)%nat -> slug_exists (generated env w j) w) ->
      ~ slug_exists (generated env w k) w ->
      link_id_used (cuid env (cuid_pos w + k)) w = false ->
      let l := mkLink (cuid env (cuid_pos w + k)) (generated env w k)
                      targetUrl (now env) in
      create_handler env req w
      = (Some (created_response req l (generated env w k)),
         mkWorld (links w ++ [l]) (clicks w)
                 (calls w ++ attempts env w targetUrl (S k))
                 (S k * Slug.default_len + rng_pos w) (cuid_pos w + S k)))
  /\ ((forall j, (j <= maxRetries)%nat -> slug_exists (generated env w j) w) ->
      create_handler env req w
      = (Some retries_exhausted_response,
         mkWorld (links w) (clicks w)
                 (calls w ++ attempts env w targetUrl (S maxRetries))
                 (S maxRetries * Slug.default_len + rng_pos w)
                 (cuid_pos w + S maxRetries)))
  /\ maxRetries = 3%nat
  /\ retries_exhausted_response
     = mkResponse 500%nat
         (JsonError "INTERNAL"
            "Unable to generate unique slug after multiple attempts" None).
Proof.
  intros Hparse. rewrite (create_handler_generated Hparse).
  split; [|split; [|split; reflexivity]].
  - intros k Hk Htaken Hfree Hid l. unfold route.
    replace (S (S maxRetries)) with (k + S (S maxRetries - k))%nat by lia.
    rewrite loop_after_conflicts;
      [|exact Hk|intros j Hj; apply slug_taken_iff; apply Htaken; exact Hj].
    rewrite (loop_created _ _ _ _ (before_attempt env w targetUrl k) Hk
                          (slug_taken_false _ _ Hfree) Hid).
    unfold before_attempt. cbn [links clicks calls rng_pos cuid_pos].
    rewrite attempts_succ, app_assoc.
    f_equal. f_equal; lia.
  - intros Htaken. unfold route.
    change (S (S maxRetries)) with (maxRetries + 2)%nat.
    rewrite loop_after_conflicts;
      [|lia|intros j Hj; apply slug_taken_iff; apply Htaken; lia].
    rewrite (loop_exhausted 1 _ (before_attempt env w targetUrl maxRetries))
      by (apply slug_taken_iff; apply Htaken; lia).
    unfold before_attempt. cbn [links clicks calls rng_pos cuid_pos].
    rewrite attempts_succ, app_assoc.
    f_equal. f_equal; lia.
Qed.

Lemma parse_supplied_slug (s : string) :
  Validators.parseCreateLink env (req_body req) = inr (targetUrl, Some s) ->
  truthy (Some s) = true.
Proof.
  unfold Validators.parseCreateLink.
  destruct (map _ _ ++ Validators.slug_issues _) as [|i rest] eqn:E;
    [|discriminate].
  intros Hp. injection Hp as _ Hslug. rewrite Hslug in E.
  apply app_eq_nil in E as [_ E]. cbn [Validators.slug_issues] in E.
  destruct (Validators.slug_regex s) eqn:R; [|discriminate].
  unfold Validators.slug_regex in R.
  destruct s as [|c s]; [discriminate R | reflexivity].
Qed.

Lemma loop_supplied_calls (fuel : nat) (slug : string) (w0 : World) :
  let out := create_loop env (S fuel) req targetUrl true 0 slug w0 in
  calls (snd out) = calls w0 ++ [LinkCreate slug targetUrl]
  /\ rng_pos (snd out) = rng_pos w0
  /\ clicks (snd out) = clicks w0.
Proof.
  cbn [create_loop]. change (0 <=? maxRetries)%nat with true. cbv iota.
  unfold try_catch, link_create, log, record_call, ret, throw, bind.
  cbn [links clicks calls rng_pos cuid_pos].
  match goal with
  | |- context [slug_taken slug ?x] => destruct (slug_taken slug x)
  end.
  - rewrite is_slug_conflict_P2002_slug. repeat split.
  - match goal with
    | |- context [link_id_used ?i ?x] => destruct (link_id_used i x)
    end; repeat split.
Qed.

(** C4. For a create-link call with a supplied slug (the validated body
    has slug [s]): exactly one insertion is attempted, with slug [s], and
    no slug is generated, whatever the outcome. When a Link with slug
    [s] exists, the call answers 409 SLUG_TAKEN "Slug already exists",
    a conflict and not a validation error, and the two tables are as
    before. When none exists (and the identifier drawn is unused), the
    link is stored under exactly [s]. *)
Theorem create_with_supplied_slug (s : string) :
  Validators.parseCreateLink env (req_body req) = inr (targetUrl, Some s) ->
  (calls (snd (create_handler env req w))
   = calls w ++ [LinkCreate s targetUrl]
   /\ rng_pos (snd (create_handler env req w)) = rng_pos w
   /\ clicks (snd (create_handler env req w)) = clicks w)
  /\ (slug_exists s w ->
      create_handler env req w
      = (Some slug_taken_response,
         mkWorld (links w) (clicks w) (calls w ++ [LinkCreate s targetUrl])
                 (rng_pos w) (S (cuid_pos w)))
      /\ slug_taken_response
         = mkResponse 409%nat (JsonError "SLUG_TAKEN" "Slug already exists" None)
      /\ response_kind slug_taken_response = Some Conflict
      /\ response_kind slug_taken_response <> Some ValidationError)
  /\ (~ slug_exists s w ->
      link_id_used (cuid env (cuid_pos w)) w = false ->
      let l := mkLink (cuid env (cuid_pos w)) s targetUrl (now env) in
      create_handler env req w
      = (Some (created_response req l s),
         mkWorld (links w ++ [l]) (clicks w)
                 (calls w ++ [LinkCreate s targetUrl])
                 (rng_pos w) (S (cuid_pos w)))).
Proof.
  intros Hparse.
  pose proof (parse_supplied_slug s Hparse) as Htruthy.
  assert (Hrun : create_handler env req w
                 = route (create_loop env (S (S maxRetries)) req targetUrl
                                      true 0 s) w).
  { unfold create_handler, route. unfold bind at 1. unfold lift.
    rewrite Hparse. cbn [fst snd]. rewrite Htruthy.
    unfold bind at 1. reflexivity. }
  rewrite Hrun. split; [|split].
  - pose proof (loop_supplied_calls (S maxRetries) s w) as Hc.
    cbv zeta in Hc. unfold route.
    destruct (create_loop env (S (S maxRetries)) req targetUrl true 0 s w)
      as [[e|r] w'']; exact Hc.
  - intros Hex. unfold route.
    rewrite (loop_supplied_taken _ s w) by (apply slug_taken_iff; exact Hex).
    repeat split. discriminate.
  - intros Hfree Hid l. unfold route.
    rewrite (loop_created (S maxRetries) 0 true s w ltac:(unfold maxRetries; lia)
                          (slug_taken_false _ _ Hfree) Hid).
    reflexivity.
Qed.

End CreateFacts.


Section CreateLoopFuel.
Import Spec Prisma Middleware Links.

(** The loop makes at most [maxRetries + 1] turns: more fuel than the
    turns left changes nothing, so the fuel of the handler never runs
    out. *)
Lemma create_loop_fuel (env : Env) (req : CreateRequest) (targetUrl : string)
      (provided : bool) (fuel : nat) :
  forall retries slug w,
    (S maxRetries - retries <= fuel)%nat ->
    create_loop env (S fuel) req targetUrl provided retries slug w
    = create_loop env fuel req targetUrl provided retries slug w.
Proof.
  induction fuel as [|fuel IH]; intros retries slug w Hfuel.
  - cbn [create_loop].
    destruct (Nat.leb_spec retries maxRetries); [lia | reflexivity].
  - cbn [create_loop] in *.
    destruct (Nat.leb_spec retries maxRetries); [|reflexivity].
    unfold try_catch.
    destruct (bind (link_create env slug targetUrl) _ w) as [[e|r] w'];
      [|reflexivity].
    destruct (is_slug_conflict e); [|reflexivity].
    destruct provided; [reflexivity|].
    destruct (Nat.ltb_spec retries maxRetries); [|reflexivity].
    unfold bind.
    destruct (Slug.randomSlug env Slug.default_len w') as [[e'|slug'] w''];
      [reflexivity|].
    apply (IH (S retries) slug' w''). lia.
Qed.

(** The create handler always sends a response. *)
Lemma create_handler_responds (env : Env) (req : CreateRequest) (w : World) :
  exists r, fst (create_handler env req w) = Some r.
Proof.
  unfold create_handler, route.
  unfold bind at 1. unfold lift.
  destruct (Validators.parseCreateLink env (req_body req)) as [e|[t u]];
    [eexists; reflexivity|].
  cbn [fst snd]. unfold bind at 1.
  destruct ((if truthy u then ret (js_nullish u EmptyString)
             else Slug.randomSlug env Slug.default_len) w)
    as [[e|slug] w0] eqn:E0; [eexists; reflexivity|].
  clear E0. generalize (truthy u). intros provided.
  assert (Hloop : forall n retries slug1 w1,
             (retries + n = maxRetries)%nat ->
             exists w2,
               (exists e, create_loop env (S n) req t provided retries slug1 w1
                          = (inl e, w2))
               \/ (exists r, create_loop env (S n) req t provided retries
                                         slug1 w1 = (inr (Some r), w2))).
  { induction n as [|n IH]; intros retries slug1 w1 Hn;
      cbn [create_loop];
      (destruct (Nat.leb_spec retries maxRetries); [|lia]);
      unfold try_catch;
      (destruct (bind (link_create env slug1 t) _ w1) as [[e|r] w'] eqn:Eb;
       [|unfold bind in Eb;
         destruct (link_create env slug1 t w1) as [[e|l] w3];
         [discriminate|]; injection Eb as <- <-;
         eexists; right; eexists; reflexivity]);
      (destruct (is_slug_conflict e);
       [|eexists; left; eexists; reflexivity]);
      (destruct provided; [eexists; right; eexists; reflexivity|]).
    - destruct (Nat.ltb_spec retries maxRetries); [lia|].
      eexists. right. eexists. reflexivity.
    - destruct (Nat.ltb_spec retries maxRetries); [|lia].
      unfold bind.
      destruct (Slug.randomSlug env Slug.default_len w') as [[e'|slug'] w''].
      + eexists. left. eexists. reflexivity.
      + apply (IH (S retries) slug' w''). lia. }
  rewrite (create_loop_fuel env req t provided (S maxRetries) 0 slug w0)
    by (unfold maxRetries; lia).
  destruct (Hloop maxRetries 0%nat slug w0 eq_refl) as (w2 & [[e H]|[r H]]);
    rewrite H; eexists; reflexivity.
Qed.

End CreateLoopFuel.

(** ** Redirects *)

Section RedirectFacts.
Import Spec Prisma Middleware Redirect.

Variable env : Env.
Variable req : RedirectRequest.
Variable w : World.

Local Abbreviation slug := (param_slug req).
Local Abbreviation userAgent := (js_nullish (header_user_agent req) EmptyString).

(** The redirect handler, step by step. *)
Lemma redirect_run :
  redirect_handler env req w
  = match find (fun l => (link_slug l =? slug)%string) (links w) with
    | None =>
        (Some (mkResponse 404%nat (PlainText "Not found")),
         record_call (LinkFindUniqueBySlug slug) w)
    | Some l =>
        let calls' := calls w ++ [LinkFindUniqueBySlug slug;
                                  ClickCreate (link_id l) userAgent] in
        if click_id_used (cuid env (cuid_pos w)) w then
          (Some (errorHandler (P2002 ["id"])),
           mkWorld (links w) (clicks w) calls' (rng_pos w) (S (cuid_pos w)))
        else
          (Some (mkResponse 302%nat (RedirectTo (link_targetUrl l))),
           mkWorld (links w)
                   (clicks w ++ [mkClick (cuid env (cuid_pos w)) (link_id l)
                                         (now env) userAgent])
                   calls' (rng_pos w) (S (cuid_pos w)))
    end.
Proof.
  unfold redirect_handler, route, link_findUnique_slug, click_create,
    respond, log, record_call, ret, bind.
  cbn [links clicks calls rng_pos cuid_pos].
  destruct (find (fun l => (link_slug l =? slug)%string) (links w))
    as [l|] eqn:Hfind; [|reflexivity].
  apply find_some in Hfind as [Hin _].
  pose proof (link_id_used_in l w Hin) as Hfk.
  unfold link_id_used, click_id_used in *.
  cbn [links clicks calls rng_pos cuid_pos]. rewrite Hfk. cbn [negb].
  rewrite <- !app_assoc. cbn [app].
  destruct (existsb _ (clicks w)); reflexivity.
Qed.

(** C10. For a redirect request: when no Link has the slug, the answer
    is 404 "Not found" and the only store operation is the lookup, so no
    ClickEvent is appended; when a Link has the slug (and the identifier
    drawn for the click is unused), exactly one ClickEvent is appended,
    for that link's id, stamped with the clock and with the request's
    user-agent header, or the empty string when the header is absent,
    and the answer is the 302 redirect to the stored targetUrl, sent
    after the lookup and the insertion. A 302 is never sent without the
    click having been appended. *)
Theorem redirect_records_one_click :
  (~ slug_exists slug w ->
     redirect_handler env req w
     = (Some (mkResponse 404%nat (PlainText "Not found")),
        record_call (LinkFindUniqueBySlug slug) w)
     /\ clicks (snd (redirect_handler env req w)) = clicks w)
  /\ (slug_exists slug w ->
      click_id_used (cuid env (cuid_pos w)) w = false ->
      exists l,
        In l (links w) /\ link_slug l = slug
        /\ let c := mkClick (cuid env (cuid_pos w)) (link_id l) (now env)
                            userAgent in
           redirect_handler env req w
           = (Some (mkResponse 302%nat (RedirectTo (link_targetUrl l))),
              mkWorld (links w) (clicks w ++ [c])
                      (calls w ++ [LinkFindUniqueBySlug slug;
                                   ClickCreate (link_id l) userAgent])
                      (rng_pos w) (S (cuid_pos w))))
  /\ (header_user_agent req = None -> userAgent = EmptyString)
  /\ (forall ua, header_user_agent req = Some ua -> userAgent = ua)
  /\ (forall r, fst (redirect_handler env req w) = Some r ->
                res_status r = 302%nat ->
                exists l c,
                  In l (links w) /\ link_slug l = slug
                  /\ clicks (snd (redirect_handler env req w))
                     = clicks w ++ [c]
                  /\ click_linkId c = link_id l
                  /\ click_userAgent c = userAgent
                  /\ click_tsUtc c = now env).
Proof.
  rewrite redirect_run.
  split; [|split; [|split; [|split]]].
  - intros Hno. rewrite (find_slug_none slug w Hno). split; reflexivity.
  - intros Hex Hfresh.
    destruct (find_slug_some slug w Hex) as (l & Hfind & Hin & Hslug).
    exists l. split; [exact Hin|]. split; [exact Hslug|]. cbv zeta.
    rewrite Hfind, Hfresh. reflexivity.
  - intros ->. reflexivity.
  - intros ua ->. reflexivity.
  - intros r.
    destruct (find (fun l => (link_slug l =? slug)%string) (links w))
      as [l|] eqn:Hfind.
    + apply find_some in Hfind as [Hin Hslug].
      apply String.eqb_eq in Hslug. cbv zeta.
      destruct (click_id_used (cuid env (cuid_pos w)) w).
      * cbn [fst]. intros E. injection E as <-. discriminate.
      * intros _ _. eexists l, _. cbn [snd clicks].
        repeat split; auto.
    + cbn [fst]. intros E. injection E as <-. discriminate.
Qed.

(** Recording a click from a clock between 1970 and 9999 keeps the
    clicks of the store in that period. *)
Lemma redirect_keeps_clicks_recorded :
  recorded (now env) -> clicks_recorded w ->
  clicks_recorded (snd (redirect_handler env req w)).
Proof.
  intros Hnow Hrec. rewrite redirect_run.
  destruct (find _ (links w)) as [l|]; [|exact Hrec].
  cbv zeta. destruct (click_id_used _ w); [exact Hrec|].
  intros c Hin. cbn [snd clicks] in Hin. apply in_app_iff in Hin as [Hin|Hin].
  - apply Hrec. exact Hin.
  - destruct Hin as [<-|[]]. exact Hnow.
Qed.

End RedirectFacts.


(** ** The properties on the concrete store *)

Section Instances.
Import Calendar Sqlite Spec Prisma Middleware Links Redirect Dates.

Local Abbreviation known := (mkAnalyticsRequest "L1" Scenario.query).
Local Abbreviation unknown := (mkAnalyticsRequest "nonexistent-id" Scenario.query).
Local Abbreviation window := (Dates.mkRange (Some "2025-01-01T00:00:00.000Z")
                                            (Some "2025-01-03T23:59:59.999Z")).

Lemma scenario_link_exists : link_exists "L1" Scenario.store.
Proof. exists Scenario.link1. split; [left; reflexivity | reflexivity]. Defined.

Lemma scenario_link_unknown : ~ link_exists "nonexistent-id" Scenario.store.
Proof.
  intros [l [Hin Heq]]. destruct Hin as [<-|[]]. discriminate Heq.
Defined.

Lemma scenario_clicks_recorded : clicks_recorded Scenario.store.
Proof.
  intros c Hin. cbn in Hin.
  repeat (destruct Hin as [<-|Hin];
          [unfold recorded, max_recorded; cbn; lia|]).
  contradiction.
Defined.

(** The daily-aggregation test of the repository: three days, with 3, 5
    and 2 clicks. *)
Example daily_on_scenario :
  fst (daily_handler Scenario.env known Scenario.store)
  = Some (mkResponse 200%nat
            (JsonDaily [mkDailyRow (Some "2025-01-01") 3;
                        mkDailyRow (Some "2025-01-02") 5;
                        mkDailyRow (Some "2025-01-03") 2])).
Proof. vm_compute. reflexivity. Qed.

Example summary_on_scenario :
  fst (summary_handler Scenario.env known Scenario.store)
  = Some (mkResponse 200%nat (JsonTotal 10)).
Proof. vm_compute. reflexivity. Qed.

(** Before the epoch the key of the raw query can differ from the UTC
    calendar date: the division by 1000 truncates towards zero. *)
Example day_key_before_epoch :
  day_key (mkClick "k" "L1" (-1) "test") = Some "1970-01-01"
  /\ utc_calendar_date (-1) = "1969-12-31".
Proof. split; vm_compute; reflexivity. Qed.

(** C1 on the store of the daily-aggregation test. *)
Lemma daily_series_by_utc_day_witness :
  link_exists (param_id known) Scenario.store
  /\ Validators.parseDateRange Scenario.env (req_query known) = inr window
  /\ Dates.normalizeRange Scenario.env window
     = inr (1735689600000, 1735948799999)
  /\ window_recorded "L1" 1735689600000 1735948799999 Scenario.store
  /\ exists rows,
      fst (daily_handler Scenario.env known Scenario.store)
      = Some (mkResponse 200%nat (JsonDaily rows))
      /\ (forall r, In r rows ->
            exists d,
              day r = Some d
              /\ (exists c, In c (clicks_within "L1" 1735689600000
                                                1735948799999 Scenario.store)
                            /\ utc_calendar_date (click_tsUtc c) = d)
              /\ count r
                 = List.length (clicks_on_day d "L1" 1735689600000
                                              1735948799999 Scenario.store)
              /\ (1 <= count r)%nat)
      /\ (forall c, In c (clicks_within "L1" 1735689600000 1735948799999
                                        Scenario.store) ->
            exists r, In r rows
                      /\ day r = Some (utc_calendar_date (click_tsUtc c)))
      /\ StronglySorted
           (day_precedes "L1" 1735689600000 1735948799999 Scenario.store) rows.
Proof.
  assert (Hparse : Validators.parseDateRange Scenario.env (req_query known)
                   = inr window) by reflexivity.
  assert (Hnorm : Dates.normalizeRange Scenario.env window
                  = inr (1735689600000, 1735948799999)) by reflexivity.
  assert (Hrec : window_recorded "L1" 1735689600000 1735948799999
                                 Scenario.store).
  { apply window_in_period; unfold max_recorded; lia. }
  exact (conj scenario_link_exists
           (conj Hparse
              (conj Hnorm
                 (conj Hrec
                    (daily_series_by_utc_day Scenario.env known Scenario.store
                       window _ _ scenario_link_exists Hparse Hnorm Hrec))))).
Defined.

Lemma scenario_quiet_link : link_exists "L1" Scenario.quiet.
Proof. exists Scenario.link1. split; [left; reflexivity | reflexivity]. Defined.

(** C2 on the store of the test, for an id that no link has, and on the
    link before any visit. *)
Lemma analytics_unknown_link_vs_no_clicks_witness :
  (~ link_exists "nonexistent-id" Scenario.store
   /\ summary_handler Scenario.env unknown Scenario.store
      = (Some (mkResponse 404%nat (JsonError "NOT_FOUND" "Link not found" None)),
         record_call (LinkFindUniqueById "nonexistent-id") Scenario.store)
   /\ daily_handler Scenario.env unknown Scenario.store
      = (Some (mkResponse 404%nat (JsonError "NOT_FOUND" "Link not found" None)),
         record_call (LinkFindUniqueById "nonexistent-id") Scenario.store))
  /\ (link_exists "L1" Scenario.quiet
      /\ fst (summary_handler Scenario.env known Scenario.quiet)
         = Some (mkResponse 200%nat (JsonTotal 0))
      /\ fst (daily_handler Scenario.env known Scenario.quiet)
         = Some (mkResponse 200%nat (JsonDaily []))).
Proof.
  pose proof (proj1 (analytics_unknown_link_vs_no_clicks
                       Scenario.env unknown Scenario.store)
                    scenario_link_unknown) as Hu.
  cbv zeta in Hu. destruct Hu as (Hs & Hd & _).
  pose proof (proj2 (analytics_unknown_link_vs_no_clicks
                       Scenario.env known Scenario.quiet)
                    scenario_quiet_link window
                    1735689600000 1735948799999 eq_refl eq_refl
                    (fun c (Hin : In c (clicks Scenario.quiet)) _ =>
                       match Hin with end)) as Hk.
  exact (conj (conj scenario_link_unknown (conj Hs Hd))
              (conj scenario_quiet_link Hk)).
Defined.

(** The range of [Scenario.reversed_query], as validated. *)
Local Abbreviation reversed :=
  (Dates.mkRange (Some "2025-01-03T23:59:59.999Z")
                 (Some "2025-01-01T00:00:00.000Z")).
Local Abbreviation point :=
  (Dates.mkRange (Some "2025-01-01T00:00:00.000Z")
                 (Some "2025-01-01T00:00:00.000Z")).



(** C6 on the store of the test: one more click at exactly [from], or at
    exactly [to], raises the total from 10 to 11. *)
Lemma summary_range_inclusive_witness :
  link_exists (param_id known) Scenario.store
  /\ Validators.parseDateRange Scenario.env (req_query known) = inr window
  /\ Dates.normalizeRange Scenario.env window
     = inr (1735689600000, 1735948799999)
  /\ fst (summary_handler Scenario.env known Scenario.store)
     = Some (mkResponse 200%nat (JsonTotal 10))
  /\ fst (summary_handler Scenario.env known
             (with_click (mkClick "k11" "L1" 1735689600000 "edge")
                         Scenario.store))
     = Some (mkResponse 200%nat (JsonTotal 11))
  /\ fst (summary_handler Scenario.env known
             (with_click (mkClick "k12" "L1" 1735948799999 "edge")
                         Scenario.store))
     = Some (mkResponse 200%nat (JsonTotal 11)).
Proof.
  assert (Hparse : Validators.parseDateRange Scenario.env (req_query known)
                   = inr window) by reflexivity.
  assert (Hnorm : Dates.normalizeRange Scenario.env window
                  = inr (1735689600000, 1735948799999)) by reflexivity.
  destruct (summary_range_inclusive Scenario.env known Scenario.store window
              _ _ scenario_link_exists Hparse Hnorm) as [Htotal Hedge].
  pose proof (proj2 (Hedge (mkClick "k11" "L1" 1735689600000 "edge")
                           eq_refl (or_introl eq_refl))) as Hfrom.
  pose proof (proj2 (Hedge (mkClick "k12" "L1" 1735948799999 "edge")
                           eq_refl (or_intror eq_refl))) as Hto.
  exact (conj scenario_link_exists
           (conj Hparse (conj Hnorm (conj Htotal (conj Hfrom Hto))))).
Defined.

(** C7 for the clock 2025-01-01T10:00:00.000Z. *)
Lemma normalizeRange_defaults_witness :
  clock_in_range Scenario.env
  /\ normalizeRange Scenario.env (mkRange None None)
     = inr (1733097600000, 1735775999999)
  /\ toISOString 1733097600000 = "2024-12-02T00:00:00.000Z"
  /\ toISOString 1735775999999 = "2025-01-01T23:59:59.999Z"
  /\ toISOString (now Scenario.env) = "2025-01-01T10:00:00.000Z".
Proof.
  assert (Hclock : clock_in_range Scenario.env).
  { unfold clock_in_range, maxTime, msPerDay. cbn. lia. }
  destruct (normalizeRange_defaults Scenario.env Hclock)
    as (from & to & Hrun & Hto & _ & _ & Hfrom & _).
  rewrite Hto, Hfrom in Hrun.
  exact (conj Hclock (conj Hrun (conj eq_refl (conj eq_refl eq_refl)))).
Defined.


Local Abbreviation target := "https://example.com/x".

(** C3 on a store where the first two generated slugs exist, and on one
    where the first four do. *)
Lemma create_without_slug_retries_witness :
  (slug_exists "0123456" (Scenario.taken 2)
   /\ slug_exists "789ABCD" (Scenario.taken 2)
   /\ ~ slug_exists "EFGHIJK" (Scenario.taken 2)
   /\ Links.create_handler Scenario.env (Scenario.create_request None)
                           (Scenario.taken 2)
      = (Some (mkResponse 201%nat
                 (JsonCreated "cc" "EFGHIJK" target "http://sho.rt/r/EFGHIJK"
                              1735725600000)),
         mkWorld (links (Scenario.taken 2)
                  ++ [mkLink "cc" "EFGHIJK" target 1735725600000])
                 []
                 [LinkCreate "0123456" target; LinkCreate "789ABCD" target;
                  LinkCreate "EFGHIJK" target]
                 21 3))
  /\ ((forall j, (j <= 3)%nat ->
         slug_exists (generated Scenario.env (Scenario.taken 4) j)
                     (Scenario.taken 4))
      /\ Links.create_handler Scenario.env (Scenario.create_request None)
                              (Scenario.taken 4)
         = (Some (mkResponse 500%nat
                    (JsonError "INTERNAL"
                       "Unable to generate unique slug after multiple attempts"
                       None)),
            mkWorld (links (Scenario.taken 4)) []
                    [LinkCreate "0123456" target; LinkCreate "789ABCD" target;
                     LinkCreate "EFGHIJK" target; LinkCreate "LMNOPQR" target]
                    28 4)).
Proof.
  assert (H0 : slug_exists "0123456" (Scenario.taken 2))
    by (apply slug_taken_iff; vm_compute; reflexivity).
  assert (H1 : slug_exists "789ABCD" (Scenario.taken 2))
    by (apply slug_taken_iff; vm_compute; reflexivity).
  assert (H2 : ~ slug_exists "EFGHIJK" (Scenario.taken 2)).
  { intros H. apply slug_taken_iff in H. vm_compute in H. discriminate. }
  assert (Hfirst : forall j, (j < 2)%nat ->
            slug_exists (generated Scenario.env (Scenario.taken 2) j)
                        (Scenario.taken 2)).
  { intros [|[|j]] Hj; [exact H0 | exact H1 | lia]. }
  assert (Hall : forall j, (j <= 3)%nat ->
            slug_exists (generated Scenario.env (Scenario.taken 4) j)
                        (Scenario.taken 4)).
  { intros [|[|[|[|j]]]] Hj; try lia;
      apply slug_taken_iff; vm_compute; reflexivity. }
  pose proof (proj1 (create_without_slug_retries Scenario.env
                       (Scenario.create_request None) target
                       (Scenario.taken 2) eq_refl)
                    2%nat ltac:(unfold Links.maxRetries; lia)
                    Hfirst H2 eq_refl) as Hcreated.
  pose proof (proj1 (proj2 (create_without_slug_retries Scenario.env
                              (Scenario.create_request None) target
                              (Scenario.taken 4) eq_refl))
                    Hall) as Hexhausted.
  exact (conj (conj H0 (conj H1 (conj H2 Hcreated)))
              (conj Hall Hexhausted)).
Defined.

(** C4 for a supplied slug that exists. *)
Lemma create_with_supplied_slug_witness :
  slug_exists "analytics-test" Scenario.store
  /\ Links.create_handler Scenario.env
        (Scenario.create_request (Some "analytics-test")) Scenario.store
     = (Some (mkResponse 409%nat
                (JsonError "SLUG_TAKEN" "Slug already exists" None)),
        mkWorld (links Scenario.store) (clicks Scenario.store)
                [LinkCreate "analytics-test" target] 0 1).
Proof.
  assert (Hex : slug_exists "analytics-test" Scenario.store)
    by (apply slug_taken_iff; vm_compute; reflexivity).
  pose proof (proj1 (proj1 (proj2 (create_with_supplied_slug Scenario.env
                        (Scenario.create_request (Some "analytics-test"))
                        target Scenario.store "analytics-test" eq_refl))
                    Hex)) as Hrun.
  exact (conj Hex Hrun).
Defined.

(** C10 for an unknown slug and for the slug of the link of the test. *)
Lemma redirect_records_one_click_witness :
  (~ slug_exists "nonexistent" Scenario.quiet
   /\ redirect_handler Scenario.env (mkRedirectRequest "nonexistent" None)
                       Scenario.quiet
      = (Some (mkResponse 404%nat (PlainText "Not found")),
         mkWorld [Scenario.link1] [] [LinkFindUniqueBySlug "nonexistent"] 0 0))
  /\ (slug_exists "analytics-test" Scenario.quiet
      /\ fst (redirect_handler Scenario.env
                (mkRedirectRequest "analytics-test" (Some "test-browser/1.0"))
                Scenario.quiet)
         = Some (mkResponse 302%nat
                   (RedirectTo "https://example.com/analytics"))
      /\ exists c,
          clicks (snd (redirect_handler Scenario.env
                         (mkRedirectRequest "analytics-test"
                                            (Some "test-browser/1.0"))
                         Scenario.quiet))
          = [c]
          /\ click_linkId c = "L1"
          /\ click_userAgent c = "test-browser/1.0"
          /\ click_tsUtc c = 1735725600000).
Proof.
  assert (Hno : ~ slug_exists "nonexistent" Scenario.quiet).
  { intros H. apply slug_taken_iff in H. vm_compute in H. discriminate. }
  assert (Hex : slug_exists "analytics-test" Scenario.quiet)
    by (apply slug_taken_iff; vm_compute; reflexivity).
  pose proof (proj1 (proj1 (redirect_records_one_click Scenario.env
                              (mkRedirectRequest "nonexistent" None)
                              Scenario.quiet) Hno)) as H404.
  assert (H302 : fst (redirect_handler Scenario.env
                        (mkRedirectRequest "analytics-test"
                                           (Some "test-browser/1.0"))
                        Scenario.quiet)
                 = Some (mkResponse 302%nat
                           (RedirectTo "https://example.com/analytics")))
    by (vm_compute; reflexivity).
  destruct (proj2 (proj2 (proj2 (proj2
              (redirect_records_one_click Scenario.env
                 (mkRedirectRequest "analytics-test" (Some "test-browser/1.0"))
                 Scenario.quiet)))) _ H302 eq_refl)
    as (l & c & Hin & _ & Hclicks & Hid & Hua & Hts).
  assert (Hl : link_id l = "L1").
  { destruct Hin as [<-|[]]. reflexivity. }
  rewrite Hl in Hid.
  exact (conj (conj Hno H404)
              (conj Hex (conj H302
                 (ex_intro _ c (conj Hclicks (conj Hid (conj Hua Hts))))))).
Defined.

End Instances.

(** ** Generated slugs and the slug schema *)

Section GeneratedSlugs.
Import Slug Validators.

(** The bytes that a call of [randomBytes] draws in world [w]. *)
Local Abbreviation drawn env w len :=
  (map (fun i => random_byte env (rng_pos w + i)%nat) (seq 0 len)).

Lemma randomSlug_value (env : Env) (len : nat) (w : World) :
  randomSlug env len w
  = (inr (string_of_list_ascii (map base62_of_byte (drawn env w len))),
     mkWorld (links w) (clicks w) (calls w) (rng_pos w + len) (cuid_pos w)).
Proof.
  set (bytes := drawn env w len).
  assert (Hlen : List.length bytes = len)
    by (unfold bytes; rewrite length_map, length_seq; reflexivity).
  unfold randomSlug, bind, randomBytes, ret. fold bytes.
  rewrite loop_appends by lia.
  cbn [skipn append]. rewrite <- Hlen at 1. rewrite firstn_all.
  reflexivity.
Qed.

Lemma base62_symbol_slug_char (c : ascii) :
  base62_symbol c = true -> slug_char c = true.
Proof.
  unfold base62_symbol, slug_char. cbv zeta.
  generalize (nat_of_ascii c). intros n H.
  repeat rewrite ?orb_true_iff, ?andb_true_iff in *. tauto.
Qed.

Lemma base62_text_chars (bytes : list Byte.byte) :
  forallb slug_char
    (list_ascii_of_string (string_of_list_ascii (map base62_of_byte bytes)))
  = true.
Proof.
  rewrite list_ascii_of_string_of_list_ascii.
  apply forallb_forall. intros c Hc. apply in_map_iff in Hc.
  destruct Hc as [b [<- _]].
  apply base62_symbol_slug_char. apply base62_of_byte_symbol.
Qed.

Lemma base62_text_regex (bytes : list Byte.byte) :
  slug_regex (string_of_list_ascii (map base62_of_byte bytes))
  = ((1 <=? List.length bytes)%nat && (List.length bytes <=? 64)%nat).
Proof.
  unfold slug_regex.
  rewrite base62_text_chars, length_string_of_list, length_map.
  apply andb_true_r.
Qed.

Lemma generated_slug_regex (env : Env) (w : World) (slug : string) (w' : World) :
  randomSlug env default_len w = (inr slug, w') -> slug_regex slug = true.
Proof.
  rewrite randomSlug_value. intros E.
  assert (Es : slug = string_of_list_ascii
                        (map base62_of_byte (drawn env w default_len)))
    by congruence.
  rewrite Es, base62_text_regex, length_map, length_seq. reflexivity.
Qed.


End GeneratedSlugs.

(** ** The outcomes of the create handler *)

Section CreateOutcome.
Import Spec Prisma Middleware Links Schema.

Variable env : Env.
Variable req : CreateRequest.

Lemma link_create_id_clash (slug targetUrl : string) (w : World) :
  slug_taken slug w = false ->
  link_id_used (cuid env (cuid_pos w)) w = true ->
  link_create env slug targetUrl w
  = (inl (P2002 ["id"]),
     mkWorld (links w) (clicks w) (calls w ++ [LinkCreate slug targetUrl])
             (rng_pos w) (S (cuid_pos w))).
Proof.
  intros H1 H2.
  unfold link_create, bind, log, record_call, slug_taken, link_id_used in *.
  cbn [links clicks calls rng_pos cuid_pos]. rewrite H1, H2. reflexivity.
Qed.

(** What one run of the insertion loop can do to the store: the clicks
    stay, and either the links stay and the run ends in one of the
    refusals, or exactly one link with a slug and an id that were free is
    appended and the answer is the 201 built from it. *)
Lemma create_loop_result (targetUrl : string) (provided : bool) (fuel : nat) :
  forall retries slug w,
    (provided = true \/ Validators.slug_regex slug = true) ->
    let out := create_loop env fuel req targetUrl provided retries slug w in
    clicks (snd out) = clicks w
    /\ ((links (snd out) = links w
         /\ (fst out = inr None
             \/ (provided = true /\ slug_taken slug w = true
                 /\ fst out = inr (Some slug_taken_response))
             \/ (provided = false
                 /\ fst out = inr (Some retries_exhausted_response))
             \/ fst out = inl (P2002 ["id"])))
        \/ exists l,
             fst out = inr (Some (created_response req l (link_slug l)))
             /\ links (snd out) = links w ++ [l]
             /\ (provided = true -> link_slug l = slug)
             /\ (provided = false -> Validators.slug_regex (link_slug l) = true)
             /\ link_targetUrl l = targetUrl
             /\ link_createdAt l = now env
             /\ slug_taken (link_slug l) w = false
             /\ link_id_used (link_id l) w = false).
Proof.
  induction fuel as [|fuel IH]; intros retries slug w Hs out.
  - subst out. cbn. split; [reflexivity|]. left. auto.
  - assert (Eo : out = create_loop env (S fuel) req targetUrl provided
                                   retries slug w) by reflexivity.
    clearbody out. cbn [create_loop] in Eo.
    destruct (retries <=? maxRetries)%nat.
    2:{ subst out. cbn. split; [reflexivity|]. left. auto. }
    unfold try_catch at 1 in Eo. unfold bind at 1 in Eo.
    destruct (slug_taken slug w) eqn:Et.
    + rewrite (link_create_conflict _ _ _ _ Et) in Eo.
      rewrite is_slug_conflict_P2002_slug in Eo.
      destruct provided.
      * subst out. cbn [fst snd links clicks ret]. split; [reflexivity|]. left.
        split; [reflexivity|]. right. left. auto.
      * destruct (retries <? maxRetries)%nat.
        -- unfold bind at 1 in Eo. rewrite randomSlug_value in Eo.
           match type of Eo with
           | _ = create_loop _ _ _ _ _ _ ?s ?x =>
               assert (Hr : Validators.slug_regex s = true)
                 by (rewrite base62_text_regex, length_map, length_seq;
                     reflexivity);
               specialize (IH (S retries) s x (or_intror Hr))
           end.
           rewrite <- Eo in IH. cbv zeta in IH.
           unfold slug_taken, link_id_used in *.
           cbn [links clicks calls rng_pos cuid_pos] in IH.
           destruct IH as [Hc [[Hl Hk]|[l Hl]]].
           ++ split; [exact Hc|]. left. split; [exact Hl|].
              destruct Hk as [Hk|[[Hk _]|[Hk|Hk]]]; auto. discriminate Hk.
           ++ split; [exact Hc|]. right. exists l.
              destruct Hl as (H1 & H2 & H3 & H4 & H5 & H6 & H7 & H8).
              repeat split; auto. discriminate.
        -- subst out. cbn [fst snd links clicks ret].
           split; [reflexivity|]. left.
           split; [reflexivity|]. right. right. left. auto.
    + destruct (link_id_used (cuid env (cuid_pos w)) w) eqn:Ei.
      * rewrite (link_create_id_clash _ _ _ Et Ei) in Eo.
        change (is_slug_conflict (P2002 ["id"])) with false in Eo.
        cbv iota in Eo. subst out.
        cbn. split; [reflexivity|]. left. auto 6.
      * rewrite (link_create_inserted _ _ _ _ Et Ei) in Eo.
        unfold bind, ret in Eo. subst out.
        cbn [links clicks calls rng_pos cuid_pos fst snd].
        split; [reflexivity|]. right.
        eexists. repeat split; try reflexivity.
        -- cbn. intros ->. destruct Hs as [Hs|Hs]; [discriminate|exact Hs].
        -- exact Et.
        -- exact Ei.
Qed.

Lemma parse_accepts (targetUrl : string) (userSlug : option string) :
  Validators.parseCreateLink env (req_body req) = inr (targetUrl, userSlug) ->
  targetUrl = Validators.body_targetUrl (req_body req)
  /\ userSlug = Validators.body_slug (req_body req)
  /\ forall s, userSlug = Some s -> Validators.slug_regex s = true.
Proof.
  unfold Validators.parseCreateLink.
  destruct (map _ _ ++ Validators.slug_issues _) as [|i rest] eqn:E;
    [|discriminate].
  intros Hp. injection Hp as <- <-. split; [reflexivity|].
  split; [reflexivity|]. intros s Hs. rewrite Hs in E.
  apply app_eq_nil in E as [_ E]. cbn [Validators.slug_issues] in E.
  destruct (Validators.slug_regex s); [reflexivity | discriminate].
Qed.

(** The runs of the create handler, by what they do to the store. *)
Lemma create_handler_result (w : World) :
  let out := create_handler env req w in
  clicks (snd out) = clicks w
  /\ ((links (snd out) = links w
       /\ ((exists e, Validators.parseCreateLink env (req_body req) = inl e
                      /\ out = (Some (errorHandler e), w))
           \/ (fst out = Some slug_taken_response
               /\ exists s, Validators.body_slug (req_body req) = Some s
                            /\ slug_taken s w = true)
           \/ (fst out = Some retries_exhausted_response
               /\ truthy (Validators.body_slug (req_body req)) = false)
           \/ fst out = Some (errorHandler (P2002 ["id"]))))
      \/ exists l,
           fst out = Some (created_response req l (link_slug l))
           /\ links (snd out) = links w ++ [l]
           /\ (forall s, Validators.body_slug (req_body req) = Some s ->
                         link_slug l = s)
           /\ Validators.slug_regex (link_slug l) = true
           /\ link_targetUrl l = Validators.body_targetUrl (req_body req)
           /\ link_createdAt l = now env
           /\ slug_taken (link_slug l) w = false
           /\ link_id_used (link_id l) w = false).
Proof.
  intros out.
  destruct (create_handler_responds env req w) as [r0 Hr0]. fold out in Hr0.
  assert (Eo : out = create_handler env req w) by reflexivity.
  clearbody out. unfold create_handler, route in Eo.
  unfold bind at 1 in Eo. unfold lift in Eo.
  destruct (Validators.parseCreateLink env (req_body req)) as [e|[t u]] eqn:Ep.
  { subst out. cbn [fst snd]. split; [reflexivity|]. left.
    split; [reflexivity|]. left. exists e. auto. }
  destruct (parse_accepts _ _ Ep) as (Et & Eu & Hu).
  cbn [fst snd] in Eo. unfold bind at 1 in Eo.
  destruct (truthy u) eqn:Tu.
  - destruct u as [s|]; [|discriminate Tu].
    unfold ret at 1 in Eo. cbn [js_nullish] in Eo.
    pose proof (create_loop_result t true (S (S maxRetries)) 0%nat s w
                  (or_introl eq_refl)) as H.
    cbv zeta in H.
    destruct (create_loop env (S (S maxRetries)) req t true 0 s w)
      as [[e|r] w'] eqn:El; cbn [fst snd] in H; subst out; cbn [fst snd] in *.
    + destruct H as [Hc [[Hl Hk]|[l [Hk _]]]]; [|discriminate Hk].
      split; [exact Hc|]. left. split; [exact Hl|].
      destruct Hk as [Hk|[[_ [_ Hk]]|[[Hk _]|Hk]]]; try discriminate Hk.
      injection Hk as ->. auto.
    + destruct H as [Hc [[Hl Hk]|[l Hk]]].
      * split; [exact Hc|]. left. split; [exact Hl|].
        destruct Hk as [Hk|[[_ [Hs Hk]]|[[Hk _]|Hk]]]; try discriminate Hk.
        -- injection Hk as ->. discriminate Hr0.
        -- injection Hk as ->. right. left. split; [reflexivity|].
           exists s. auto.
      * split; [exact Hc|]. right. exists l.
        destruct Hk as (H1 & H2 & H3 & H4 & H5 & H6 & H7 & H8).
        injection H1 as ->.
        repeat split; auto.
        -- intros s' Hs'. rewrite <- Eu in Hs'. injection Hs' as <-. auto.
        -- rewrite (H3 eq_refl). apply Hu. reflexivity.
        -- congruence.
  - rewrite randomSlug_value in Eo.
    match type of Eo with
    | context [create_loop _ _ _ _ _ _ ?s ?x] =>
        assert (Hr : Validators.slug_regex s = true)
          by (rewrite base62_text_regex, length_map, length_seq; reflexivity);
        pose proof (create_loop_result t false (S (S maxRetries)) 0%nat s x
                      (or_intror Hr)) as H;
        destruct (create_loop env (S (S maxRetries)) req t false 0 s x)
          as [[e|r] w'] eqn:El
    end; cbv zeta in H;
      unfold slug_taken, link_id_used in *;
      cbn [fst snd links clicks calls rng_pos cuid_pos] in H;
      subst out; cbn [fst snd] in *.
    + destruct H as [Hc [[Hl Hk]|[l [Hk _]]]]; [|discriminate Hk].
      split; [exact Hc|]. left. split; [exact Hl|].
      destruct Hk as [Hk|[[Hk _]|[[_ Hk]|Hk]]]; try discriminate Hk.
      injection Hk as ->. auto.
    + destruct H as [Hc [[Hl Hk]|[l Hk]]].
      * split; [exact Hc|]. left. split; [exact Hl|].
        destruct Hk as [Hk|[[Hk _]|[[_ Hk]|Hk]]]; try discriminate Hk.
        -- injection Hk as ->. discriminate Hr0.
        -- injection Hk as ->. right. right. left. split; [reflexivity|].
           rewrite <- Eu. exact Tu.
      * split; [exact Hc|]. right. exists l.
        destruct Hk as (H1 & H2 & H3 & H4 & H5 & H6 & H7 & H8).
        injection H1 as ->.
        repeat split; auto.
        -- intros s' Hs'. rewrite <- Eu in Hs'. pose proof (Hu s' Hs') as R.
           rewrite Hs' in Tu. cbn in Tu.
           destruct s'; [discriminate R | discriminate Tu].
        -- congruence.
Qed.


Lemma parse_rejects (e : Thrown) :
  Validators.parseCreateLink env (req_body req) = inl e ->
  let details :=
    map (mkIssue "targetUrl")
        (target_url_issues env (Validators.body_targetUrl (req_body req)))
    ++ Validators.slug_issues (Validators.body_slug (req_body req)) in
  details <> []
  /\ errorHandler e
     = mkResponse 400%nat
         (JsonError "VALIDATION_ERROR" "Invalid request data" (Some details)).
Proof.
  unfold Validators.parseCreateLink.
  destruct (map _ _ ++ Validators.slug_issues _) as [|i rest] eqn:E;
    [discriminate|].
  intros He. injection He as <-. cbv zeta. split; [discriminate|reflexivity].
Qed.

Lemma id_free (id : string) (w : World) :
  link_id_used id w = false -> ~ link_exists id w.
Proof.
  intros H [l [Hin <-]]. rewrite (link_id_used_in _ _ Hin) in H. discriminate.
Qed.

Lemma slug_free (slug : string) (w : World) :
  slug_taken slug w = false -> ~ slug_exists slug w.
Proof.
  intros H Hex. apply slug_taken_iff in Hex. congruence.
Qed.

(** X1. The create handler always answers, with status 201, 400, 409 or
    500, and never touches the clicks. With 201 the links table has
    grown by exactly the link of the answer, whose slug and id were not
    in the table, whose target is that of the request and whose creation
    time is the clock's; with any other status the links table is as it
    was. *)
Theorem create_handler_outcome (w : World) :
  exists r,
    fst (create_handler env req w) = Some r
    /\ clicks (snd (create_handler env req w)) = clicks w
    /\ ((res_status r = 201%nat
         /\ exists l shortUrl,
              links (snd (create_handler env req w)) = links w ++ [l]
              /\ res_body r
                 = JsonCreated (link_id l) (link_slug l) (link_targetUrl l)
                               shortUrl (link_createdAt l)
              /\ ~ slug_exists (link_slug l) w
              /\ ~ link_exists (link_id l) w
              /\ link_targetUrl l = Validators.body_targetUrl (req_body req)
              /\ link_createdAt l = now env)
        \/ ((res_status r = 400 \/ res_status r = 409 \/ res_status r = 500)%nat
            /\ links (snd (create_handler env req w)) = links w)).
Proof.
  destruct (create_handler_result w) as [Hc [[Hl Hk]|[l Hk]]].
  - destruct Hk as [[e [Hp Ho]]|[[Ho _]|[[Ho _]|Ho]]].
    + rewrite Ho. destruct (parse_rejects e Hp) as [_ He].
      eexists. split; [reflexivity|]. split; [reflexivity|]. right.
      rewrite He. cbn. auto.
    + eexists. split; [exact Ho|]. split; [exact Hc|]. right. cbn. auto.
    + eexists. split; [exact Ho|]. split; [exact Hc|]. right. cbn. auto.
    + eexists. split; [exact Ho|]. split; [exact Hc|]. right. cbn. auto.
  - destruct Hk as (H1 & H2 & H3 & H4 & H5 & H6 & H7 & H8).
    eexists. split; [exact H1|]. split; [exact Hc|]. left.
    split; [reflexivity|]. exists l. eexists.
    split; [exact H2|]. split; [reflexivity|].
    split; [apply slug_free; exact H7|].
    split; [apply id_free; exact H8|]. auto.
Qed.

(** X2. The create handler keeps the constraints of the schema: after any
    call the slugs and the ids of the links are still pairwise distinct,
    as are the ids of the clicks, and every click still belongs to a
    link. It also keeps every stored slug within the pattern of the slug
    schema, whether the slug was supplied or generated. *)
Theorem create_keeps_schema (w : World) :
  (consistent w -> consistent (snd (create_handler env req w)))
  /\ (slugs_well_formed w ->
      slugs_well_formed (snd (create_handler env req w))).
Proof.
  destruct (create_handler_result w) as [Hc [[Hl _]|[l Hk]]].
  - unfold consistent, slugs_unique, link_ids_unique, click_ids_unique,
      clicks_reference_links, slugs_well_formed.
    rewrite Hc, Hl. tauto.
  - destruct Hk as (_ & H2 & _ & H4 & _ & _ & H7 & H8).
    apply slug_free in H7. apply id_free in H8.
    unfold consistent, slugs_unique, link_ids_unique, click_ids_unique,
      clicks_reference_links, slugs_well_formed.
    rewrite Hc, H2. split.
    + intros (S1 & S2 & S3 & S4). rewrite !map_app. cbn [map].
      split; [|split; [|split; [exact S3|]]].
      * apply NoDup_app; [exact S1 | repeat constructor; intros [] |].
        intros a Ha [<-|[]]. apply in_map_iff in Ha as [x [Hx Hin]].
        apply H7. exists x. auto.
      * apply NoDup_app; [exact S2 | repeat constructor; intros [] |].
        intros a Ha [<-|[]]. apply in_map_iff in Ha as [x [Hx Hin]].
        apply H8. exists x. auto.
      * intros c Hin. destruct (S4 c Hin) as [x [Hx Ex]].
        exists x. split; [apply in_or_app; auto | exact Ex].
    + intros S l0 Hin. apply in_app_or in Hin as [Hin|[<-|[]]]; auto.
Qed.

End CreateOutcome.

(** ** Rejected bodies *)

Section CreateRejects.
Import Spec Prisma Middleware Links Validators.

Variable env : Env.
Variable req : CreateRequest.

(** X3. The create handler answers 400 VALIDATION_ERROR exactly for the
    bodies that the schema refuses: a target URL with an issue, or a
    supplied slug outside the pattern (the empty slug included; it is
    not replaced by a generated one). The answer lists the issues by
    field, and the call leaves the world as it was: no store operation,
    no random byte and no identifier is spent. A body that the schema
    accepts is never answered with 400. *)
Theorem create_rejects_invalid_body (w : World) :
  let body := req_body req in
  let details :=
    map (mkIssue "targetUrl") (target_url_issues env (body_targetUrl body))
    ++ slug_issues (body_slug body) in
  (details = []
   <-> target_url_issues env (body_targetUrl body) = []
       /\ forall s, body_slug body = Some s -> slug_regex s = true)
  /\ (details <> [] ->
      create_handler env req w
      = (Some (mkResponse 400%nat
                 (JsonError "VALIDATION_ERROR" "Invalid request data"
                            (Some details))), w)
      /\ forall i, In i details ->
           issue_field i = "targetUrl" \/ issue_field i = "slug")
  /\ (details = [] ->
      forall r, fst (create_handler env req w) = Some r ->
                res_status r <> 400%nat).
Proof.
  intros body details.
  split; [|split].
  - unfold details. split.
    + intros E. apply app_eq_nil in E as [E1 E2].
      split.
      * destruct (target_url_issues env (body_targetUrl body));
          [reflexivity | discriminate E1].
      * intros s Hs. rewrite Hs in E2. cbn in E2.
        destruct (slug_regex s); [reflexivity | discriminate E2].
    + intros [E1 E2]. rewrite E1. cbn [map app].
      destruct (body_slug body) as [s|]; [|reflexivity].
      cbn. rewrite (E2 s eq_refl). reflexivity.
  - intros Hd. split.
    + unfold create_handler, route. unfold bind at 1. unfold lift.
      unfold parseCreateLink. fold body. fold details.
      destruct details; [contradiction Hd; reflexivity | reflexivity].
    + intros i Hi. unfold details in Hi.
      apply in_app_or in Hi as [Hi|Hi].
      * apply in_map_iff in Hi as [m [<- _]]. left. reflexivity.
      * destruct (body_slug body) as [s|]; [|contradiction].
        cbn in Hi. destruct (slug_regex s); [contradiction|].
        destruct Hi as [<-|[]]. right. reflexivity.
  - intros Hd r Hr.
    destruct (create_handler_result env req w) as [_ [[_ Hk]|[l Hk]]].
    + destruct Hk as [[e [Hp _]]|[[Ho _]|[[Ho _]|Ho]]].
      * unfold parseCreateLink in Hp. fold body in Hp. fold details in Hp.
        rewrite Hd in Hp. discriminate Hp.
      * rewrite Ho in Hr. injection Hr as <-. discriminate.
      * rewrite Ho in Hr. injection Hr as <-. discriminate.
      * rewrite Ho in Hr. injection Hr as <-. discriminate.
    + destruct Hk as [Ho _]. rewrite Ho in Hr. injection Hr as <-.
      discriminate.
Qed.

End CreateRejects.

(** ** The effort of a creation *)

Section CreateEffort.
Import Spec Prisma Middleware Links Validators.

Variable env : Env.
Variable req : CreateRequest.

(** The insertions of a run of the loop with fuel for every turn left:
    at most one per turn, each with the target URL of the run and a
    slug that is the slug of the turn or a generated one; one identifier
    is drawn per insertion and [default_len] random bytes per insertion
    after the first. *)
Local Abbreviation effort targetUrl provided retries slug w0 out :=
  (exists slugs,
      calls (snd out) = calls w0 ++ map (fun s => LinkCreate s targetUrl) slugs
      /\ (List.length slugs <= S maxRetries - retries)%nat
      /\ (provided = true -> (List.length slugs <= 1)%nat)
      /\ ((retries <= maxRetries)%nat -> (1 <= List.length slugs)%nat)
      /\ cuid_pos (snd out) = Nat.add (cuid_pos w0) (List.length slugs)
      /\ rng_pos (snd out)
         = Nat.add (rng_pos w0)
                   (Slug.default_len * (List.length slugs - 1))%nat
      /\ (forall s, In s slugs -> s = slug \/ slug_regex s = true)).

Lemma effort_of_one (targetUrl : string) (provided : bool) (retries : nat)
      (slug : string) (w : World) (out : (Thrown + option Response) * World) :
  (retries <= maxRetries)%nat ->
  calls (snd out) = calls w ++ [LinkCreate slug targetUrl] ->
  cuid_pos (snd out) = S (cuid_pos w) ->
  rng_pos (snd out) = rng_pos w ->
  effort targetUrl provided retries slug w out.
Proof.
  intros Hle H1 H2 H3. exists [slug].
  cbn [map List.length]. rewrite H1, H2, H3.
  split; [reflexivity|]. split; [lia|]. split; [lia|]. split; [lia|].
  split; [lia|]. split; [lia|].
  intros s [<-|[]]. left. reflexivity.
Qed.

Lemma create_loop_effort (targetUrl : string) (provided : bool) (fuel : nat) :
  forall retries slug w,
    (S maxRetries - retries <= fuel)%nat ->
    effort targetUrl provided retries slug w
           (create_loop env fuel req targetUrl provided retries slug w).
Proof.
  assert (Hnone : forall retries slug w,
             (maxRetries < retries)%nat ->
             effort targetUrl provided retries slug w
                    (@inr Thrown (option Response) None, w)).
  { intros retries slug w Hn. exists []. cbn [map List.length snd].
    rewrite app_nil_r.
    split; [reflexivity|]. split; [lia|]. split; [lia|]. split; [lia|].
    split; [lia|]. split; [lia|]. intros s []. }
  induction fuel as [|fuel IH]; intros retries slug w Hfuel.
  - cbn [create_loop]. apply Hnone. lia.
  - remember (create_loop env (S fuel) req targetUrl provided retries slug w)
      as out eqn:Eo.
    cbn [create_loop] in Eo.
    destruct (Nat.leb_spec retries maxRetries) as [Hle|Hgt];
      [|subst out; apply Hnone; exact Hgt].
    unfold try_catch at 1 in Eo. unfold bind at 1 in Eo.
    destruct (slug_taken slug w) eqn:Et.
    + rewrite (link_create_conflict _ _ _ _ Et) in Eo.
      rewrite is_slug_conflict_P2002_slug in Eo.
      destruct provided.
      * subst out. apply effort_of_one; [exact Hle | reflexivity..].
      * destruct (Nat.ltb_spec retries maxRetries) as [Hlt|Hge].
        -- unfold bind at 1 in Eo. rewrite randomSlug_value in Eo.
           match type of Eo with
           | _ = create_loop _ _ _ _ _ _ ?s ?x =>
               assert (Hr : slug_regex s = true)
                 by (rewrite base62_text_regex, length_map, length_seq;
                     reflexivity);
               pose proof (IH (S retries) s x ltac:(lia)) as IH';
               set (s0 := s) in *
           end.
           rewrite <- Eo in IH'.
           destruct IH' as (slugs & H1 & H2 & _ & H3 & H4 & H5 & H6).
           cbn [links clicks calls rng_pos cuid_pos] in *.
           exists (slug :: slugs). cbn [map List.length].
           rewrite H1, H4, H5, <- app_assoc. cbn [app].
           specialize (H3 ltac:(lia)). unfold Slug.default_len.
           split; [reflexivity|]. split; [lia|].
           split; [discriminate|]. split; [lia|]. split; [lia|].
           split; [lia|].
           intros s [<-|Hs]; [left; reflexivity|].
           destruct (H6 s Hs) as [->|Hre]; right; assumption.
        -- subst out. apply effort_of_one; [exact Hle | reflexivity..].
    + destruct (link_id_used (cuid env (cuid_pos w)) w) eqn:Ei.
      * rewrite (link_create_id_clash _ _ _ _ Et Ei) in Eo.
        change (is_slug_conflict (P2002 ["id"])) with false in Eo.
        cbv iota in Eo.
        subst out. apply effort_of_one; [exact Hle | reflexivity..].
      * rewrite (link_create_inserted _ _ _ _ Et Ei) in Eo.
        unfold bind, ret in Eo.
        subst out. apply effort_of_one; [exact Hle | reflexivity..].
Qed.

(** X4. Whatever the outcome, one call of the create handler makes at
    most four store operations, all of them insertions of a link with
    the target URL of the body and a slug within the pattern of the
    schema: none for a refused body, exactly one for a supplied slug,
    one to four for a generated slug. It draws one identifier per
    insertion, 7 random bytes per insertion with a generated slug and
    none otherwise. *)
Theorem create_effort_bound (w : World) :
  let out := create_handler env req w in
  exists slugs,
    calls (snd out)
    = calls w ++ map (fun s => LinkCreate s (body_targetUrl (req_body req)))
                     slugs
    /\ (List.length slugs <= 4)%nat
    /\ (forall s, In s slugs -> slug_regex s = true)
    /\ cuid_pos (snd out) = (cuid_pos w + List.length slugs)%nat
    /\ (forall e, parseCreateLink env (req_body req) = inl e ->
                  slugs = [] /\ rng_pos (snd out) = rng_pos w)
    /\ (forall t s, parseCreateLink env (req_body req) = inr (t, Some s) ->
                    slugs = [s] /\ rng_pos (snd out) = rng_pos w)
    /\ (forall t, parseCreateLink env (req_body req) = inr (t, None) ->
                  (1 <= List.length slugs)%nat
                  /\ rng_pos (snd out)
                     = (rng_pos w + 7 * List.length slugs)%nat).
Proof.
  intros out.
  assert (Eo : out = create_handler env req w) by reflexivity.
  clearbody out. unfold create_handler, route in Eo.
  unfold bind at 1 in Eo. unfold lift in Eo.
  destruct (parseCreateLink env (req_body req)) as [e|[t u]] eqn:Ep.
  { subst out. exists []. cbn [snd map List.length]. rewrite app_nil_r.
    split; [reflexivity|]. split; [lia|]. split; [intros s []|].
    split; [lia|]. split; [auto|]. split; discriminate. }
  destruct (parse_accepts env req _ _ Ep) as (Et & Eu & Hu).
  cbn [fst snd] in Eo. unfold bind at 1 in Eo. rewrite <- Et.
  destruct (truthy u) eqn:Tu.
  - destruct u as [s|]; [|discriminate Tu].
    unfold ret at 1 in Eo. cbn [js_nullish] in Eo.
    destruct (create_loop_effort t true (S (S maxRetries)) 0%nat s w
                ltac:(lia))
      as (slugs & H1 & H2 & H3 & H3' & H4 & H5 & H6).
    specialize (H3 eq_refl). specialize (H3' ltac:(unfold maxRetries; lia)).
    assert (Es : snd out
                 = snd (create_loop env (S (S maxRetries)) req t true 0 s w)).
    { rewrite Eo.
      destruct (create_loop env (S (S maxRetries)) req t true 0 s w)
        as [[e|r] w']; reflexivity. }
    rewrite Es. exists slugs.
    assert (Hs : forall x, In x slugs -> slug_regex x = true).
    { intros x Hx. destruct (H6 x Hx) as [->|Hre]; [|exact Hre].
      apply Hu. reflexivity. }
    assert (Hone : slugs = [s]).
    { pose proof (loop_supplied_calls env req t (S maxRetries) s w) as Hc.
      cbv zeta in Hc. destruct Hc as [Hc _]. rewrite Hc in H1.
      apply app_inv_head in H1.
      destruct slugs as [|a [|b slugs]]; cbn in H1; try discriminate H1.
      injection H1 as ->. reflexivity. }
    split; [exact H1|]. split; [lia|]. split; [exact Hs|].
    split; [exact H4|]. split; [discriminate|].
    split.
    { intros t' s' E. injection E as _ <-. split; [exact Hone|].
      rewrite H5, Hone. cbn. lia. }
    discriminate.
  - rewrite randomSlug_value in Eo.
    match type of Eo with
    | context [create_loop _ _ _ _ _ _ ?s ?x] =>
        assert (Hr : slug_regex s = true)
          by (rewrite base62_text_regex, length_map, length_seq; reflexivity);
        destruct (create_loop_effort t false (S (S maxRetries)) 0%nat s x
                    ltac:(lia))
          as (slugs & H1 & H2 & _ & H3 & H4 & H5 & H6);
        assert (Es : snd out
                     = snd (create_loop env (S (S maxRetries)) req t false 0 s x))
          by (rewrite Eo;
              destruct (create_loop env (S (S maxRetries)) req t false 0 s x)
                as [[e|r] w']; reflexivity);
        set (s0 := s) in *
    end.
    cbn [links clicks calls rng_pos cuid_pos] in *.
    specialize (H3 ltac:(unfold maxRetries; lia)).
    rewrite Es. exists slugs.
    split; [exact H1|]. split; [unfold maxRetries in H2; lia|].
    split.
    { intros s Hs. destruct (H6 s Hs) as [->|Hre]; assumption. }
    split; [exact H4|].
    split; [discriminate|].
    split.
    { intros t' s' E. exfalso. injection E as _ E'. rewrite E' in Tu.
      pose proof (Hu s' E') as R. cbn in Tu.
      destruct s'; [discriminate R | discriminate Tu]. }
    intros t' _. split; [exact H3|].
    rewrite H5. unfold Slug.default_len. lia.
Qed.

End CreateEffort.

(** ** Requests in sequence *)

Section Sequences.
Import Spec Prisma Middleware Links Redirect Validators Schema.

Lemma find_appended {A : Type} (f : A -> bool) (xs : list A) (y : A) :
  existsb f xs = false -> f y = true -> find f (xs ++ [y]) = Some y.
Proof.
  induction xs as [|x xs IH]; cbn; intros Hx Hy.
  - rewrite Hy. reflexivity.
  - apply orb_false_iff in Hx as [Hx1 Hx2]. rewrite Hx1. auto.
Qed.

Lemma find_unique_slug (ls : list Link) (l : Link) :
  NoDup (map link_slug ls) -> In l ls ->
  find (fun x => (link_slug x =? link_slug l)%string) ls = Some l.
Proof.
  induction ls as [|x ls IH]; cbn; intros Hnd Hin; [contradiction|].
  inversion Hnd as [|? ? Hx Hnd']; subst.
  destruct Hin as [->|Hin].
  - rewrite String.eqb_refl. reflexivity.
  - destruct (String.eqb_spec (link_slug x) (link_slug l)) as [E|_].
    + exfalso. apply Hx. rewrite E. apply in_map. exact Hin.
    + auto.
Qed.

Lemma parse_ok (env : Env) (body : CreateBody) :
  target_url_issues env (body_targetUrl body) = [] ->
  (forall s, body_slug body = Some s -> slug_regex s = true) ->
  parseCreateLink env body = inr (body_targetUrl body, body_slug body).
Proof.
  intros E1 E2. unfold parseCreateLink. rewrite E1. cbn [map app].
  destruct (body_slug body) as [s|]; [|reflexivity].
  cbn. rewrite (E2 s eq_refl). reflexivity.
Qed.

Lemma create_supplied_taken (env : Env) (req : CreateRequest) (w : World)
      (targetUrl s : string) :
  parseCreateLink env (req_body req) = inr (targetUrl, Some s) ->
  slug_taken s w = true ->
  create_handler env req w
  = (Some slug_taken_response,
     mkWorld (links w) (clicks w) (calls w ++ [LinkCreate s targetUrl])
             (rng_pos w) (S (cuid_pos w))).
Proof.
  intros Hp Ht. unfold create_handler, route.
  unfold bind at 1. unfold lift. rewrite Hp. cbn [fst snd].
  rewrite (parse_supplied_slug env req targetUrl s Hp).
  unfold bind at 1. unfold ret at 1. cbn [js_nullish].
  rewrite (loop_supplied_taken env req targetUrl _ s w Ht). reflexivity.
Qed.

Lemma created_only_by_201 (env : Env) (req : CreateRequest) (w : World)
      (id slug targetUrl shortUrl : string) (createdAt : Z) :
  fst (create_handler env req w)
  = Some (mkResponse 201%nat (JsonCreated id slug targetUrl shortUrl createdAt)) ->
  exists l,
    l = mkLink id slug targetUrl createdAt
    /\ links (snd (create_handler env req w)) = links w ++ [l]
    /\ clicks (snd (create_handler env req w)) = clicks w
    /\ (forall s, body_slug (req_body req) = Some s -> slug = s)
    /\ slug_regex slug = true
    /\ targetUrl = body_targetUrl (req_body req)
    /\ createdAt = now env
    /\ slug_taken slug w = false
    /\ link_id_used id w = false.
Proof.
  intros Hr.
  destruct (create_handler_result env req w) as [Hc [[_ Hk]|[l Hk]]].
  - exfalso.
    destruct Hk as [[e [Hp Ho]]|[[Ho _]|[[Ho _]|Ho]]].
    + rewrite Ho in Hr. destruct (parse_rejects env req e Hp) as [_ He].
      cbn [fst] in Hr. rewrite He in Hr. discriminate Hr.
    + rewrite Ho in Hr. discriminate Hr.
    + rewrite Ho in Hr. discriminate Hr.
    + rewrite Ho in Hr. discriminate Hr.
  - destruct Hk as (H1 & H2 & H3 & H4 & H5 & H6 & H7 & H8).
    rewrite H1 in Hr. unfold created_response in Hr.
    injection Hr as E1 E2 E3 _ E5.
    exists l. destruct l as [i s t c]. cbn in *. subst.
    repeat split; auto.
Qed.

Lemma created_short_url (env : Env) (req : CreateRequest) (w : World)
      (id slug targetUrl shortUrl : string) (createdAt : Z) :
  fst (create_handler env req w)
  = Some (mkResponse 201%nat (JsonCreated id slug targetUrl shortUrl createdAt)) ->
  shortUrl
  = (js_or (req_x_forwarded_proto req)
           (if req_secure req then "https" else "http")
     ++ "://" ++ js_or (req_host req) "localhost:3000" ++ "/r/" ++ slug)%string.
Proof.
  intros Hr.
  destruct (create_handler_result env req w) as [_ [[_ Hk]|[l Hk]]].
  - exfalso.
    destruct Hk as [[e [Hp Ho]]|[[Ho _]|[[Ho _]|Ho]]].
    + rewrite Ho in Hr. destruct (parse_rejects env req e Hp) as [_ He].
      cbn [fst] in Hr. rewrite He in Hr. discriminate Hr.
    + rewrite Ho in Hr. discriminate Hr.
    + rewrite Ho in Hr. discriminate Hr.
    + rewrite Ho in Hr. discriminate Hr.
  - destruct Hk as (H1 & _).
    rewrite H1 in Hr. unfold created_response in Hr.
    injection Hr as _ E2 _ E4 _. rewrite <- E4, E2. reflexivity.
Qed.

(** X6. Creating a link under a custom slug and then asking for the same
    slug again: the second call answers 409 SLUG_TAKEN and stores
    nothing, whatever its target URL. *)
Theorem create_same_slug_twice (env1 env2 : Env) (req1 req2 : CreateRequest)
        (w : World) (s : string)
        (id targetUrl shortUrl : string) (createdAt : Z) :
  body_slug (req_body req1) = Some s ->
  body_slug (req_body req2) = Some s ->
  target_url_issues env2 (body_targetUrl (req_body req2)) = [] ->
  fst (create_handler env1 req1 w)
  = Some (mkResponse 201%nat (JsonCreated id s targetUrl shortUrl createdAt)) ->
  let w1 := snd (create_handler env1 req1 w) in
  fst (create_handler env2 req2 w1)
  = Some (mkResponse 409%nat (JsonError "SLUG_TAKEN" "Slug already exists" None))
  /\ links (snd (create_handler env2 req2 w1)) = links w1
  /\ clicks (snd (create_handler env2 req2 w1)) = clicks w1.
Proof.
  intros Hs1 Hs2 Hurl Hr w1.
  destruct (created_only_by_201 _ _ _ _ _ _ _ _ Hr)
    as (l & El & Hl & Hc & _ & Hre & _ & _ & _ & _).
  assert (Hp : parseCreateLink env2 (req_body req2)
               = inr (body_targetUrl (req_body req2), Some s)).
  { rewrite <- Hs2. apply parse_ok; [exact Hurl|].
    intros s' Hs'. rewrite Hs2 in Hs'. injection Hs' as <-. exact Hre. }
  assert (Ht : slug_taken s w1 = true).
  { apply slug_taken_iff. exists l. split.
    - unfold w1. rewrite Hl. apply in_or_app. right. left. reflexivity.
    - rewrite El. reflexivity. }
  rewrite (create_supplied_taken _ _ _ _ _ Hp Ht). cbn. auto.
Qed.

(** X7. A link that was just created is reachable under its short URL:
    the [shortUrl] of a 201 answer is scheme://host/r/slug (the scheme
    being the X-Forwarded-Proto header when it is not empty, else https
    or http by [req.secure]; the host being the Host header, else
    localhost:3000), and the redirect for that slug, served on the store
    that the creation left, answers 302 to the target URL of the
    creation request and records one click for the id of the answer. *)
Theorem redirect_after_create (env1 env2 : Env) (creq : CreateRequest)
        (rreq : RedirectRequest) (w : World)
        (id slug targetUrl shortUrl : string) (createdAt : Z) :
  fst (create_handler env1 creq w)
  = Some (mkResponse 201%nat
            (JsonCreated id slug targetUrl shortUrl createdAt)) ->
  param_slug rreq = slug ->
  let w1 := snd (create_handler env1 creq w) in
  click_id_used (cuid env2 (cuid_pos w1)) w1 = false ->
  shortUrl
  = (js_or (req_x_forwarded_proto creq)
           (if req_secure creq then "https" else "http")
     ++ "://" ++ js_or (req_host creq) "localhost:3000"
     ++ "/r/" ++ param_slug rreq)%string
  /\ fst (redirect_handler env2 rreq w1)
     = Some (mkResponse 302%nat
               (RedirectTo (body_targetUrl (req_body creq))))
  /\ clicks (snd (redirect_handler env2 rreq w1))
     = clicks w
       ++ [mkClick (cuid env2 (cuid_pos w1)) id (now env2)
                   (js_nullish (header_user_agent rreq) EmptyString)]
  /\ links (snd (redirect_handler env2 rreq w1))
     = links w ++ [mkLink id slug targetUrl createdAt].
Proof.
  intros Hr Hslug w1 Hfresh.
  split; [rewrite Hslug; exact (created_short_url _ _ _ _ _ _ _ _ Hr)|].
  destruct (created_only_by_201 _ _ _ _ _ _ _ _ Hr)
    as (l & El & Hl & Hc & _ & _ & Ht & _ & Hfree & _).
  fold w1 in Hl, Hc.
  rewrite redirect_run, Hslug, Hl.
  rewrite (find_appended _ (links w) l).
  - cbv zeta. rewrite Hfresh. cbn [fst snd clicks links].
    rewrite Hc, El, Ht. cbn. auto.
  - exact Hfree.
  - rewrite El. cbn. apply String.eqb_refl.
Qed.

(** X8. A link that was just created has no clicks: on a store whose
    clicks all belong to links, the summary for the id of a 201 answer
    is 0 and its daily series is empty, for every range that the
    handlers accept. *)
Theorem analytics_of_new_link (env1 env2 : Env) (creq : CreateRequest)
        (areq : AnalyticsRequest) (w : World)
        (id slug targetUrl shortUrl : string) (createdAt : Z)
        (dateRange : Dates.DateRange) (from to : Z) :
  clicks_reference_links w ->
  fst (create_handler env1 creq w)
  = Some (mkResponse 201%nat
            (JsonCreated id slug targetUrl shortUrl createdAt)) ->
  param_id areq = id ->
  parseDateRange env2 (req_query areq) = inr dateRange ->
  Dates.normalizeRange env2 dateRange = inr (from, to) ->
  let w1 := snd (create_handler env1 creq w) in
  fst (summary_handler env2 areq w1) = Some (mkResponse 200%nat (JsonTotal 0))
  /\ fst (daily_handler env2 areq w1)
     = Some (mkResponse 200%nat (JsonDaily [])).
Proof.
  intros Hfk Hr Hid Hp Hn w1.
  destruct (created_only_by_201 _ _ _ _ _ _ _ _ Hr)
    as (l & El & Hl & Hc & _ & _ & _ & _ & _ & Hfree).
  fold w1 in Hl, Hc.
  assert (Hex : link_exists (param_id areq) w1).
  { exists l. split.
    - rewrite Hl. apply in_or_app. right. left. reflexivity.
    - rewrite El, Hid. reflexivity. }
  assert (Hnone : clicks_within (param_id areq) from to w1 = []).
  { apply clicks_within_nil. intros c Hin [Hc1 _].
    rewrite Hc in Hin. destruct (Hfk c Hin) as [x [Hx Ex]].
    apply (id_free id w Hfree). exists x. split; [exact Hx|]. congruence. }
  rewrite (summary_known env2 areq w1 Hex), (daily_known env2 areq w1 Hex).
  rewrite Hp, Hn, Hnone. cbn. auto.
Qed.

(** X9. A redirect is counted by the summary of its link and of no other:
    on a store with distinct slugs, after a redirect for the slug of
    link [l] served at clock [t], the summary of a link over a range
    [from, to] has grown by one when the link is [l] and
    [from <= t <= to], and is unchanged otherwise. *)
Theorem summary_counts_redirect (env1 env2 : Env) (rreq : RedirectRequest)
        (areq : AnalyticsRequest) (w : World) (l : Link)
        (dateRange : Dates.DateRange) (from to : Z) :
  slugs_unique w ->
  In l (links w) -> link_slug l = param_slug rreq ->
  click_id_used (cuid env1 (cuid_pos w)) w = false ->
  link_exists (param_id areq) w ->
  parseDateRange env2 (req_query areq) = inr dateRange ->
  Dates.normalizeRange env2 dateRange = inr (from, to) ->
  let w1 := snd (redirect_handler env1 rreq w) in
  let counted :=
    (link_id l =? param_id areq)%string
    && (from <=? now env1) && (now env1 <=? to) in
  fst (redirect_handler env1 rreq w)
  = Some (mkResponse 302%nat (RedirectTo (link_targetUrl l)))
  /\ exists n,
       fst (summary_handler env2 areq w)
       = Some (mkResponse 200%nat (JsonTotal n))
       /\ fst (summary_handler env2 areq w1)
          = Some (mkResponse 200%nat
                    (JsonTotal (if counted then S n else n))).
Proof.
  intros Hu Hin Hslug Hfresh Hex Hp Hn w1 counted.
  assert (Hrun : redirect_handler env1 rreq w
                 = (Some (mkResponse 302%nat (RedirectTo (link_targetUrl l))),
                    mkWorld (links w)
                      (clicks w
                       ++ [mkClick (cuid env1 (cuid_pos w)) (link_id l)
                                   (now env1)
                                   (js_nullish (header_user_agent rreq)
                                               EmptyString)])
                      (calls w ++ [LinkFindUniqueBySlug (param_slug rreq);
                                   ClickCreate (link_id l)
                                     (js_nullish (header_user_agent rreq)
                                                 EmptyString)])
                      (rng_pos w) (S (cuid_pos w)))).
  { rewrite redirect_run, <- Hslug, (find_unique_slug _ _ Hu Hin).
    cbv zeta. rewrite Hfresh. reflexivity. }
  split; [rewrite Hrun; reflexivity|].
  exists (List.length (clicks_within (param_id areq) from to w)).
  assert (Hex1 : link_exists (param_id areq) w1).
  { unfold w1. rewrite Hrun. exact Hex. }
  rewrite (summary_known env2 areq w Hex), (summary_known env2 areq w1 Hex1).
  rewrite Hp, Hn. cbn [fst]. split; [reflexivity|].
  f_equal. f_equal. f_equal.
  rewrite <- !filter_in_window. unfold w1. rewrite Hrun.
  cbn [snd clicks]. rewrite filter_app, length_app. cbn [filter].
  unfold in_window at 2. cbn [click_linkId click_tsUtc]. fold counted.
  destruct counted; cbn [List.length]; lia.
Qed.

End Sequences.

(** ** Redirects and the schema *)

Section RedirectSchema.
Import Spec Prisma Middleware Redirect Schema.

Lemma click_id_free (id : string) (w : World) :
  click_id_used id w = false -> ~ In id (map click_id (clicks w)).
Proof.
  unfold click_id_used. intros H Hin.
  apply in_map_iff in Hin as [c [<- Hc]].
  assert (E : existsb (fun c0 => (click_id c0 =? click_id c)%string) (clicks w)
              = true).
  { apply existsb_exists. exists c. split; [exact Hc | apply String.eqb_refl]. }
  congruence.
Qed.

(** X10. The redirect handler never changes the links and keeps the
    constraints of the schema: after any call the ids of the clicks are
    still pairwise distinct and every click, the recorded one included,
    belongs to a link of the table. *)
Theorem redirect_keeps_schema (env : Env) (req : RedirectRequest) (w : World) :
  links (snd (redirect_handler env req w)) = links w
  /\ (consistent w -> consistent (snd (redirect_handler env req w))).
Proof.
  rewrite redirect_run.
  destruct (find _ (links w)) as [l|] eqn:Hfind.
  2:{ split; [reflexivity|]. intros H. exact H. }
  apply find_some in Hfind as [Hin _]. cbv zeta.
  destruct (click_id_used (cuid env (cuid_pos w)) w) eqn:Hid.
  { split; [reflexivity|]. intros H. exact H. }
  split; [reflexivity|].
  unfold consistent, slugs_unique, link_ids_unique, click_ids_unique,
    clicks_reference_links.
  cbn [snd links clicks].
  intros (S1 & S2 & S3 & S4).
  split; [exact S1|]. split; [exact S2|]. split.
  - rewrite map_app. cbn [map click_id].
    apply NoDup_app; [exact S3 | repeat constructor; intros [] |].
    intros a Ha [<-|[]]. exact (click_id_free _ _ Hid Ha).
  - intros c Hc. apply in_app_or in Hc as [Hc|[<-|[]]]; [auto|].
    exists l. split; [exact Hin | reflexivity].
Qed.

End RedirectSchema.

(** ** What the analytics handlers leave alone *)

Section AnalyticsReadOnly.
Import Spec Prisma Middleware Links.

Variable env : Env.
Variable req : AnalyticsRequest.
Variable w : World.

Local Abbreviation lookup := (LinkFindUniqueById (param_id req)).

Lemma analytics_calls_cases :
  (calls (snd (summary_handler env req w)) = calls w ++ [lookup]
   \/ exists from to,
        from <= to
        /\ calls (snd (summary_handler env req w))
           = calls w ++ [lookup; ClickCount (param_id req) from to])
  /\ (calls (snd (daily_handler env req w)) = calls w ++ [lookup]
      \/ exists from to,
           from <= to
           /\ calls (snd (daily_handler env req w))
              = calls w ++ [lookup; QueryRawDaily (param_id req) from to]).
Proof.
  destruct (link_exists_dec (param_id req) w) as [Hex|Hno].
  - rewrite (summary_known env req w Hex), (daily_known env req w Hex).
    destruct (Validators.parseDateRange env (req_query req)) as [e|dr];
      [split; left; reflexivity|].
    destruct (Dates.normalizeRange env dr) as [e|[from to]] eqn:Hn;
      [split; left; reflexivity|].
    apply normalizeRange_ordered in Hn.
    split; right; exists from, to; (split; [exact Hn|]);
      cbn [snd record_call calls]; rewrite <- app_assoc; reflexivity.
  - rewrite (summary_unknown env req w Hno), (daily_unknown env req w Hno).
    split; left; reflexivity.
Qed.

(** X11. The two analytics handlers only read: for every request and
    store the links, the clicks, the position in the random source and
    the identifiers drawn are the same after the call as before it. The
    only store operations are the lookup of the link and, at most once
    after it, the aggregation, which is always issued with
    [from <= to]. *)
Theorem analytics_read_only :
  let s := snd (summary_handler env req w) in
  let d := snd (daily_handler env req w) in
  (links s = links w /\ clicks s = clicks w
   /\ rng_pos s = rng_pos w /\ cuid_pos s = cuid_pos w)
  /\ (links d = links w /\ clicks d = clicks w
      /\ rng_pos d = rng_pos w /\ cuid_pos d = cuid_pos w)
  /\ (calls s = calls w ++ [lookup]
      \/ exists from to,
           from <= to
           /\ calls s = calls w ++ [lookup; ClickCount (param_id req) from to])
  /\ (calls d = calls w ++ [lookup]
      \/ exists from to,
           from <= to
           /\ calls d = calls w ++ [lookup; QueryRawDaily (param_id req) from to]).
Proof.
  intros s d. subst s d.
  split; [|split; [|exact analytics_calls_cases]].
  - destruct (link_exists_dec (param_id req) w) as [Hex|Hno].
    + rewrite (summary_known env req w Hex).
      destruct (Validators.parseDateRange env (req_query req)) as [e|dr];
        [repeat split|].
      destruct (Dates.normalizeRange env dr) as [e|[from to]]; repeat split.
    + rewrite (summary_unknown env req w Hno). repeat split.
  - destruct (link_exists_dec (param_id req) w) as [Hex|Hno].
    + rewrite (daily_known env req w Hex).
      destruct (Validators.parseDateRange env (req_query req)) as [e|dr];
        [repeat split|].
      destruct (Dates.normalizeRange env dr) as [e|[from to]]; repeat split.
    + rewrite (daily_unknown env req w Hno). repeat split.
Qed.

(** X12. For an existing link, a query whose [from] or [to] is not an ISO
    datetime is answered by both analytics handlers with 400
    VALIDATION_ERROR "Invalid date range parameters", the issues listed
    by field with [from] before [to]; the range is not normalised and no
    aggregation is issued: the lookup of the link is the only store
    operation. *)
Theorem analytics_rejects_malformed_dates :
  let q := req_query req in
  let details :=
    Validators.datetime_issues env "from"
      "From date must be a valid ISO datetime string" (Validators.query_from q)
    ++ Validators.datetime_issues env "to"
         "To date must be a valid ISO datetime string" (Validators.query_to q) in
  (details <> []
   <-> (exists s, Validators.query_from q = Some s
                  /\ zod_iso_datetime env s = false)
       \/ (exists s, Validators.query_to q = Some s
                     /\ zod_iso_datetime env s = false))
  /\ (link_exists (param_id req) w ->
      details <> [] ->
      let answer :=
        (Some (mkResponse 400%nat
                 (JsonError "VALIDATION_ERROR" "Invalid date range parameters"
                            (Some details))),
         record_call lookup w) in
      summary_handler env req w = answer
      /\ daily_handler env req w = answer).
Proof.
  intros q details. split.
  - unfold details, Validators.datetime_issues.
    destruct (Validators.query_from q) as [f|],
             (Validators.query_to q) as [t|];
      try destruct (zod_iso_datetime env f) eqn:Ef;
      try destruct (zod_iso_datetime env t) eqn:Et;
      cbn [app]; split;
        try (intros H; contradiction H; reflexivity);
        try (intros _; discriminate);
        try (intros [[s [E1 E2]]|[s [E1 E2]]]; congruence);
        intros _; eauto.
  - intros Hex Hd answer.
    rewrite (summary_known env req w Hex), (daily_known env req w Hex).
    unfold Validators.parseDateRange. fold q. fold details.
    destruct details; [contradiction Hd; reflexivity|].
    split; reflexivity.
Qed.

End AnalyticsReadOnly.

(** ** Partial and unparseable ranges *)

Section RangeEdges.
Import Calendar Spec Prisma Middleware Links Dates.


(** X14. Ranges with one boundary. With only [from] given (a date [t]),
    [to] is the end of the current UTC day, and a [from] later than that
    is the order error. With only [to] given, [from] is the start of the
    UTC day 30 days before the clock, not before [to]: a [to] earlier
    than that is the order error. An empty string counts as an omitted
    boundary. *)
Theorem normalizeRange_one_boundary (env : Env) (s : string) (t : Z) :
  clock_in_range env ->
  s <> EmptyString ->
  date_parse env s = Some t ->
  let dayEnd := end_of_utc_day (now env) in
  let dayStart := start_of_utc_day (days_before 30 (now env)) in
  normalizeRange env (mkRange (Some s) None)
  = (if dayEnd <? t then inl range_order_error else inr (t, dayEnd))
  /\ normalizeRange env (mkRange None (Some s))
     = (if t <? dayStart then inl range_order_error else inr (dayStart, t))
  /\ normalizeRange env (mkRange (Some s) (Some EmptyString))
     = normalizeRange env (mkRange (Some s) None)
  /\ normalizeRange env (mkRange (Some EmptyString) (Some s))
     = normalizeRange env (mkRange None (Some s))
  /\ normalizeRange env (mkRange (Some EmptyString) (Some EmptyString))
     = inr (dayStart, dayEnd).
Proof.
  intros Hc Hs Ht dayEnd dayStart.
  assert (Tr : truthy (Some s) = true).
  { cbn. destruct (String.eqb_spec s EmptyString); [contradiction|reflexivity]. }
  unfold normalizeRange, fromDate, toDate. cbn [range_from range_to].
  rewrite Tr, Ht. cbn [truthy String.eqb negb].
  rewrite defaultFrom_value, defaultTo_value by exact Hc.
  fold dayEnd. fold dayStart. cbn [date_gt].
  repeat split.
  pose proof (default_order (now env)) as Ho. fold dayEnd dayStart in Ho.
  destruct (Z.ltb_spec dayEnd dayStart); [lia | reflexivity].
Qed.

(** X15. The default range covers exactly 31 UTC days: with both
    boundaries omitted, an instant lies in the range that
    [normalizeRange] returns if and only if its UTC day is the clock's
    or one of the 30 before it; the clock itself is in the range. *)
Theorem default_range_days (env : Env) :
  clock_in_range env ->
  exists from to,
    normalizeRange env (mkRange None None) = inr (from, to)
    /\ (forall t, from <= t <= to
                  <-> Day (now env) - 30 <= Day t <= Day (now env))
    /\ from <= now env <= to
    /\ to - from + 1 = 31 * msPerDay.
Proof.
  intros Hc.
  exists (start_of_utc_day (days_before 30 (now env))),
         (end_of_utc_day (now env)).
  assert (Hin : forall t,
             start_of_utc_day (days_before 30 (now env)) <= t
               <= end_of_utc_day (now env)
             <-> Day (now env) - 30 <= Day t <= Day (now env)).
  { intros t. unfold start_of_utc_day, end_of_utc_day.
    rewrite Day_days_before.
    pose proof (Day_bounds t) as Hb.
    unfold MakeDate, msPerDay in *. lia. }
  split.
  - unfold normalizeRange, fromDate, toDate. cbn [range_from range_to].
    rewrite defaultFrom_value, defaultTo_value by exact Hc.
    cbn [date_gt].
    pose proof (default_order (now env)) as Ho.
    destruct (Z.ltb_spec (end_of_utc_day (now env))
                         (start_of_utc_day (days_before 30 (now env))));
      [lia | reflexivity].
  - split; [exact Hin|]. split.
    + apply Hin. lia.
    + unfold start_of_utc_day, end_of_utc_day. rewrite Day_days_before.
      unfold MakeDate, msPerDay. lia.
Qed.

End RangeEdges.

(** ** The size of a daily series *)

Section DailySize.
Import Calendar Sqlite Spec Prisma Middleware Links.

Lemma Day_monotone (t1 t2 : Z) : t1 <= t2 -> Day t1 <= Day t2.
Proof.
  intros H. unfold Day. apply Z.div_le_mono; [unfold msPerDay; lia | exact H].
Qed.

(** Strictly ascending groups whose keys are the dates of recorded
    instants of the days [a .. b] are at most [b - a + 1]. *)
Lemma sorted_dated_length (groups : list (option string * nat)) :
  StronglySorted key_lt groups ->
  forall a b,
    a <= b + 1 ->
    Forall (fun g => exists t, recorded t
                               /\ fst g = Some (utc_calendar_date t)
                               /\ a <= Day t <= b) groups ->
    Z.of_nat (List.length groups) <= b - a + 1.
Proof.
  induction 1 as [|g groups Hs IH Hall]; intros a b Hab Hd.
  - cbn. lia.
  - inversion Hd as [|? ? [t (Hr & Hk & Ht)] Hd']; subst.
    assert (Htail : Forall (fun g0 => exists t0, recorded t0
                               /\ fst g0 = Some (utc_calendar_date t0)
                               /\ Day t + 1 <= Day t0 <= b) groups).
    { rewrite Forall_forall in *. intros g0 Hin.
      destruct (Hd' g0 Hin) as [t0 (Hr0 & Hk0 & Ht0)].
      exists t0. split; [exact Hr0|]. split; [exact Hk0|].
      pose proof (Hall g0 Hin) as Hlt. unfold key_lt in Hlt.
      rewrite Hk, Hk0 in Hlt. cbn [text_compare] in Hlt.
      apply (utc_calendar_date_order _ _ Hr Hr0) in Hlt. lia. }
    specialize (IH (Day t + 1) b ltac:(lia) Htail).
    cbn [List.length]. lia.
Qed.

Lemma positive_groups_length (groups : list (option string * nat)) :
  Forall (fun g => (1 <= snd g)%nat) groups ->
  (List.length groups <= list_sum (map snd groups))%nat.
Proof.
  induction 1 as [|g groups Hg _ IH]; cbn; [lia|].
  unfold list_sum in IH. lia.
Qed.

(** X16. A daily series has at most one row for each UTC day that the
    range touches, and never more rows than clicks: for an existing
    link and a normalised range [from, to] whose clicks were recorded
    between 1970 and 9999, the number of rows is at most
    [Day to - Day from + 1] and at most the total of the summary. *)
Theorem daily_series_size
        (env : Env) (req : AnalyticsRequest) (w : World)
        (dateRange : Dates.DateRange) (from to : Z) :
  link_exists (param_id req) w ->
  Validators.parseDateRange env (req_query req) = inr dateRange ->
  Dates.normalizeRange env dateRange = inr (from, to) ->
  window_recorded (param_id req) from to w ->
  exists rows total,
    fst (daily_handler env req w)
    = Some (mkResponse 200%nat (JsonDaily rows))
    /\ fst (summary_handler env req w)
       = Some (mkResponse 200%nat (JsonTotal total))
    /\ Z.of_nat (List.length rows) <= Day to - Day from + 1
    /\ (List.length rows <= total)%nat.
Proof.
  intros Hex Hparse Hnorm Hrec.
  set (id := param_id req) in *.
  set (keys := map day_key (clicks_within id from to w)).
  destruct (group_count_spec keys) as (Hsorted & Hgroups & Hsum).
  exists (map to_row (group_count keys)),
         (List.length (clicks_within id from to w)).
  split.
  { rewrite (daily_known env req w Hex), Hparse, Hnorm. reflexivity. }
  split.
  { rewrite (summary_known env req w Hex), Hparse, Hnorm. reflexivity. }
  rewrite length_map.
  assert (Hkeys : keys = map (fun c => Some (utc_calendar_date (click_tsUtc c)))
                             (clicks_within id from to w))
    by (apply daily_keys; exact Hrec).
  split.
  - apply sorted_dated_length; [exact Hsorted | |].
    + pose proof (normalizeRange_ordered _ _ _ _ Hnorm) as Ho.
      pose proof (Day_monotone _ _ Ho). lia.
    + apply Forall_forall. intros [k n] Hin.
      apply Hgroups in Hin as [Hn Hpos]. cbn [fst].
      assert (Hk : In k keys) by (apply (count_occ_In key_dec); lia).
      rewrite Hkeys in Hk. apply in_map_iff in Hk as [c [<- Hc]].
      exists (click_tsUtc c). split; [exact (Hrec c Hc)|].
      split; [reflexivity|].
      apply clicks_within_in in Hc as [_ [_ Hwin]].
      split; apply Day_monotone; lia.
  - replace (List.length (clicks_within id from to w))
      with (list_sum (map snd (group_count keys)))
      by (rewrite Hsum; apply length_map).
    apply positive_groups_length.
    apply Forall_forall. intros [k n] Hin.
    apply Hgroups in Hin as [_ Hpos]. exact Hpos.
Qed.

End DailySize.

(** ** The listing *)

Section ListingFacts.
Import Spec Prisma Middleware Links Listing Validators.

Lemma insert_desc_perm (l : Link) (acc : list Link) :
  Permutation (insert_desc l acc) (l :: acc).
Proof.
  induction acc as [|x acc IH]; cbn [insert_desc]; [reflexivity|].
  destruct (link_createdAt x <? link_createdAt l); [reflexivity|].
  rewrite IH. apply perm_swap.
Qed.

Lemma insert_desc_sorted (l : Link) (acc : list Link) :
  StronglySorted newer_or_same acc ->
  StronglySorted newer_or_same (insert_desc l acc).
Proof.
  induction acc as [|x acc IH]; cbn [insert_desc]; intros Hs.
  - repeat constructor.
  - inversion Hs as [|? ? Hs' Hall]; subst.
    destruct (Z.ltb_spec (link_createdAt x) (link_createdAt l)) as [Hlt|Hge].
    + constructor; [exact Hs|].
      constructor; [unfold newer_or_same; lia|].
      eapply Forall_impl; [|exact Hall].
      unfold newer_or_same. intros a Ha. lia.
    + constructor; [apply IH; exact Hs'|].
      apply (Permutation_Forall (Permutation_sym (insert_desc_perm l acc))).
      constructor; [exact Hge | exact Hall].
Qed.

Lemma listing_rows (ls : list Link) :
  Permutation (fold_right insert_desc [] ls) ls
  /\ StronglySorted newer_or_same (fold_right insert_desc [] ls).
Proof.
  induction ls as [|l ls [IHp IHs]]; cbn [fold_right].
  - split; [reflexivity | constructor].
  - split.
    + rewrite insert_desc_perm. constructor. exact IHp.
    + apply insert_desc_sorted. exact IHs.
Qed.

Lemma listing_newest (l : Link) (ls : list Link) :
  (forall x, In x ls -> link_createdAt x < link_createdAt l) ->
  fold_right insert_desc [] (ls ++ [l])
  = l :: fold_right insert_desc [] ls.
Proof.
  induction ls as [|x ls IH]; intros Hlt; cbn [app fold_right];
    [reflexivity|].
  rewrite IH by (intros y Hy; apply Hlt; right; exact Hy).
  cbn [insert_desc].
  pose proof (Hlt x (or_introl eq_refl)) as Hx.
  destruct (Z.ltb_spec (link_createdAt l) (link_createdAt x)); [lia|].
  reflexivity.
Qed.

(** X17. The listing answers 200 with every stored link exactly once
    (the rows are a rearrangement of the table, each with its four
    columns), newest first: no row is followed by one created later.
    It changes nothing in the store; an empty table gives an empty
    list. *)
Theorem listing_newest_first (w : World) :
  exists rows,
    list_handler w = (Some (JsonLinks 200%nat rows), w)
    /\ Permutation rows (links w)
    /\ StronglySorted newer_or_same rows
    /\ List.length rows = List.length (links w)
    /\ (links w = [] -> rows = []).
Proof.
  exists (fold_right insert_desc [] (links w)).
  destruct (listing_rows (links w)) as [Hp Hs].
  split; [reflexivity|]. split; [exact Hp|]. split; [exact Hs|].
  split; [apply Permutation_length; exact Hp|].
  intros ->. reflexivity.
Qed.

(** X18. A new link heads the listing: after a creation answered 201 at a
    clock later than the creation time of every stored link, the
    listing is the new link followed by the listing of before. *)
Theorem listing_after_create (env : Env) (req : CreateRequest) (w : World)
        (id slug targetUrl shortUrl : string) (createdAt : Z) :
  (forall x, In x (links w) -> link_createdAt x < now env) ->
  fst (create_handler env req w)
  = Some (mkResponse 201%nat
            (JsonCreated id slug targetUrl shortUrl createdAt)) ->
  exists rows,
    fst (list_handler w) = Some (JsonLinks 200%nat rows)
    /\ fst (list_handler (snd (create_handler env req w)))
       = Some (JsonLinks 200%nat
                 (mkLink id slug targetUrl createdAt :: rows)).
Proof.
  intros Hnew Hr.
  destruct (created_only_by_201 _ _ _ _ _ _ _ _ Hr)
    as (l & El & Hl & _ & _ & _ & _ & Hc & _ & _).
  exists (fold_right insert_desc [] (links w)).
  split; [reflexivity|].
  unfold list_handler, link_findMany_desc. cbn [fst].
  rewrite Hl, listing_newest, El; [reflexivity|].
  intros x Hx. rewrite El. cbn. rewrite Hc. apply Hnew. exact Hx.
Qed.

End ListingFacts.

(** ** The seed *)

Section SeedFacts.
Import Calendar Spec Dates Seed.

Variable env : Env.
Hypothesis clock : clock_in_range env.

Lemma today_value : today env = Some (end_of_utc_day (now env)).
Proof. exact (defaultTo_value env clock). Qed.

Lemma Day_end_of_utc_day (t : Z) : Day (end_of_utc_day t) = Day t.
Proof.
  unfold end_of_utc_day. apply Day_MakeDate. unfold msPerDay. lia.
Qed.

Lemma targetDate_value (dayOffset : Z) :
  0 <= dayOffset <= 30 ->
  targetDate env dayOffset = Some (MakeDate (Day (now env) - dayOffset) 0).
Proof.
  intros Hk. unfold targetDate. rewrite today_value.
  cbn [getUTCDate option_map setUTCDate].
  replace (DateFromTime (end_of_utc_day (now env)) - dayOffset)
    with (DateFromTime (end_of_utc_day (now env)) + (- dayOffset)) by lia.
  rewrite MakeDay_of_fields, Day_end_of_utc_day.
  pose proof (Day_bounds (now env)) as Hd.
  pose proof (TimeWithinDay_bound (end_of_utc_day (now env))) as Hw.
  unfold clock_in_range in clock.
  rewrite TimeClip_in_range
    by (unfold MakeDate, maxTime, msPerDay in *; lia).
  cbn [setUTCHours].
  rewrite Day_MakeDate by exact Hw.
  change (MakeTime 0 0 0 0) with 0.
  apply TimeClip_in_range.
  unfold MakeDate, maxTime, msPerDay in *. lia.
Qed.

Lemma click_time_of_day (slugLength dayClickCount clickIndex : Z) :
  0 <= slugLength -> 0 <= clickIndex < dayClickCount ->
  0 <= click_hour dayClickCount clickIndex <= 23
  /\ 0 <= MakeTime (click_hour dayClickCount clickIndex)
                   (click_minute slugLength clickIndex)
                   (click_second slugLength clickIndex)
                   (Z.rem clickIndex 1000) < msPerDay.
Proof.
  intros Hs Hi.
  assert (Hh : 0 <= click_hour dayClickCount clickIndex <= 23).
  { unfold click_hour. split.
    - apply Z.div_pos; lia.
    - assert (clickIndex * 24 / dayClickCount < 24); [|lia].
      apply Z.div_lt_upper_bound; lia. }
  split; [exact Hh|].
  pose proof (Z.rem_bound_pos (clickIndex * 37 + slugLength * 11) 60
                ltac:(lia) ltac:(lia)) as Hm.
  pose proof (Z.rem_bound_pos (clickIndex * 17 + slugLength * 7) 60
                ltac:(lia) ltac:(lia)) as Hsec.
  pose proof (Z.rem_bound_pos clickIndex 1000 ltac:(lia) ltac:(lia)) as Hms.
  unfold click_minute, click_second, MakeTime, msPerHour, msPerMinute,
    msPerSecond, msPerDay.
  lia.
Qed.

Lemma clickTime_value (slugLength dayOffset dayClickCount clickIndex : Z) :
  0 <= slugLength -> 0 <= dayOffset <= 30 ->
  0 <= clickIndex < dayClickCount ->
  clickTime env slugLength dayOffset dayClickCount clickIndex
  = Some (MakeDate (Day (now env) - dayOffset)
                   (MakeTime (click_hour dayClickCount clickIndex)
                             (click_minute slugLength clickIndex)
                             (click_second slugLength clickIndex)
                             (Z.rem clickIndex 1000))).
Proof.
  intros Hs Hk Hi. unfold clickTime. rewrite targetDate_value by exact Hk.
  cbn [setUTCHours].
  rewrite Day_MakeDate by (unfold msPerDay; lia).
  destruct (click_time_of_day slugLength dayClickCount clickIndex Hs Hi)
    as [_ Ht].
  apply TimeClip_in_range.
  pose proof (Day_bounds (now env)) as Hd.
  unfold clock_in_range in clock.
  unfold MakeDate, maxTime, msPerDay in *. lia.
Qed.

Lemma default_range_value :
  normalizeRange env (mkRange None None)
  = inr (start_of_utc_day (days_before 30 (now env)),
         end_of_utc_day (now env)).
Proof.
  unfold normalizeRange, fromDate, toDate. cbn [range_from range_to].
  rewrite defaultFrom_value, defaultTo_value by exact clock.
  cbn [date_gt].
  pose proof (default_order (now env)) as Ho.
  destruct (Z.ltb_spec (end_of_utc_day (now env))
                       (start_of_utc_day (days_before 30 (now env))));
    [lia | reflexivity].
Qed.

Lemma in_default_range (t : Z) :
  Day (now env) - 30 <= Day t <= Day (now env) ->
  start_of_utc_day (days_before 30 (now env)) <= t <= end_of_utc_day (now env).
Proof.
  intros H. unfold start_of_utc_day, end_of_utc_day.
  rewrite Day_days_before.
  pose proof (Day_bounds t) as Hb.
  unfold MakeDate, msPerDay in *. lia.
Qed.

(** X19. Click [clickIndex] of a seeded day ([0 <= clickIndex <
    dayClickCount], the day [dayOffset] days before the clock's, up to
    30) gets a time that is a date, on exactly that UTC day, at the
    hour [floor(clickIndex * 24 / dayClickCount)], which is between 0
    and 23, with the minute, second and millisecond of the script; its
    user agent index is inside [USER_AGENTS]; and the time lies in the
    default range of the analytics at the same clock. *)
Theorem seed_click_time (slugLength dayOffset dayClickCount clickIndex : Z) :
  0 <= slugLength -> 0 <= dayOffset <= 30 ->
  0 <= clickIndex < dayClickCount ->
  exists t,
    clickTime env slugLength dayOffset dayClickCount clickIndex = Some t
    /\ Day t = Day (now env) - dayOffset
    /\ TimeWithinDay t
       = MakeTime (click_hour dayClickCount clickIndex)
                  (click_minute slugLength clickIndex)
                  (click_second slugLength clickIndex)
                  (Z.rem clickIndex 1000)
    /\ HourFromTime t = click_hour dayClickCount clickIndex
    /\ 0 <= HourFromTime t <= 23
    /\ 0 <= userAgent_index slugLength clickIndex < USER_AGENTS_length
    /\ exists from to,
         normalizeRange env (mkRange None None) = inr (from, to)
         /\ from <= t <= to.
Proof.
  intros Hs Hk Hi.
  destruct (click_time_of_day slugLength dayClickCount clickIndex Hs Hi)
    as [Hh Ht].
  eexists. split; [apply clickTime_value; assumption|].
  assert (Hd : Day (MakeDate (Day (now env) - dayOffset)
                      (MakeTime (click_hour dayClickCount clickIndex)
                                (click_minute slugLength clickIndex)
                                (click_second slugLength clickIndex)
                                (Z.rem clickIndex 1000)))
               = Day (now env) - dayOffset)
    by (apply Day_MakeDate; exact Ht).
  split; [exact Hd|].
  split; [apply TimeWithinDay_MakeDate; exact Ht|].
  assert (Hhour : HourFromTime
                    (MakeDate (Day (now env) - dayOffset)
                       (MakeTime (click_hour dayClickCount clickIndex)
                                 (click_minute slugLength clickIndex)
                                 (click_second slugLength clickIndex)
                                 (Z.rem clickIndex 1000)))
                  = click_hour dayClickCount clickIndex).
  { rewrite HourFromTime_MakeDate. unfold HourFromTime.
    pose proof (Z.rem_bound_pos (clickIndex * 37 + slugLength * 11) 60
                  ltac:(lia) ltac:(lia)) as Hm.
    pose proof (Z.rem_bound_pos (clickIndex * 17 + slugLength * 7) 60
                  ltac:(lia) ltac:(lia)) as Hsec.
    pose proof (Z.rem_bound_pos clickIndex 1000 ltac:(lia) ltac:(lia)) as Hms.
    unfold click_minute, click_second, MakeTime, msPerHour, msPerMinute,
      msPerSecond in *.
    set (h := click_hour dayClickCount clickIndex) in *.
    set (m := Z.rem (clickIndex * 37 + slugLength * 11) 60) in *.
    set (s := Z.rem (clickIndex * 17 + slugLength * 7) 60) in *.
    set (ms := Z.rem clickIndex 1000) in *.
    assert (E : (h * 3600000 + m * 60000 + s * 1000 + ms) / 3600000 = h).
    { symmetry. apply Z.div_unique with (m * 60000 + s * 1000 + ms); lia. }
    rewrite E.
    apply Z.mod_small. lia. }
  split; [exact Hhour|]. split; [rewrite Hhour; exact Hh|].
  split.
  { unfold userAgent_index, USER_AGENTS_length.
    apply Z.rem_bound_pos; lia. }
  eexists. eexists. split; [exact default_range_value|].
  apply in_default_range. rewrite Hd. lia.
Qed.


Lemma day_click_times_days (slugLength dayOffset dayClickCount : Z) :
  0 <= slugLength -> 0 <= dayOffset <= 30 ->
  forall x, In x (day_click_times env slugLength dayOffset dayClickCount) ->
    exists t, x = Some t /\ Day t = Day (now env) - dayOffset.
Proof.
  intros Hs Hk x Hx. unfold day_click_times in Hx.
  apply in_map_iff in Hx as [i [<- Hi]]. apply in_seq in Hi.
  rewrite clickTime_value by lia.
  eexists. split; [reflexivity|].
  apply Day_MakeDate.
  apply (click_time_of_day slugLength dayClickCount (Z.of_nat i)); lia.
Qed.

Lemma on_day_day_click_times (d slugLength dayOffset dayClickCount : Z) :
  0 <= slugLength -> 0 <= dayOffset <= 30 ->
  on_day d (day_click_times env slugLength dayOffset dayClickCount)
  = if Day (now env) - dayOffset =? d
    then day_click_times env slugLength dayOffset dayClickCount
    else [].
Proof.
  intros Hs Hk.
  pose proof (day_click_times_days slugLength dayOffset dayClickCount Hs Hk)
    as Hall.
  unfold on_day.
  induction (day_click_times env slugLength dayOffset dayClickCount)
    as [|x xs IH]; cbn [filter].
  - destruct (_ =? d); reflexivity.
  - destruct (Hall x (or_introl eq_refl)) as [t [-> Ht]]. rewrite Ht.
    rewrite IH by (intros y Hy; apply Hall; right; exact Hy).
    destruct (_ =? d); reflexivity.
Qed.

Lemma on_day_flat_map (slugLength : Z) (clickPattern : list Z) (k : nat)
      (js : list nat) :
  0 <= slugLength ->
  (forall j, In j js -> (j <= 30)%nat) -> NoDup js ->
  List.length
    (on_day (Day (now env) - Z.of_nat k)
       (flat_map (fun j => day_click_times env slugLength (Z.of_nat j)
                                           (nth j clickPattern 0)) js))
  = if in_dec Nat.eq_dec k js then Z.to_nat (nth k clickPattern 0) else 0%nat.
Proof.
  intros Hs. induction js as [|j js IH]; intros Hj Hnd; [reflexivity|].
  inversion Hnd as [|? ? Hnot Hnd']; subst.
  cbn [flat_map].
  replace (on_day (Day (now env) - Z.of_nat k)
             (day_click_times env slugLength (Z.of_nat j)
                              (nth j clickPattern 0)
              ++ flat_map (fun j0 => day_click_times env slugLength
                                       (Z.of_nat j0) (nth j0 clickPattern 0))
                          js))
    with (on_day (Day (now env) - Z.of_nat k)
            (day_click_times env slugLength (Z.of_nat j)
                             (nth j clickPattern 0))
          ++ on_day (Day (now env) - Z.of_nat k)
               (flat_map (fun j0 => day_click_times env slugLength
                                      (Z.of_nat j0) (nth j0 clickPattern 0))
                         js))
    by (symmetry; apply filter_app).
  rewrite length_app.
  rewrite on_day_day_click_times, IH;
    [ | intros i Hi; apply Hj; right; exact Hi | exact Hnd' | exact Hs
      | pose proof (Hj j (or_introl eq_refl)); lia ].
  destruct (Z.eqb_spec (Day (now env) - Z.of_nat j) (Day (now env) - Z.of_nat k))
    as [E|N].
  - assert (j = k) by lia. subst j.
    destruct (in_dec Nat.eq_dec k js) as [Hin|_]; [contradiction|].
    destruct (in_dec Nat.eq_dec k (k :: js)) as [_|Hn];
      [|exfalso; apply Hn; left; reflexivity].
    unfold day_click_times. rewrite length_map, length_seq. lia.
  - destruct (in_dec Nat.eq_dec k js) as [Hin|Hn];
      destruct (in_dec Nat.eq_dec k (j :: js)) as [Hin'|Hn'];
      cbn [List.length]; try lia.
    + exfalso. apply Hn'. right. exact Hin.
    + exfalso. destruct Hin' as [E|Hin']; [|contradiction]. subst j. lia.
Qed.

(** X20. The clicks seeded for one link follow its pattern: every time is
    a date; for each of the seven days ending at the clock's UTC day,
    the number of clicks on the day [k] days back is entry [k] of the
    pattern; and every click lies in the default range of the analytics
    at the same clock, so that a default summary counts all of them. *)
Theorem seed_clicks_follow_pattern (slugLength : Z) (clickPattern : list Z) :
  0 <= slugLength ->
  let times := link_click_times env slugLength clickPattern in
  (forall x, In x times ->
     exists t, x = Some t
               /\ exists from to,
                    normalizeRange env (mkRange None None) = inr (from, to)
                    /\ from <= t <= to)
  /\ (forall k, (k < 7)%nat ->
        List.length (on_day (Day (now env) - Z.of_nat k) times)
        = Z.to_nat (nth k clickPattern 0))
  /\ List.length times
     = list_sum (map (fun k => Z.to_nat (nth k clickPattern 0)) (seq 0 7)).
Proof.
  intros Hs times. split; [|split].
  - intros x Hx. unfold times, link_click_times in Hx.
    apply in_flat_map in Hx as [j [Hj Hx]]. apply in_seq in Hj.
    destruct (day_click_times_days slugLength (Z.of_nat j)
                (nth j clickPattern 0) Hs ltac:(lia) x Hx) as [t [-> Ht]].
    exists t. split; [reflexivity|].
    eexists. eexists. split; [exact default_range_value|].
    apply in_default_range. lia.
  - intros k Hk. unfold times, link_click_times.
    rewrite on_day_flat_map.
    + destruct (in_dec Nat.eq_dec k (seq 0 7)) as [_|Hn]; [reflexivity|].
      exfalso. apply Hn. apply in_seq. lia.
    + exact Hs.
    + intros j Hj. apply in_seq in Hj. lia.
    + apply seq_NoDup.
  - unfold times, link_click_times.
    generalize (seq 0 7). intros js.
    induction js as [|j js IH]; [reflexivity|].
    cbn [flat_map map list_sum fold_right]. rewrite length_app.
    unfold list_sum in IH. rewrite IH.
    unfold day_click_times. rewrite length_map, length_seq. reflexivity.
Qed.

End SeedFacts.

(** ** An append-only store *)

Section AppendOnly.
Import Spec Prisma Middleware Links Redirect Listing.

Variable env : Env.
Variable w : World.

Lemma analytics_store_same (req : AnalyticsRequest) :
  links (snd (summary_handler env req w)) = links w
  /\ clicks (snd (summary_handler env req w)) = clicks w
  /\ links (snd (daily_handler env req w)) = links w
  /\ clicks (snd (daily_handler env req w)) = clicks w.
Proof.
  destruct (link_exists_dec (param_id req) w) as [Hex|Hno].
  - rewrite (summary_known env req w Hex), (daily_known env req w Hex).
    destruct (Validators.parseDateRange env (req_query req)) as [e|dr];
      [repeat split|].
    destruct (Dates.normalizeRange env dr) as [e|[from to]]; repeat split.
  - rewrite (summary_unknown env req w Hno), (daily_unknown env req w Hno).
    repeat split.
Qed.

Lemma redirect_appends (req : RedirectRequest) :
  links (snd (redirect_handler env req w)) = links w
  /\ exists cs,
       clicks (snd (redirect_handler env req w)) = clicks w ++ cs
       /\ (List.length cs <= 1)%nat
       /\ forall c, In c cs -> click_tsUtc c = now env.
Proof.
  rewrite redirect_run.
  destruct (find _ (links w)) as [l|].
  2:{ split; [reflexivity|]. exists []. cbn. rewrite app_nil_r.
      repeat split; [lia | intros c []]. }
  cbv zeta. destruct (click_id_used (cuid env (cuid_pos w)) w).
  - split; [reflexivity|]. exists []. cbn. rewrite app_nil_r.
    repeat split; [lia | intros c []].
  - split; [reflexivity|]. eexists [_]. cbn [snd clicks List.length].
    repeat split; [lia|]. intros c [<-|[]]. reflexivity.
Qed.

(** X21. No request removes or rewrites a stored row. A creation leaves
    the clicks as they are and appends at most one link; a redirect
    leaves the links as they are and appends at most one click, stamped
    with the clock; the summary, the daily series and the listing change
    neither table. Hence, when the clock reads an instant between 1970
    and 9999 and every stored click was recorded in that period, the
    same holds after any of these requests. *)
Theorem store_is_append_only :
  (forall req,
      clicks (snd (create_handler env req w)) = clicks w
      /\ exists ls, links (snd (create_handler env req w)) = links w ++ ls
                    /\ (List.length ls <= 1)%nat)
  /\ (forall req,
         links (snd (redirect_handler env req w)) = links w
         /\ exists cs,
              clicks (snd (redirect_handler env req w)) = clicks w ++ cs
              /\ (List.length cs <= 1)%nat
              /\ forall c, In c cs -> click_tsUtc c = now env)
  /\ (forall req,
         links (snd (summary_handler env req w)) = links w
         /\ clicks (snd (summary_handler env req w)) = clicks w
         /\ links (snd (daily_handler env req w)) = links w
         /\ clicks (snd (daily_handler env req w)) = clicks w)
  /\ snd (list_handler w) = w
  /\ (recorded (now env) -> clicks_recorded w ->
      (forall req, clicks_recorded (snd (create_handler env req w)))
      /\ (forall req, clicks_recorded (snd (redirect_handler env req w)))
      /\ (forall req, clicks_recorded (snd (summary_handler env req w))
                      /\ clicks_recorded (snd (daily_handler env req w)))).
Proof.
  assert (Hcreate : forall req,
             clicks (snd (create_handler env req w)) = clicks w
             /\ exists ls, links (snd (create_handler env req w)) = links w ++ ls
                           /\ (List.length ls <= 1)%nat).
  { intros req.
    destruct (create_handler_result env req w) as [Hc [[Hl _]|[l Hk]]].
    - split; [exact Hc|]. exists []. rewrite app_nil_r.
      split; [exact Hl | cbn; lia].
    - destruct Hk as (_ & H2 & _). split; [exact Hc|]. exists [l].
      split; [exact H2 | cbn; lia]. }
  split; [exact Hcreate|].
  split; [exact redirect_appends|].
  split; [exact analytics_store_same|].
  split; [reflexivity|].
  intros Hnow Hrec. unfold clicks_recorded in *.
  split; [|split].
  - intros req c Hc. destruct (Hcreate req) as [E _]. rewrite E in Hc. auto.
  - intros req c Hc. destruct (redirect_appends req) as [_ [cs (E & _ & Hts)]].
    rewrite E in Hc. apply in_app_or in Hc as [Hc|Hc]; [auto|].
    rewrite (Hts c Hc). exact Hnow.
  - intros req.
    destruct (analytics_store_same req) as (_ & E1 & _ & E2).
    split; intros c Hc; [rewrite E1 in Hc | rewrite E2 in Hc]; auto.
Qed.

End AppendOnly.

(** ** The shapes of the answers *)

Section AnswerShapes.
Import Spec Prisma Middleware Links Redirect Validators Answers.

Variable env : Env.
Variable w : World.

Lemma shaped_validation (message : string) (details : list FieldIssue) :
  message <> EmptyString ->
  well_shaped (errorHandler (validation_error message details)).
Proof.
  intros Hm. unfold well_shaped, errorHandler, validation_error, js_or.
  cbn [thrown_status thrown_code thrown_message thrown_details res_body
       res_status Nat.eqb String.eqb Ascii.eqb].
  destruct (String.eqb_spec message EmptyString) as [E|_]; [contradiction|].
  split; [cbn; auto|]. split; [exact Hm|].
  split; [reflexivity | discriminate].
Qed.

Lemma shaped_plain_error (message : string) :
  message <> EmptyString -> well_shaped (errorHandler (js_Error message)).
Proof.
  intros Hm. unfold well_shaped, errorHandler, js_Error, js_or.
  cbn [thrown_status thrown_code thrown_message thrown_details res_body
       res_status].
  destruct (String.eqb_spec message EmptyString) as [E|_]; [contradiction|].
  split; [cbn; auto|]. split; [exact Hm|].
  split; [intros H; contradiction H; reflexivity | discriminate].
Qed.

Lemma shaped_analytics (e : Thrown) (dateRange : Dates.DateRange) (q : Query) :
  (parseDateRange env q = inl e
   \/ (parseDateRange env q = inr dateRange
       /\ Dates.normalizeRange env dateRange = inl e)) ->
  well_shaped (errorHandler e).
Proof.
  intros [Hp|[_ Hn]].
  - unfold parseDateRange in Hp.
    destruct (datetime_issues env "from" _ _ ++ datetime_issues env "to" _ _)
      as [|i rest]; [discriminate|].
    injection Hp as <-. apply shaped_validation. discriminate.
  - unfold Dates.normalizeRange in Hn.
    destruct (Calendar.date_gt _ _).
    + injection Hn as <-. apply shaped_plain_error. discriminate.
    + destruct (Dates.fromDate env dateRange), (Dates.toDate env dateRange);
        try discriminate; injection Hn as <-;
        apply shaped_plain_error; discriminate.
Qed.

(** X22. Every answer of the create, redirect, summary and daily
    handlers is well-shaped: 201 carries the created link, 200 a total
    or a daily series, 302 a redirect, 404 of the redirect route the
    plain text "Not found"; an error envelope has one of the code and
    status pairs VALIDATION_ERROR 400, NOT_FOUND 404, SLUG_TAKEN 409,
    INTERNAL 500, P2002 500, a message that is not empty, and [details]
    exactly when the code is VALIDATION_ERROR. *)
Theorem answers_are_well_shaped :
  (forall req r, fst (create_handler env req w) = Some r -> well_shaped r)
  /\ (forall req r, fst (redirect_handler env req w) = Some r -> well_shaped r)
  /\ (forall req r, fst (summary_handler env req w) = Some r -> well_shaped r)
  /\ (forall req r, fst (daily_handler env req w) = Some r -> well_shaped r).
Proof.
  assert (Hnf : well_shaped (errorHandler not_found)).
  { unfold well_shaped. cbn. split; [auto|]. split; [discriminate|].
    split; [intros H; contradiction H; reflexivity | discriminate]. }
  assert (Hid : well_shaped (errorHandler (P2002 ["id"]))).
  { unfold well_shaped. cbn. split; [auto 6|]. split; [discriminate|].
    split; [intros H; contradiction H; reflexivity | discriminate]. }
  split; [|split; [|split]].
  - intros req r Hr.
    destruct (create_handler_result env req w) as [_ [[_ Hk]|[l Hk]]].
    + destruct Hk as [[e [Hp Ho]]|[[Ho _]|[[Ho _]|Ho]]].
      * rewrite Ho in Hr. injection Hr as <-.
        destruct (parse_rejects env req e Hp) as [_ He]. rewrite He.
        unfold well_shaped. cbn. split; [auto|]. split; [discriminate|].
        split; [reflexivity | discriminate].
      * rewrite Ho in Hr. injection Hr as <-.
        unfold well_shaped. cbn. split; [auto|]. split; [discriminate|].
        split; [intros H; contradiction H; reflexivity | discriminate].
      * rewrite Ho in Hr. injection Hr as <-.
        unfold well_shaped. cbn. split; [auto 6|]. split; [discriminate|].
        split; [intros H; contradiction H; reflexivity | discriminate].
      * rewrite Ho in Hr. injection Hr as <-. exact Hid.
    + destruct Hk as [Ho _]. rewrite Ho in Hr. injection Hr as <-.
      reflexivity.
  - intros req r. rewrite redirect_run.
    destruct (find _ (links w)) as [l|].
    2:{ intros Hr. injection Hr as <-. split; reflexivity. }
    cbv zeta. destruct (click_id_used (cuid env (cuid_pos w)) w);
      intros Hr; injection Hr as <-; [exact Hid | reflexivity].
  - intros req r.
    destruct (link_exists_dec (param_id req) w) as [Hex|Hno].
    + rewrite (summary_known env req w Hex).
      destruct (parseDateRange env (req_query req)) as [e|dr] eqn:Hp.
      { intros Hr. injection Hr as <-.
        apply (shaped_analytics e (Dates.mkRange None None) (req_query req)).
        left. exact Hp. }
      destruct (Dates.normalizeRange env dr) as [e|[from to]] eqn:Hn;
        intros Hr; injection Hr as <-; [|reflexivity].
      apply (shaped_analytics e dr (req_query req)). right. auto.
    + rewrite (summary_unknown env req w Hno). intros Hr.
      injection Hr as <-. exact Hnf.
  - intros req r.
    destruct (link_exists_dec (param_id req) w) as [Hex|Hno].
    + rewrite (daily_known env req w Hex).
      destruct (parseDateRange env (req_query req)) as [e|dr] eqn:Hp.
      { intros Hr. injection Hr as <-.
        apply (shaped_analytics e (Dates.mkRange None None) (req_query req)).
        left. exact Hp. }
      destruct (Dates.normalizeRange env dr) as [e|[from to]] eqn:Hn;
        intros Hr; injection Hr as <-; [|reflexivity].
      apply (shaped_analytics e dr (req_query req)). right. auto.
    + rewrite (daily_unknown env req w Hno). intros Hr.
      injection Hr as <-. exact Hnf.
Qed.

End AnswerShapes.

(** ** A visit in the daily series *)

Section DailyVisit.
Import Calendar Sqlite Spec Prisma Middleware Links Redirect Schema Series.

Lemma counted_rows (k : option string) (groups : list (option string * nat)) :
  counted k (map to_row groups) = filed k groups.
Proof.
  induction groups as [|[k' n] groups IH]; cbn; [reflexivity|].
  destruct (key_dec k' k); [reflexivity | exact IH].
Qed.

Lemma counted_group_count (k : option string) (keys : list (option string)) :
  counted k (map to_row (group_count keys)) = count_occ key_dec keys k.
Proof.
  rewrite counted_rows.
  destruct (group_count_from keys [] ltac:(constructor) ltac:(constructor))
    as (_ & _ & H & _).
  exact (H k).
Qed.

Lemma redirect_of_link (env : Env) (req : RedirectRequest) (w : World)
      (l : Link) :
  slugs_unique w ->
  In l (links w) -> link_slug l = param_slug req ->
  click_id_used (cuid env (cuid_pos w)) w = false ->
  redirect_handler env req w
  = (Some (mkResponse 302%nat (RedirectTo (link_targetUrl l))),
     mkWorld (links w)
       (clicks w
        ++ [mkClick (cuid env (cuid_pos w)) (link_id l) (now env)
                    (js_nullish (header_user_agent req) EmptyString)])
       (calls w ++ [LinkFindUniqueBySlug (param_slug req);
                    ClickCreate (link_id l)
                      (js_nullish (header_user_agent req) EmptyString)])
       (rng_pos w) (S (cuid_pos w))).
Proof.
  intros Hu Hin Hslug Hfresh.
  rewrite redirect_run, <- Hslug, (find_unique_slug _ _ Hu Hin).
  cbv zeta. rewrite Hfresh. reflexivity.
Qed.

(** X23. A visit adds one to its day in the daily series and changes no
    other day: on a store with distinct slugs, after a redirect for the
    slug of link [l] served at a clock [t] between 1970 and 9999, the
    daily series of [l] over a normalised range that contains [t] shows
    for the UTC calendar date of [t] one more than before, and for every
    other day what it showed before. *)
Theorem daily_counts_redirect (env1 env2 : Env) (rreq : RedirectRequest)
        (areq : AnalyticsRequest) (w : World) (l : Link)
        (dateRange : Dates.DateRange) (from to : Z) :
  slugs_unique w ->
  In l (links w) -> link_slug l = param_slug rreq ->
  click_id_used (cuid env1 (cuid_pos w)) w = false ->
  param_id areq = link_id l ->
  Validators.parseDateRange env2 (req_query areq) = inr dateRange ->
  Dates.normalizeRange env2 dateRange = inr (from, to) ->
  recorded (now env1) ->
  from <= now env1 <= to ->
  let w1 := snd (redirect_handler env1 rreq w) in
  exists rows rows1,
    fst (daily_handler env2 areq w) = Some (mkResponse 200%nat (JsonDaily rows))
    /\ fst (daily_handler env2 areq w1)
       = Some (mkResponse 200%nat (JsonDaily rows1))
    /\ counted (Some (utc_calendar_date (now env1))) rows1
       = S (counted (Some (utc_calendar_date (now env1))) rows)
    /\ forall d, d <> Some (utc_calendar_date (now env1)) ->
                 counted d rows1 = counted d rows.
Proof.
  intros Hu Hin Hslug Hfresh Hid Hp Hn Hrec Hwin w1.
  assert (Hex : link_exists (param_id areq) w)
    by (exists l; split; [exact Hin | symmetry; exact Hid]).
  pose proof (redirect_of_link env1 rreq w l Hu Hin Hslug Hfresh) as Hrun.
  assert (Hex1 : link_exists (param_id areq) w1)
    by (unfold w1; rewrite Hrun; exact Hex).
  eexists. eexists.
  split; [rewrite (daily_known env2 areq w Hex), Hp, Hn; reflexivity|].
  split; [rewrite (daily_known env2 areq w1 Hex1), Hp, Hn; reflexivity|].
  rewrite !counted_group_count.
  assert (Hkeys : map day_key (clicks_within (param_id areq) from to w1)
                  = map day_key (clicks_within (param_id areq) from to w)
                    ++ [Some (utc_calendar_date (now env1))]).
  { rewrite <- !filter_in_window. unfold w1. rewrite Hrun.
    cbn [snd clicks]. rewrite filter_app. cbn [filter].
    unfold in_window at 2. cbn [click_linkId click_tsUtc].
    rewrite Hid, String.eqb_refl.
    destruct (Z.leb_spec from (now env1)); [|lia].
    destruct (Z.leb_spec (now env1) to); [|lia].
    cbn [andb]. rewrite map_app. cbn [map]. f_equal. f_equal.
    apply (day_key_recorded
             (mkClick (cuid env1 (cuid_pos w)) (link_id l) (now env1)
                      (js_nullish (header_user_agent rreq) EmptyString))).
    exact Hrec. }
  split.
  - rewrite Hkeys, count_occ_app. cbn [count_occ].
    destruct (key_dec _ _) as [_|N]; [lia | contradiction N; reflexivity].
  - intros d Hd. rewrite !counted_group_count, Hkeys, count_occ_app.
    cbn [count_occ].
    destruct (key_dec _ _) as [E|_]; [contradiction Hd; symmetry; exact E | lia].
Qed.

End DailyVisit.

(** ** Further instances on the concrete store *)

Section FurtherInstances.
Import Calendar Sqlite Spec Prisma Middleware Links Redirect Dates Validators.
Import Schema Listing Seed.

Local Abbreviation target := "https://example.com/x".
Local Abbreviation custom := (Scenario.create_request (Some "my-link")).
Local Abbreviation created :=
  (snd (create_handler Scenario.env custom Scenario.quiet)).
Local Abbreviation known := (mkAnalyticsRequest "L1" Scenario.query).
Local Abbreviation window := (Dates.mkRange (Some "2025-01-01T00:00:00.000Z")
                                            (Some "2025-01-03T23:59:59.999Z")).

Lemma quiet_consistent : consistent Scenario.quiet.
Proof.
  unfold consistent, slugs_unique, link_ids_unique, click_ids_unique,
    clicks_reference_links. cbn.
  split; [|split; [|split]].
  - constructor; [intros [] | constructor].
  - constructor; [intros [] | constructor].
  - constructor.
  - intros c [].
Qed.

Lemma quiet_well_formed : slugs_well_formed Scenario.quiet.
Proof. intros l [<-|[]]. reflexivity. Qed.

Lemma custom_created :
  fst (create_handler Scenario.env custom Scenario.quiet)
  = Some (mkResponse 201%nat
            (JsonCreated "ca" "my-link" target "http://sho.rt/r/my-link"
                         1735725600000)).
Proof. vm_compute. reflexivity. Qed.

(** The create handler on the quiet store keeps the schema. *)
Lemma create_keeps_schema_witness :
  consistent Scenario.quiet
  /\ slugs_well_formed Scenario.quiet
  /\ consistent created
  /\ slugs_well_formed created.
Proof.
  pose proof (create_keeps_schema Scenario.env custom Scenario.quiet) as [H1 H2].
  exact (conj quiet_consistent
           (conj quiet_well_formed
              (conj (H1 quiet_consistent) (H2 quiet_well_formed)))).
Defined.

(** A slug with a space is refused and nothing is spent. *)
Lemma create_rejects_invalid_body_witness :
  create_handler Scenario.env (Scenario.create_request (Some "my slug"))
                 Scenario.store
  = (Some (mkResponse 400%nat
             (JsonError "VALIDATION_ERROR" "Invalid request data"
                (Some [mkIssue "slug"
                         "Slug must be 1-64 characters of letters, numbers, underscore, or dash"]))),
     Scenario.store).
Proof.
  exact (proj1 (proj1 (proj2 (create_rejects_invalid_body Scenario.env
                                (Scenario.create_request (Some "my slug"))
                                Scenario.store))
                      ltac:(discriminate))).
Defined.

Lemma create_same_slug_twice_witness :
  fst (create_handler Scenario.env custom created)
  = Some (mkResponse 409%nat (JsonError "SLUG_TAKEN" "Slug already exists" None))
  /\ links (snd (create_handler Scenario.env custom created)) = links created
  /\ clicks (snd (create_handler Scenario.env custom created)) = clicks created.
Proof.
  exact (create_same_slug_twice Scenario.env Scenario.env custom custom
           Scenario.quiet "my-link" "ca" target "http://sho.rt/r/my-link"
           1735725600000 eq_refl eq_refl eq_refl custom_created).
Defined.

Lemma redirect_after_create_witness :
  fst (redirect_handler Scenario.env (mkRedirectRequest "my-link" None) created)
  = Some (mkResponse 302%nat (RedirectTo target))
  /\ clicks (snd (redirect_handler Scenario.env
                    (mkRedirectRequest "my-link" None) created))
     = [mkClick "cb" "ca" 1735725600000 EmptyString].
Proof.
  destruct (redirect_after_create Scenario.env Scenario.env custom
              (mkRedirectRequest "my-link" None) Scenario.quiet
              "ca" "my-link" target "http://sho.rt/r/my-link" 1735725600000
              custom_created eq_refl eq_refl) as (_ & H1 & H2 & _).
  exact (conj H1 H2).
Defined.

Lemma window_accepted :
  parseDateRange Scenario.env Scenario.query = inr window
  /\ normalizeRange Scenario.env window = inr (1735689600000, 1735948799999).
Proof. split; vm_compute; reflexivity. Qed.

Lemma analytics_of_new_link_witness :
  clicks_reference_links Scenario.quiet
  /\ fst (summary_handler Scenario.env (mkAnalyticsRequest "ca" Scenario.query)
                          created)
     = Some (mkResponse 200%nat (JsonTotal 0))
  /\ fst (daily_handler Scenario.env (mkAnalyticsRequest "ca" Scenario.query)
                        created)
     = Some (mkResponse 200%nat (JsonDaily [])).
Proof.
  assert (Hfk : clicks_reference_links Scenario.quiet) by (intros c []).
  exact (conj Hfk
           (analytics_of_new_link Scenario.env Scenario.env custom
              (mkAnalyticsRequest "ca" Scenario.query) Scenario.quiet
              "ca" "my-link" target "http://sho.rt/r/my-link" 1735725600000
              window 1735689600000 1735948799999
              Hfk custom_created eq_refl
              (proj1 window_accepted) (proj2 window_accepted))).
Defined.

Lemma summary_counts_redirect_witness :
  fst (redirect_handler Scenario.env
         (mkRedirectRequest "analytics-test" None) Scenario.store)
  = Some (mkResponse 302%nat (RedirectTo "https://example.com/analytics"))
  /\ exists n,
       fst (summary_handler Scenario.env known Scenario.store)
       = Some (mkResponse 200%nat (JsonTotal n))
       /\ fst (summary_handler Scenario.env known
                 (snd (redirect_handler Scenario.env
                         (mkRedirectRequest "analytics-test" None)
                         Scenario.store)))
          = Some (mkResponse 200%nat (JsonTotal (S n))).
Proof.
  assert (Hu : slugs_unique Scenario.store)
    by (constructor; [intros [] | constructor]).
  exact (summary_counts_redirect Scenario.env Scenario.env
           (mkRedirectRequest "analytics-test" None) known Scenario.store
           Scenario.link1 window 1735689600000 1735948799999
           Hu (or_introl eq_refl) eq_refl eq_refl
           (ex_intro _ Scenario.link1 (conj (or_introl eq_refl) eq_refl))
           (proj1 window_accepted) (proj2 window_accepted)).
Defined.

Lemma redirect_keeps_schema_witness :
  consistent Scenario.quiet
  /\ consistent (snd (redirect_handler Scenario.env
                        (mkRedirectRequest "analytics-test" None)
                        Scenario.quiet)).
Proof.
  exact (conj quiet_consistent
           (proj2 (redirect_keeps_schema Scenario.env
                     (mkRedirectRequest "analytics-test" None) Scenario.quiet)
                  quiet_consistent)).
Defined.

Lemma analytics_rejects_malformed_dates_witness :
  summary_handler Scenario.env
    (mkAnalyticsRequest "L1" (mkQuery (Some "yesterday") None)) Scenario.store
  = (Some (mkResponse 400%nat
             (JsonError "VALIDATION_ERROR" "Invalid date range parameters"
                (Some [mkIssue "from"
                         "From date must be a valid ISO datetime string"]))),
     record_call (LinkFindUniqueById "L1") Scenario.store).
Proof.
  exact (proj1 (proj2 (analytics_rejects_malformed_dates Scenario.env
                         (mkAnalyticsRequest "L1"
                            (mkQuery (Some "yesterday") None))
                         Scenario.store)
                      (ex_intro _ Scenario.link1
                         (conj (or_introl eq_refl) eq_refl))
                      ltac:(discriminate))).
Defined.


Lemma scenario_clock : clock_in_range Scenario.env.
Proof. unfold clock_in_range. cbn. unfold maxTime, msPerDay. lia. Qed.

Lemma normalizeRange_one_boundary_witness :
  normalizeRange Scenario.env (mkRange (Some "2025-01-03T23:59:59.999Z") None)
  = inl range_order_error
  /\ normalizeRange Scenario.env
       (mkRange None (Some "2025-01-03T23:59:59.999Z"))
     = inr (1733097600000, 1735948799999).
Proof.
  destruct (normalizeRange_one_boundary Scenario.env
              "2025-01-03T23:59:59.999Z" 1735948799999
              scenario_clock ltac:(discriminate) eq_refl) as (H1 & H2 & _).
  exact (conj H1 H2).
Defined.

Lemma default_range_days_witness :
  exists from to,
    normalizeRange Scenario.env (mkRange None None) = inr (from, to)
    /\ (forall t, from <= t <= to
                  <-> Day (now Scenario.env) - 30 <= Day t
                      <= Day (now Scenario.env))
    /\ from <= now Scenario.env <= to
    /\ to - from + 1 = 31 * msPerDay.
Proof. exact (default_range_days Scenario.env scenario_clock). Defined.

Lemma listing_after_create_witness :
  fst (list_handler Scenario.quiet) = Some (JsonLinks 200%nat [Scenario.link1])
  /\ fst (list_handler created)
     = Some (JsonLinks 200%nat
               [mkLink "ca" "my-link" target 1735725600000; Scenario.link1]).
Proof.
  destruct (listing_after_create Scenario.env custom Scenario.quiet
              "ca" "my-link" target "http://sho.rt/r/my-link" 1735725600000)
    as (rows & H1 & H2).
  - intros x [<-|[]]. cbn. lia.
  - exact custom_created.
  - assert (E : rows = [Scenario.link1]).
    { cbn in H1. injection H1 as <-. reflexivity. }
    rewrite E in H2. split; [reflexivity | exact H2].
Defined.

Lemma seed_click_time_witness :
  exists t,
    clickTime Scenario.env 11 1 15 7 = Some t
    /\ Day t = Day (now Scenario.env) - 1
    /\ TimeWithinDay t
       = MakeTime (click_hour 15 7) (click_minute 11 7) (click_second 11 7)
                  (Z.rem 7 1000)
    /\ HourFromTime t = click_hour 15 7
    /\ 0 <= HourFromTime t <= 23
    /\ 0 <= userAgent_index 11 7 < USER_AGENTS_length
    /\ exists from to,
         normalizeRange Scenario.env (mkRange None None) = inr (from, to)
         /\ from <= t <= to.
Proof.
  exact (seed_click_time Scenario.env scenario_clock 11 1 15 7
           ltac:(lia) ltac:(lia) ltac:(lia)).
Defined.

Lemma seed_clicks_follow_pattern_witness :
  List.length (on_day (Day (now Scenario.env) - 2)
                 (link_click_times Scenario.env 11 DAILY_CLICK_COUNTS))
  = 25%nat
  /\ List.length (link_click_times Scenario.env 11 DAILY_CLICK_COUNTS)
     = 120%nat.
Proof.
  destruct (seed_clicks_follow_pattern Scenario.env scenario_clock 11
              DAILY_CLICK_COUNTS ltac:(lia)) as (_ & H2 & H3).
  exact (conj (H2 2%nat ltac:(lia)) H3).
Defined.

Lemma daily_series_size_witness :
  exists rows total,
    fst (daily_handler Scenario.env known Scenario.store)
    = Some (mkResponse 200%nat (JsonDaily rows))
    /\ fst (summary_handler Scenario.env known Scenario.store)
       = Some (mkResponse 200%nat (JsonTotal total))
    /\ Z.of_nat (List.length rows)
       <= Day 1735948799999 - Day 1735689600000 + 1
    /\ (List.length rows <= total)%nat.
Proof.
  exact (daily_series_size Scenario.env known Scenario.store window
           1735689600000 1735948799999
           scenario_link_exists
           (proj1 window_accepted) (proj2 window_accepted)
           (clicks_recorded_window _ _ _ _ scenario_clicks_recorded)).
Defined.

Lemma store_is_append_only_witness :
  recorded (now Scenario.env)
  /\ clicks_recorded Scenario.store
  /\ clicks_recorded
       (snd (redirect_handler Scenario.env
               (mkRedirectRequest "analytics-test" None) Scenario.store)).
Proof.
  assert (Hnow : recorded (now Scenario.env))
    by (unfold recorded, max_recorded; cbn; lia).
  destruct (store_is_append_only Scenario.env Scenario.store)
    as (_ & _ & _ & _ & H).
  destruct (H Hnow scenario_clicks_recorded) as (_ & Hr & _).
  exact (conj Hnow
           (conj scenario_clicks_recorded
              (Hr (mkRedirectRequest "analytics-test" None)))).
Defined.

Lemma answers_are_well_shaped_witness :
  Answers.well_shaped
    (mkResponse 409%nat (JsonError "SLUG_TAKEN" "Slug already exists" None))
  /\ Answers.well_shaped
       (mkResponse 404%nat (JsonError "NOT_FOUND" "Link not found" None)).
Proof.
  destruct (answers_are_well_shaped Scenario.env Scenario.store)
    as (Hcreate & _ & Hsummary & _).
  exact (conj (Hcreate (Scenario.create_request (Some "analytics-test")) _
                       eq_refl)
              (Hsummary (mkAnalyticsRequest "nonexistent-id" Scenario.query) _
                        eq_refl)).
Defined.

Lemma daily_counts_redirect_witness :
  exists rows rows1,
    fst (daily_handler Scenario.env known Scenario.store)
    = Some (mkResponse 200%nat (JsonDaily rows))
    /\ fst (daily_handler Scenario.env known
              (snd (redirect_handler Scenario.env
                      (mkRedirectRequest "analytics-test" None)
                      Scenario.store)))
       = Some (mkResponse 200%nat (JsonDaily rows1))
    /\ Series.counted (Some (utc_calendar_date (now Scenario.env))) rows1
       = S (Series.counted (Some (utc_calendar_date (now Scenario.env))) rows).
Proof.
  assert (Hu : slugs_unique Scenario.store)
    by (constructor; [intros [] | constructor]).
  assert (Hnow : recorded (now Scenario.env))
    by (unfold recorded, max_recorded; cbn; lia).
  assert (Hin : 1735689600000 <= now Scenario.env <= 1735948799999)
    by (cbn; lia).
  destruct (daily_counts_redirect Scenario.env Scenario.env
              (mkRedirectRequest "analytics-test" None) known Scenario.store
              Scenario.link1 window 1735689600000 1735948799999
              Hu (or_introl eq_refl) eq_refl eq_refl eq_refl
              (proj1 window_accepted) (proj2 window_accepted) Hnow Hin)
    as (rows & rows1 & H1 & H2 & H3 & _).
  exact (ex_intro _ rows (ex_intro _ rows1 (conj H1 (conj H2 H3)))).
Defined.

End FurtherInstances.
